(** * Tea-brewing API: the in-memory store and the request handlers built on it

    A shallow embedding of [app/store/memory.py], of the entity schemas under
    [app/schemas/] and of the handlers of [app/routes/] that the verified
    properties speak about.

    Conventions.
    - Python [int] is [Z]; [datetime] is a [Z] (an instant on the UTC time
      line, only compared and copied); [str] is [string]; [X | None] is
      [option X].
    - A Python [dict] keeps its keys in insertion order, and the list
      operations of the store depend on it, so a dict is an association list
      ([PyDict]) with pairwise distinct keys.
    - Every method of [MemoryStore] runs inside [with self._lock]: it is one
      atomic transition of the store, a function [MemoryStore -> A * MemoryStore].
    - [uuid4()] and [datetime.now(timezone.utc)] are read from the environment:
      a handler takes the fresh identifier and the clock reading as arguments. *)

From Stdlib Require Import ZArith List String Bool Lia Ascii Permutation Sorted.
Import ListNotations.

Local Open Scope string_scope.
Local Open Scope list_scope.
Local Open Scope Z_scope.

(** ** Python values *)

(** [bool(s)] for a [str]. *)
Definition truthy_str (s : string) : bool := negb (String.eqb s "").

(** [bool(n)] for an [int]. *)
Definition truthy_int (n : Z) : bool := negb (n =? 0).

(** [len(xs)] as a Python [int]. *)
Definition len {A : Type} (xs : list A) : Z := Z.of_nat (List.length xs).

(** An index of a slice, as [list.__getitem__] normalises it for a list of
    length [n]: a negative index counts from the end, and both ends are
    clamped into [0..n]. *)
Definition slice_index (i n : Z) : Z :=
  if i <? 0 then Z.max (i + n) 0 else Z.min i n.

(** [xs[start:stop]]. *)
Definition py_slice {A : Type} (xs : list A) (start stop : Z) : list A :=
  let n := len xs in
  let s := slice_index start n in
  let e := slice_index stop n in
  firstn (Z.to_nat (e - s)) (skipn (Z.to_nat s) xs).

(** [max(xs)] of a non-empty sequence whose head is [x]. *)
Definition py_max (x : Z) (xs : list Z) : Z := fold_left Z.max xs x.

(** [xs.sort(key=key)]: a stable sort. Each element is inserted behind the
    elements whose key is not greater, so equal keys keep their order. *)
Fixpoint insert_by {A : Type} (key : A -> Z) (x : A) (xs : list A) : list A :=
  match xs with
  | [] => [x]
  | y :: ys => if key x <? key y then x :: y :: ys else y :: insert_by key x ys
  end.

Definition sort_by {A : Type} (key : A -> Z) (xs : list A) : list A :=
  fold_left (fun acc x => insert_by key x acc) xs [].

(** ** Insertion-ordered dictionaries with [str] keys *)

Module PyDict.
Section Dict.
Context {V : Type}.

Definition t : Type := list (string * V).

Definition empty : t := [].

(** [d.get(k)] *)
Fixpoint get (d : t) (k : string) : option V :=
  match d with
  | [] => None
  | (k', v) :: r => if String.eqb k k' then Some v else get r k
  end.

(** [k in d] *)
Definition contains (d : t) (k : string) : bool :=
  match get d k with Some _ => true | None => false end.

(** [d[k] = v]: a present key keeps its position, a new key goes last. *)
Fixpoint setitem (d : t) (k : string) (v : V) : t :=
  match d with
  | [] => [(k, v)]
  | (k', v') :: r =>
      if String.eqb k k' then (k', v) :: r else (k', v') :: setitem r k v
  end.

(** [del d[k]]. On a missing key Python raises [KeyError]; every caller in
    the store tests [k in d] first, and here the dict is returned as it is. *)
Fixpoint delitem (d : t) (k : string) : t :=
  match d with
  | [] => []
  | (k', v') :: r => if String.eqb k k' then r else (k', v') :: delitem r k
  end.

Definition keys (d : t) : list string := map fst d.
Definition values (d : t) : list V := map snd d.
Definition items (d : t) : list (string * V) := d.

(** [{k: v for k, v in kvs}]: the pairs are stored one after the other. *)
Definition of_items (kvs : list (string * V)) : t :=
  fold_left (fun acc kv => setitem acc (fst kv) (snd kv)) kvs empty.

(** The representation invariant: keys are pairwise distinct. *)
Definition wf (d : t) : Prop := NoDup (keys d).
End Dict.
Arguments t : clear implicits.
End PyDict.

(** ** Entities ([app/schemas]) *)

Inductive TeapotMaterial :=
  CERAMIC | CAST_IRON | GLASS | PORCELAIN | CLAY | STAINLESS_STEEL.

Inductive TeapotStyle := KYUSU | GAIWAN | ENGLISH | MOROCCAN | TURKISH | YIXING.

Inductive TeaType := GREEN | BLACK | OOLONG | WHITE | PUERH | HERBAL | ROOIBOS.

Inductive CaffeineLevel := NONE | LOW | MEDIUM | HIGH.

Inductive BrewStatus := PREPARING | STEEPING | READY | SERVED | COLD.

(** The enumerations mix in [str]: a member is its value. *)
Definition TeapotMaterial_value (m : TeapotMaterial) : string :=
  match m with
  | CERAMIC => "ceramic" | CAST_IRON => "cast-iron" | GLASS => "glass"
  | PORCELAIN => "porcelain" | CLAY => "clay" | STAINLESS_STEEL => "stainless-steel"
  end.

Definition TeapotStyle_value (s : TeapotStyle) : string :=
  match s with
  | KYUSU => "kyusu" | GAIWAN => "gaiwan" | ENGLISH => "english"
  | MOROCCAN => "moroccan" | TURKISH => "turkish" | YIXING => "yixing"
  end.

Definition TeaType_value (t : TeaType) : string :=
  match t with
  | GREEN => "green" | BLACK => "black" | OOLONG => "oolong" | WHITE => "white"
  | PUERH => "puerh" | HERBAL => "herbal" | ROOIBOS => "rooibos"
  end.

Definition CaffeineLevel_value (c : CaffeineLevel) : string :=
  match c with
  | NONE => "none" | LOW => "low" | MEDIUM => "medium" | HIGH => "high"
  end.

Definition BrewStatus_value (s : BrewStatus) : string :=
  match s with
  | PREPARING => "preparing" | STEEPING => "steeping" | READY => "ready"
  | SERVED => "served" | COLD => "cold"
  end.

(** [a == b] on members of one enumeration compares their values. *)
Definition TeapotMaterial_eqb (a b : TeapotMaterial) : bool :=
  String.eqb (TeapotMaterial_value a) (TeapotMaterial_value b).
Definition TeapotStyle_eqb (a b : TeapotStyle) : bool :=
  String.eqb (TeapotStyle_value a) (TeapotStyle_value b).
Definition TeaType_eqb (a b : TeaType) : bool :=
  String.eqb (TeaType_value a) (TeaType_value b).
Definition CaffeineLevel_eqb (a b : CaffeineLevel) : bool :=
  String.eqb (CaffeineLevel_value a) (CaffeineLevel_value b).
Definition BrewStatus_eqb (a b : BrewStatus) : bool :=
  String.eqb (BrewStatus_value a) (BrewStatus_value b).

Record Teapot := {
  teapot_id_ : string;                (* id *)
  teapot_name : string;               (* name *)
  teapot_material : TeapotMaterial;   (* material *)
  teapot_capacity_ml : Z;             (* capacity_ml *)
  teapot_style : TeapotStyle;         (* style *)
  teapot_description : option string; (* description *)
  teapot_created_at : Z;              (* created_at *)
  teapot_updated_at : Z               (* updated_at *)
}.

Record Tea := {
  tea_id_ : string;                   (* id *)
  tea_name : string;                  (* name *)
  tea_type : TeaType;                 (* type *)
  tea_origin : option string;         (* origin *)
  tea_caffeine_level : CaffeineLevel; (* caffeine_level *)
  tea_steep_temp_celsius : Z;         (* steep_temp_celsius *)
  tea_steep_time_seconds : Z;         (* steep_time_seconds *)
  tea_description : option string;    (* description *)
  tea_created_at : Z;                 (* created_at *)
  tea_updated_at : Z                  (* updated_at *)
}.

Record Brew := {
  brew_id_ : string;                  (* id *)
  brew_teapot_id : string;            (* teapot_id *)
  brew_tea_id : string;               (* tea_id *)
  brew_status : BrewStatus;           (* status *)
  brew_water_temp_celsius : Z;        (* water_temp_celsius *)
  brew_notes : option string;         (* notes *)
  brew_started_at : Z;                (* started_at *)
  brew_completed_at : option Z;       (* completed_at *)
  brew_created_at : Z;                (* created_at *)
  brew_updated_at : Z                 (* updated_at *)
}.

Record Steep := {
  steep_id_ : string;                 (* id *)
  steep_brew_id : string;             (* brew_id *)
  steep_number : Z;                   (* steep_number *)
  steep_duration_seconds : Z;         (* duration_seconds *)
  steep_rating : option Z;            (* rating *)
  steep_notes : option string;        (* notes *)
  steep_created_at : Z                (* created_at *)
}.

(** Field constraints ([Field(ge=, le=, min_length=, max_length=)]). *)
Definition in_range (lo hi n : Z) : bool := (lo <=? n) && (n <=? hi).
Definition len_in (lo hi : Z) (s : string) : bool :=
  in_range lo hi (Z.of_nat (String.length s)).
Definition opt_ok {A : Type} (p : A -> bool) (o : option A) : bool :=
  match o with None => true | Some a => p a end.

(** ** Queries *)

Record PaginationQuery := {
  pq_page : Z;   (* page, default 1, ge=1 *)
  pq_limit : Z   (* limit, default 20, ge=1, le=100 *)
}.

Record TeapotQuery := {
  tq_page : Z;
  tq_limit : Z;
  tq_material : option TeapotMaterial;
  tq_style : option TeapotStyle
}.

Record TeaQuery := {
  eq_page : Z;
  eq_limit : Z;
  eq_type : option TeaType;
  eq_caffeine_level : option CaffeineLevel
}.

Record BrewQuery := {
  bq_page : Z;
  bq_limit : Z;
  bq_status : option BrewStatus;
  bq_teapot_id : option string;
  bq_tea_id : option string
}.

(** [if query.field:] on an optional filter: [None] is false, and a value is
    judged as the [str] it is. *)
Definition truthy_opt {A : Type} (value : A -> string) (o : option A) : bool :=
  match o with None => false | Some a => truthy_str (value a) end.

(** [items = [x for x in items if x.field == query.field]] under
    [if query.field:]. *)
Definition filter_if {A F : Type} (value : F -> string) (eqb : F -> F -> bool)
    (field : A -> F) (q : option F) (items : list A) : list A :=
  match q with
  | Some f => if truthy_str (value f) then filter (fun x => eqb (field x) f) items
              else items
  | None => items
  end.

(** ** The store ([app/store/memory.py]) *)

Record MemoryStore := {
  _teapots : PyDict.t Teapot;
  _teas : PyDict.t Tea;
  _brews : PyDict.t Brew;
  _steeps : PyDict.t Steep
}.

(** A method body under [with self._lock]: one atomic transition. *)
Definition Locked (A : Type) : Type := MemoryStore -> A * MemoryStore.

Module Store.

(** [MemoryStore()] *)
Definition init : MemoryStore :=
  {| _teapots := PyDict.empty; _teas := PyDict.empty;
     _brews := PyDict.empty; _steeps := PyDict.empty |}.


(** *** Teapot methods *)

Definition list_teapots (query : TeapotQuery) : Locked (list Teapot * Z) :=
  fun self =>
    let items := PyDict.values (_teapots self) in
    let items := filter_if TeapotMaterial_value TeapotMaterial_eqb
                   teapot_material (tq_material query) items in
    let items := filter_if TeapotStyle_value TeapotStyle_eqb
                   teapot_style (tq_style query) items in
    let total := len items in
    let start := (tq_page query - 1) * tq_limit query in
    let end_ := start + tq_limit query in
    ((py_slice items start end_, total), self).

Definition create_teapot (teapot : Teapot) : Locked unit := fun self =>
  (tt, {| _teapots := PyDict.setitem (_teapots self) (teapot_id_ teapot) teapot;
          _teas := _teas self; _brews := _brews self; _steeps := _steeps self |}).

Definition get_teapot (id : string) : Locked (option Teapot) := fun self =>
  (PyDict.get (_teapots self) id, self).

Definition update_teapot (teapot : Teapot) : Locked unit := fun self =>
  (tt, {| _teapots := PyDict.setitem (_teapots self) (teapot_id_ teapot) teapot;
          _teas := _teas self; _brews := _brews self; _steeps := _steeps self |}).

Definition delete_teapot (id : string) : Locked bool := fun self =>
  if negb (PyDict.contains (_teapots self) id) then (false, self)
  else
    (true, {| _teapots := PyDict.delitem (_teapots self) id;
              _teas := _teas self; _brews := _brews self;
              _steeps := _steeps self |}).

(** *** Tea methods *)

Definition list_teas (query : TeaQuery) : Locked (list Tea * Z) := fun self =>
  let items := PyDict.values (_teas self) in
  let items := filter_if TeaType_value TeaType_eqb
                 tea_type (eq_type query) items in
  let items := filter_if CaffeineLevel_value CaffeineLevel_eqb
                 tea_caffeine_level (eq_caffeine_level query) items in
  let total := len items in
  let start := (eq_page query - 1) * eq_limit query in
  let end_ := start + eq_limit query in
  ((py_slice items start end_, total), self).

Definition create_tea (tea : Tea) : Locked unit := fun self =>
  (tt, {| _teapots := _teapots self;
          _teas := PyDict.setitem (_teas self) (tea_id_ tea) tea;
          _brews := _brews self; _steeps := _steeps self |}).

Definition get_tea (id : string) : Locked (option Tea) := fun self =>
  (PyDict.get (_teas self) id, self).

Definition update_tea (tea : Tea) : Locked unit := fun self =>
  (tt, {| _teapots := _teapots self;
          _teas := PyDict.setitem (_teas self) (tea_id_ tea) tea;
          _brews := _brews self; _steeps := _steeps self |}).

Definition delete_tea (id : string) : Locked bool := fun self =>
  if negb (PyDict.contains (_teas self) id) then (false, self)
  else
    (true, {| _teapots := _teapots self;
              _teas := PyDict.delitem (_teas self) id;
              _brews := _brews self; _steeps := _steeps self |}).

(** *** Brew methods *)

Definition list_brews (query : BrewQuery) : Locked (list Brew * Z) := fun self =>
  let items := PyDict.values (_brews self) in
  let items := filter_if BrewStatus_value BrewStatus_eqb
                 brew_status (bq_status query) items in
  let items := filter_if (fun s : string => s) String.eqb
                 brew_teapot_id (bq_teapot_id query) items in
  let items := filter_if (fun s : string => s) String.eqb
                 brew_tea_id (bq_tea_id query) items in
  let total := len items in
  let start := (bq_page query - 1) * bq_limit query in
  let end_ := start + bq_limit query in
  ((py_slice items start end_, total), self).

Definition list_brews_by_teapot (teapot_id : string) (query : PaginationQuery)
  : Locked (list Brew * Z) := fun self =>
  let items := filter (fun b => String.eqb (brew_teapot_id b) teapot_id)
                 (PyDict.values (_brews self)) in
  let total := len items in
  let start := (pq_page query - 1) * pq_limit query in
  let end_ := start + pq_limit query in
  ((py_slice items start end_, total), self).

Definition create_brew (brew : Brew) : Locked unit := fun self =>
  (tt, {| _teapots := _teapots self; _teas := _teas self;
          _brews := PyDict.setitem (_brews self) (brew_id_ brew) brew;
          _steeps := _steeps self |}).

Definition get_brew (id : string) : Locked (option Brew) := fun self =>
  (PyDict.get (_brews self) id, self).

Definition update_brew (brew : Brew) : Locked unit := fun self =>
  (tt, {| _teapots := _teapots self; _teas := _teas self;
          _brews := PyDict.setitem (_brews self) (brew_id_ brew) brew;
          _steeps := _steeps self |}).

Definition delete_brew (id : string) : Locked bool := fun self =>
  if negb (PyDict.contains (_brews self) id) then (false, self)
  else
    let brews := PyDict.delitem (_brews self) id in
    (* Also delete associated steeps *)
    let steeps :=
      PyDict.of_items
        (filter (fun kv => negb (String.eqb (steep_brew_id (snd kv)) id))
           (PyDict.items (_steeps self))) in
    (true, {| _teapots := _teapots self; _teas := _teas self;
              _brews := brews; _steeps := steeps |}).

(** *** Steep methods *)

Definition list_steeps_by_brew (brew_id : string) (query : PaginationQuery)
  : Locked (list Steep * Z) := fun self =>
  let items := filter (fun s => String.eqb (steep_brew_id s) brew_id)
                 (PyDict.values (_steeps self)) in
  (* Sort by steep number *)
  let items := sort_by steep_number items in
  let total := len items in
  let start := (pq_page query - 1) * pq_limit query in
  let end_ := start + pq_limit query in
  ((py_slice items start end_, total), self).

Definition create_steep (steep : Steep) : Locked unit := fun self =>
  (tt, {| _teapots := _teapots self; _teas := _teas self;
          _brews := _brews self;
          _steeps := PyDict.setitem (_steeps self) (steep_id_ steep) steep |}).

Definition get_next_steep_number (brew_id : string) : Locked Z := fun self =>
  let existing := filter (fun s => String.eqb (steep_brew_id s) brew_id)
                    (PyDict.values (_steeps self)) in
  match existing with
  | [] => (1, self)
  | s :: rest => (py_max (steep_number s) (map steep_number rest) + 1, self)
  end.

Definition get_steep (id : string) : Locked (option Steep) := fun self =>
  (PyDict.get (_steeps self) id, self).

(** The representation invariant of the four dicts. *)
Definition wf (self : MemoryStore) : Prop :=
  PyDict.wf (_teapots self) /\ PyDict.wf (_teas self) /\
  PyDict.wf (_brews self) /\ PyDict.wf (_steeps self).

End Store.

(** ** Request bodies and entity validation ([app/schemas]) *)

(** The constraints a [Teapot], [Tea], [Brew] or [Steep] checks when it is
    constructed or validated. *)
Definition Teapot_ok (t : Teapot) : bool :=
  len_in 1 100 (teapot_name t) && in_range 1 5000 (teapot_capacity_ml t)
  && opt_ok (len_in 0 500) (teapot_description t).

Definition Tea_ok (t : Tea) : bool :=
  len_in 1 100 (tea_name t) && opt_ok (len_in 0 100) (tea_origin t)
  && in_range 60 100 (tea_steep_temp_celsius t)
  && in_range 1 600 (tea_steep_time_seconds t)
  && opt_ok (len_in 0 1000) (tea_description t).

Definition Brew_ok (b : Brew) : bool :=
  in_range 60 100 (brew_water_temp_celsius b)
  && opt_ok (len_in 0 500) (brew_notes b).

Definition Steep_ok (s : Steep) : bool :=
  (1 <=? steep_number s) && (1 <=? steep_duration_seconds s)
  && opt_ok (in_range 1 5) (steep_rating s)
  && opt_ok (len_in 0 200) (steep_notes s).

(** [Model(...)]: the instance, or [None] where pydantic raises
    [ValidationError]. *)
Definition construct {A : Type} (ok : A -> bool) (a : A) : option A :=
  if ok a then Some a else None.

Record CreateBrewRequest := {
  cb_teapot_id : string;                (* teapot_id *)
  cb_tea_id : string;                   (* tea_id *)
  cb_water_temp_celsius : option Z;     (* water_temp_celsius, ge=60, le=100 *)
  cb_notes : option string              (* notes, max_length=500 *)
}.

Record CreateSteepRequest := {
  cs_duration_seconds : Z;              (* duration_seconds, ge=1 *)
  cs_rating : option Z;                 (* rating, ge=1, le=5 *)
  cs_notes : option string              (* notes, max_length=200 *)
}.

(** A field of a PATCH body: left out, or given ([null] or a value). It is
    what [model_dump(exclude_unset=True)] tells apart. *)
Inductive Patch (A : Type) : Type :=
| Unset : Patch A
| Given : option A -> Patch A.
Arguments Unset {A}.
Arguments Given {A} _.

Definition patch_ok {A : Type} (p : A -> bool) (f : Patch A) : bool :=
  match f with Given (Some a) => p a | _ => true end.

Record PatchTeapotRequest := {
  pt_name : Patch string;
  pt_material : Patch TeapotMaterial;
  pt_capacity_ml : Patch Z;
  pt_style : Patch TeapotStyle;
  pt_description : Patch string
}.

Record PatchTeaRequest := {
  pe_name : Patch string;
  pe_type : Patch TeaType;
  pe_origin : Patch string;
  pe_caffeine_level : Patch CaffeineLevel;
  pe_steep_temp_celsius : Patch Z;
  pe_steep_time_seconds : Patch Z;
  pe_description : Patch string
}.

Record PatchBrewRequest := {
  pb_status : Patch BrewStatus;
  pb_notes : Patch string;
  pb_completed_at : Patch Z
}.

(** The fields a request model rejects (the keys of the error's [details];
    the message texts are pydantic's and are not modelled). *)
Definition field_error (name : string) (ok : bool) : list string :=
  if ok then [] else [name].

Definition CreateBrewRequest_errors (d : CreateBrewRequest) : list string :=
  field_error "waterTempCelsius" (opt_ok (in_range 60 100) (cb_water_temp_celsius d))
  ++ field_error "notes" (opt_ok (len_in 0 500) (cb_notes d)).

Definition CreateSteepRequest_errors (d : CreateSteepRequest) : list string :=
  field_error "durationSeconds" (1 <=? cs_duration_seconds d)
  ++ field_error "rating" (opt_ok (in_range 1 5) (cs_rating d))
  ++ field_error "notes" (opt_ok (len_in 0 200) (cs_notes d)).

Definition PatchTeapotRequest_errors (d : PatchTeapotRequest) : list string :=
  field_error "name" (patch_ok (len_in 1 100) (pt_name d))
  ++ field_error "capacityMl" (patch_ok (in_range 1 5000) (pt_capacity_ml d))
  ++ field_error "description" (patch_ok (len_in 0 500) (pt_description d)).

Definition PatchTeaRequest_errors (d : PatchTeaRequest) : list string :=
  field_error "name" (patch_ok (len_in 1 100) (pe_name d))
  ++ field_error "origin" (patch_ok (len_in 0 100) (pe_origin d))
  ++ field_error "steepTempCelsius" (patch_ok (in_range 60 100) (pe_steep_temp_celsius d))
  ++ field_error "steepTimeSeconds" (patch_ok (in_range 1 600) (pe_steep_time_seconds d))
  ++ field_error "description" (patch_ok (len_in 0 1000) (pe_description d)).

Definition PatchBrewRequest_errors (d : PatchBrewRequest) : list string :=
  field_error "notes" (patch_ok (len_in 0 500) (pb_notes d)).

(** [entity.model_dump()]: the dict of the entity's fields. Every key is
    present; a value may be [None] once a patch has been laid over it. *)
Record TeapotData := {
  td_id : option string;
  td_name : option string;
  td_material : option TeapotMaterial;
  td_capacity_ml : option Z;
  td_style : option TeapotStyle;
  td_description : option string;
  td_created_at : option Z;
  td_updated_at : option Z
}.

Record TeaData := {
  ed_id : option string;
  ed_name : option string;
  ed_type : option TeaType;
  ed_origin : option string;
  ed_caffeine_level : option CaffeineLevel;
  ed_steep_temp_celsius : option Z;
  ed_steep_time_seconds : option Z;
  ed_description : option string;
  ed_created_at : option Z;
  ed_updated_at : option Z
}.

Record BrewData := {
  bd_id : option string;
  bd_teapot_id : option string;
  bd_tea_id : option string;
  bd_status : option BrewStatus;
  bd_water_temp_celsius : option Z;
  bd_notes : option string;
  bd_started_at : option Z;
  bd_completed_at : option Z;
  bd_created_at : option Z;
  bd_updated_at : option Z
}.

Definition Teapot_model_dump (t : Teapot) : TeapotData :=
  {| td_id := Some (teapot_id_ t); td_name := Some (teapot_name t);
     td_material := Some (teapot_material t);
     td_capacity_ml := Some (teapot_capacity_ml t);
     td_style := Some (teapot_style t);
     td_description := teapot_description t;
     td_created_at := Some (teapot_created_at t);
     td_updated_at := Some (teapot_updated_at t) |}.

Definition Tea_model_dump (t : Tea) : TeaData :=
  {| ed_id := Some (tea_id_ t); ed_name := Some (tea_name t);
     ed_type := Some (tea_type t); ed_origin := tea_origin t;
     ed_caffeine_level := Some (tea_caffeine_level t);
     ed_steep_temp_celsius := Some (tea_steep_temp_celsius t);
     ed_steep_time_seconds := Some (tea_steep_time_seconds t);
     ed_description := tea_description t;
     ed_created_at := Some (tea_created_at t);
     ed_updated_at := Some (tea_updated_at t) |}.

Definition Brew_model_dump (b : Brew) : BrewData :=
  {| bd_id := Some (brew_id_ b); bd_teapot_id := Some (brew_teapot_id b);
     bd_tea_id := Some (brew_tea_id b); bd_status := Some (brew_status b);
     bd_water_temp_celsius := Some (brew_water_temp_celsius b);
     bd_notes := brew_notes b;
     bd_started_at := Some (brew_started_at b);
     bd_completed_at := brew_completed_at b;
     bd_created_at := Some (brew_created_at b);
     bd_updated_at := Some (brew_updated_at b) |}.

(** [Model.model_validate(data)]: a required field that is [None] is an
    error, and so is a value outside its constraints. *)
Definition Teapot_model_validate (d : TeapotData) : option Teapot :=
  match td_id d, td_name d, td_material d, td_capacity_ml d, td_style d,
        td_created_at d, td_updated_at d with
  | Some i, Some n, Some m, Some c, Some s, Some ca, Some ua =>
      construct Teapot_ok
        {| teapot_id_ := i; teapot_name := n; teapot_material := m;
           teapot_capacity_ml := c; teapot_style := s;
           teapot_description := td_description d;
           teapot_created_at := ca; teapot_updated_at := ua |}
  | _, _, _, _, _, _, _ => None
  end.

Definition Tea_model_validate (d : TeaData) : option Tea :=
  match ed_id d, ed_name d, ed_type d, ed_caffeine_level d,
        ed_steep_temp_celsius d, ed_steep_time_seconds d,
        ed_created_at d, ed_updated_at d with
  | Some i, Some n, Some ty, Some c, Some st, Some tm, Some ca, Some ua =>
      construct Tea_ok
        {| tea_id_ := i; tea_name := n; tea_type := ty;
           tea_origin := ed_origin d; tea_caffeine_level := c;
           tea_steep_temp_celsius := st; tea_steep_time_seconds := tm;
           tea_description := ed_description d;
           tea_created_at := ca; tea_updated_at := ua |}
  | _, _, _, _, _, _, _, _ => None
  end.

Definition Brew_model_validate (d : BrewData) : option Brew :=
  match bd_id d, bd_teapot_id d, bd_tea_id d, bd_status d,
        bd_water_temp_celsius d, bd_started_at d, bd_created_at d,
        bd_updated_at d with
  | Some i, Some tp, Some te, Some s, Some w, Some sa, Some ca, Some ua =>
      construct Brew_ok
        {| brew_id_ := i; brew_teapot_id := tp; brew_tea_id := te;
           brew_status := s; brew_water_temp_celsius := w;
           brew_notes := bd_notes d; brew_started_at := sa;
           brew_completed_at := bd_completed_at d;
           brew_created_at := ca; brew_updated_at := ua |}
  | _, _, _, _, _, _, _, _ => None
  end.

(** [data[key] = update[key]] for a key of [update], as [dict.update] does. *)
Definition overlay {A : Type} (cur : option A) (p : Patch A) : option A :=
  match p with Unset => cur | Given v => v end.

(** [teapot_data.update(update_data); teapot_data["updated_at"] = now] *)
Definition TeapotData_update (d : TeapotData) (u : PatchTeapotRequest) (now : Z)
  : TeapotData :=
  {| td_id := td_id d;
     td_name := overlay (td_name d) (pt_name u);
     td_material := overlay (td_material d) (pt_material u);
     td_capacity_ml := overlay (td_capacity_ml d) (pt_capacity_ml u);
     td_style := overlay (td_style d) (pt_style u);
     td_description := overlay (td_description d) (pt_description u);
     td_created_at := td_created_at d;
     td_updated_at := Some now |}.

Definition TeaData_update (d : TeaData) (u : PatchTeaRequest) (now : Z) : TeaData :=
  {| ed_id := ed_id d;
     ed_name := overlay (ed_name d) (pe_name u);
     ed_type := overlay (ed_type d) (pe_type u);
     ed_origin := overlay (ed_origin d) (pe_origin u);
     ed_caffeine_level := overlay (ed_caffeine_level d) (pe_caffeine_level u);
     ed_steep_temp_celsius :=
       overlay (ed_steep_temp_celsius d) (pe_steep_temp_celsius u);
     ed_steep_time_seconds :=
       overlay (ed_steep_time_seconds d) (pe_steep_time_seconds u);
     ed_description := overlay (ed_description d) (pe_description u);
     ed_created_at := ed_created_at d;
     ed_updated_at := Some now |}.

Definition BrewData_update (d : BrewData) (u : PatchBrewRequest) (now : Z)
  : BrewData :=
  {| bd_id := bd_id d;
     bd_teapot_id := bd_teapot_id d;
     bd_tea_id := bd_tea_id d;
     bd_status := overlay (bd_status d) (pb_status u);
     bd_water_temp_celsius := bd_water_temp_celsius d;
     bd_notes := overlay (bd_notes d) (pb_notes u);
     bd_started_at := bd_started_at d;
     bd_completed_at := overlay (bd_completed_at d) (pb_completed_at u);
     bd_created_at := bd_created_at d;
     bd_updated_at := Some now |}.

(** ** Request handlers ([app/routes]) *)

Record ErrorResponse := {
  code : string;
  message : string;
  details : option (list string)
}.

(** What a handler returns: the JSON payload and the status code. *)
Inductive Payload :=
| JsonTeapot (t : Teapot)
| JsonTea (t : Tea)
| JsonBrew (b : Brew)
| JsonSteep (s : Steep)
| JsonError (e : ErrorResponse).

Definition Response : Type := Payload * Z.

(** A handler reads and changes the process-wide [store]. *)
Definition Handler : Type := MemoryStore -> Response * MemoryStore.

Definition not_found (msg : string) (status : Z) : Response :=
  (JsonError {| code := "NOT_FOUND"; message := msg; details := None |}, status).

Definition validation_error (fields : list string) : Response :=
  (JsonError {| code := "VALIDATION_ERROR"; message := "Invalid request body";
                details := Some fields |}, 400).

(** An exception that leaves a handler reaches the application's 500 handler
    ([app/__init__.py]). *)
Definition internal_error : Response :=
  (JsonError {| code := "INTERNAL_ERROR";
                message := "An unexpected error occurred";
                details := None |}, 500).

Module Routes.

(** [POST /brews] *)
Definition create_brew (data : CreateBrewRequest) (uuid : string) (now : Z)
  : Handler := fun store =>
  match CreateBrewRequest_errors data with
  | _ :: _ as errs => (validation_error errs, store)
  | [] =>
    (* Validate teapot exists *)
    let (teapot, store) := Store.get_teapot (cb_teapot_id data) store in
    match teapot with
    | None => (not_found "Teapot not found" 400, store)
    | Some _ =>
      (* Validate tea exists *)
      let (tea, store) := Store.get_tea (cb_tea_id data) store in
      match tea with
      | None => (not_found "Tea not found" 400, store)
      | Some tea =>
        (* Use tea's steep temp if not provided *)
        let water_temp :=
          match cb_water_temp_celsius data with
          | Some w => if truthy_int w then w else tea_steep_temp_celsius tea
          | None => tea_steep_temp_celsius tea
          end in
        match construct Brew_ok
                {| brew_id_ := uuid;
                   brew_teapot_id := cb_teapot_id data;
                   brew_tea_id := cb_tea_id data;
                   brew_status := PREPARING;
                   brew_water_temp_celsius := water_temp;
                   brew_notes := cb_notes data;
                   brew_started_at := now;
                   brew_completed_at := None;
                   brew_created_at := now;
                   brew_updated_at := now |} with
        | None => (internal_error, store)
        | Some brew =>
          let (_, store) := Store.create_brew brew store in
          ((JsonBrew brew, 201), store)
        end
      end
    end
  end.

(** [PATCH /teapots/<id>] *)
Definition patch_teapot (id : string) (data : PatchTeapotRequest) (now : Z)
  : Handler := fun store =>
  let (existing, store) := Store.get_teapot id store in
  match existing with
  | None => (not_found "Teapot not found" 404, store)
  | Some existing =>
    match PatchTeapotRequest_errors data with
    | _ :: _ as errs => (validation_error errs, store)
    | [] =>
      (* Apply patches *)
      let teapot_data := Teapot_model_dump existing in
      let teapot_data := TeapotData_update teapot_data data now in
      match Teapot_model_validate teapot_data with
      | None => (internal_error, store)
      | Some teapot =>
        let (_, store) := Store.update_teapot teapot store in
        ((JsonTeapot teapot, 200), store)
      end
    end
  end.

(** [PATCH /teas/<id>] *)
Definition patch_tea (id : string) (data : PatchTeaRequest) (now : Z)
  : Handler := fun store =>
  let (existing, store) := Store.get_tea id store in
  match existing with
  | None => (not_found "Tea not found" 404, store)
  | Some existing =>
    match PatchTeaRequest_errors data with
    | _ :: _ as errs => (validation_error errs, store)
    | [] =>
      (* Apply patches *)
      let tea_data := Tea_model_dump existing in
      let tea_data := TeaData_update tea_data data now in
      match Tea_model_validate tea_data with
      | None => (internal_error, store)
      | Some tea =>
        let (_, store) := Store.update_tea tea store in
        ((JsonTea tea, 200), store)
      end
    end
  end.

(** [PATCH /brews/<id>] *)
Definition patch_brew (id : string) (data : PatchBrewRequest) (now : Z)
  : Handler := fun store =>
  let (existing, store) := Store.get_brew id store in
  match existing with
  | None => (not_found "Brew not found" 404, store)
  | Some existing =>
    match PatchBrewRequest_errors data with
    | _ :: _ as errs => (validation_error errs, store)
    | [] =>
      (* Apply patches *)
      let brew_data := Brew_model_dump existing in
      let brew_data := BrewData_update brew_data data now in
      match Brew_model_validate brew_data with
      | None => (internal_error, store)
      | Some brew =>
        let (_, store) := Store.update_brew brew store in
        ((JsonBrew brew, 200), store)
      end
    end
  end.

(** [POST /brews/<brew_id>/steeps] *)
Definition create_steep (brew_id : string) (data : CreateSteepRequest)
    (uuid : string) (now : Z) : Handler := fun store =>
  (* Check if brew exists *)
  let (brew, store) := Store.get_brew brew_id store in
  match brew with
  | None => (not_found "Brew not found" 404, store)
  | Some _ =>
    match CreateSteepRequest_errors data with
    | _ :: _ as errs => (validation_error errs, store)
    | [] =>
      let (steep_number, store) := Store.get_next_steep_number brew_id store in
      match construct Steep_ok
              {| steep_id_ := uuid;
                 steep_brew_id := brew_id;
                 steep_number := steep_number;
                 steep_duration_seconds := cs_duration_seconds data;
                 steep_rating := cs_rating data;
                 steep_notes := cs_notes data;
                 steep_created_at := now |} with
      | None => (internal_error, store)
      | Some steep =>
        let (_, store) := Store.create_steep steep store in
        ((JsonSteep steep, 201), store)
      end
    end
  end.

End Routes.

(** ** Concurrent steep creation

    The hosting server runs one handler per request, in parallel. A handler
    holds the store's lock only inside a store method, so between two of its
    store calls any other handler may run. [create_steep] makes three store
    calls; a thread running it is at one of the points below, and a step of
    the thread runs up to and through its next store call. *)

Record SteepCall := {
  sc_brew_id : string;
  sc_data : CreateSteepRequest;
  sc_uuid : string;
  sc_now : Z
}.

Inductive SteepPc :=
| AtGetBrew                 (* before [store.get_brew] *)
| AtNextNumber              (* before [store.get_next_steep_number] *)
| AtCreate (steep : Steep)  (* before [store.create_steep] *)
| Returned (r : Response).

Definition steep_step (c : SteepCall) (pc : SteepPc) : Locked SteepPc :=
  fun store =>
  match pc with
  | AtGetBrew =>
      let (brew, store) := Store.get_brew (sc_brew_id c) store in
      match brew with
      | None => (Returned (not_found "Brew not found" 404), store)
      | Some _ =>
        match CreateSteepRequest_errors (sc_data c) with
        | _ :: _ as errs => (Returned (validation_error errs), store)
        | [] => (AtNextNumber, store)
        end
      end
  | AtNextNumber =>
      let (steep_number, store) :=
        Store.get_next_steep_number (sc_brew_id c) store in
      match construct Steep_ok
              {| steep_id_ := sc_uuid c;
                 steep_brew_id := sc_brew_id c;
                 steep_number := steep_number;
                 steep_duration_seconds := cs_duration_seconds (sc_data c);
                 steep_rating := cs_rating (sc_data c);
                 steep_notes := cs_notes (sc_data c);
                 steep_created_at := sc_now c |} with
      | None => (Returned internal_error, store)
      | Some steep => (AtCreate steep, store)
      end
  | AtCreate steep =>
      let (_, store) := Store.create_steep steep store in
      (Returned (JsonSteep steep, 201), store)
  | Returned r => (Returned r, store)
  end.

(** The threads of the server, each with its request and its position. *)
Definition Threads : Type := list (SteepCall * SteepPc).

Fixpoint step_thread (i : nat) (ts : Threads) : Locked Threads := fun store =>
  match ts, i with
  | [], _ => ([], store)
  | (c, pc) :: rest, O =>
      let (pc, store) := steep_step c pc store in ((c, pc) :: rest, store)
  | t :: rest, S j =>
      let (rest, store) := step_thread j rest store in (t :: rest, store)
  end.

(** A schedule names the thread that runs next, step after step. *)
Fixpoint run_schedule (sched : list nat) (ts : Threads) : Locked Threads :=
  fun store =>
  match sched with
  | [] => (ts, store)
  | i :: sched =>
      let (ts, store) := step_thread i ts store in run_schedule sched ts store
  end.

(** The steep numbers a brew's steeps carry, in insertion order. *)
Definition steep_numbers_of (brew_id : string) (store : MemoryStore) : list Z :=
  map steep_number
    (filter (fun s => String.eqb (steep_brew_id s) brew_id)
       (PyDict.values (_steeps store))).

(** ** The remaining request bodies and responses *)

Record CreateTeapotRequest := {
  ct_name : string;                     (* name, 1..100 characters *)
  ct_material : TeapotMaterial;         (* material *)
  ct_capacity_ml : Z;                   (* capacity_ml, ge=1, le=5000 *)
  ct_style : option TeapotStyle;        (* style; [None]: the key is left out *)
  ct_description : option string        (* description, max_length=500 *)
}.

(** [data.style] after validation: the default [TeapotStyle.ENGLISH] stands
    in for a key that is left out. *)
Definition ct_style_or_default (d : CreateTeapotRequest) : TeapotStyle :=
  match ct_style d with Some s => s | None => ENGLISH end.

Record UpdateTeapotRequest := {
  ut_name : string;
  ut_material : TeapotMaterial;
  ut_capacity_ml : Z;
  ut_style : TeapotStyle;
  ut_description : option string
}.

Record CreateTeaRequest := {
  ce_name : string;                       (* name, 1..100 characters *)
  ce_type : TeaType;                      (* type *)
  ce_origin : option string;              (* origin, max_length=100 *)
  ce_caffeine_level : option CaffeineLevel; (* [None]: the key is left out *)
  ce_steep_temp_celsius : Z;              (* ge=60, le=100 *)
  ce_steep_time_seconds : Z;              (* ge=1, le=600 *)
  ce_description : option string          (* max_length=1000 *)
}.

(** [data.caffeine_level] after validation, default [CaffeineLevel.MEDIUM]. *)
Definition ce_caffeine_or_default (d : CreateTeaRequest) : CaffeineLevel :=
  match ce_caffeine_level d with Some c => c | None => MEDIUM end.

Record UpdateTeaRequest := {
  ue_name : string;
  ue_type : TeaType;
  ue_origin : option string;
  ue_caffeine_level : CaffeineLevel;
  ue_steep_temp_celsius : Z;
  ue_steep_time_seconds : Z;
  ue_description : option string
}.

Definition CreateTeapotRequest_errors (d : CreateTeapotRequest) : list string :=
  field_error "name" (len_in 1 100 (ct_name d))
  ++ field_error "capacityMl" (in_range 1 5000 (ct_capacity_ml d))
  ++ field_error "description" (opt_ok (len_in 0 500) (ct_description d)).

Definition UpdateTeapotRequest_errors (d : UpdateTeapotRequest) : list string :=
  field_error "name" (len_in 1 100 (ut_name d))
  ++ field_error "capacityMl" (in_range 1 5000 (ut_capacity_ml d))
  ++ field_error "description" (opt_ok (len_in 0 500) (ut_description d)).

Definition CreateTeaRequest_errors (d : CreateTeaRequest) : list string :=
  field_error "name" (len_in 1 100 (ce_name d))
  ++ field_error "origin" (opt_ok (len_in 0 100) (ce_origin d))
  ++ field_error "steepTempCelsius" (in_range 60 100 (ce_steep_temp_celsius d))
  ++ field_error "steepTimeSeconds" (in_range 1 600 (ce_steep_time_seconds d))
  ++ field_error "description" (opt_ok (len_in 0 1000) (ce_description d)).

Definition UpdateTeaRequest_errors (d : UpdateTeaRequest) : list string :=
  field_error "name" (len_in 1 100 (ue_name d))
  ++ field_error "origin" (opt_ok (len_in 0 100) (ue_origin d))
  ++ field_error "steepTempCelsius" (in_range 60 100 (ue_steep_temp_celsius d))
  ++ field_error "steepTimeSeconds" (in_range 1 600 (ue_steep_time_seconds d))
  ++ field_error "description" (opt_ok (len_in 0 1000) (ue_description d)).

(** The [page] and [limit] constraints every query model shares. *)
Definition page_limit_errors (page limit : Z) : list string :=
  field_error "page" (1 <=? page) ++ field_error "limit" (in_range 1 100 limit).

Definition PaginationQuery_errors (q : PaginationQuery) : list string :=
  page_limit_errors (pq_page q) (pq_limit q).
Definition TeapotQuery_errors (q : TeapotQuery) : list string :=
  page_limit_errors (tq_page q) (tq_limit q).
Definition TeaQuery_errors (q : TeaQuery) : list string :=
  page_limit_errors (eq_page q) (eq_limit q).
Definition BrewQuery_errors (q : BrewQuery) : list string :=
  page_limit_errors (bq_page q) (bq_limit q).

(** [Pagination] ([app/schemas/common.py]) *)
Record Pagination := {
  pg_page : Z;          (* page, ge=1 *)
  pg_limit : Z;         (* limit, ge=1, le=100 *)
  pg_total : Z;         (* total, ge=0 *)
  pg_total_pages : Z    (* total_pages, ge=0 *)
}.

Definition Pagination_ok (p : Pagination) : bool :=
  (1 <=? pg_page p) && in_range 1 100 (pg_limit p)
  && (0 <=? pg_total p) && (0 <=? pg_total_pages p).

(** The payload of a list endpoint: [{"data": [...], "pagination": {...}}],
    or an error. *)
Inductive ListPayload (A : Type) : Type :=
| JsonPage (data : list A) (pagination : Pagination)
| JsonListError (e : ErrorResponse).
Arguments JsonPage {A} _ _.
Arguments JsonListError {A} _.

Definition ListHandler (A : Type) : Type :=
  MemoryStore -> (ListPayload A * Z) * MemoryStore.

(** The body of a DELETE answer: the empty string, or JSON. *)
Inductive Body :=
| Empty
| Json (p : Payload).

Definition DeleteHandler : Type := MemoryStore -> (Body * Z) * MemoryStore.

Definition query_error {A : Type} (fields : list string) : ListPayload A * Z :=
  (JsonListError {| code := "VALIDATION_ERROR";
                    message := "Invalid query parameters";
                    details := Some fields |}, 400).

Definition list_not_found {A : Type} (msg : string) : ListPayload A * Z :=
  (JsonListError {| code := "NOT_FOUND"; message := msg; details := None |}, 404).

Definition list_internal_error {A : Type} : ListPayload A * Z :=
  (JsonListError {| code := "INTERNAL_ERROR";
                    message := "An unexpected error occurred";
                    details := None |}, 500).

(** The closing block every list endpoint repeats:
    [total_pages = (total + limit - 1) // limit if total > 0 else 0], then the
    page with its [Pagination] and status 200. *)
Definition page_response {A : Type} (items : list A) (total page limit : Z)
  : ListPayload A * Z :=
  let total_pages := if 0 <? total then (total + limit - 1) / limit else 0 in
  match construct Pagination_ok
          {| pg_page := page; pg_limit := limit; pg_total := total;
             pg_total_pages := total_pages |} with
  | None => list_internal_error
  | Some pagination => (JsonPage items pagination, 200)
  end.

(** ** The remaining handlers *)

Module TeapotRoutes.

(** [GET /teapots] *)
Definition list_teapots (query : TeapotQuery) : ListHandler Teapot := fun store =>
  match TeapotQuery_errors query with
  | (_ :: _) as errs => (query_error errs, store)
  | [] =>
    let '((teapots, total), store) := Store.list_teapots query store in
    (page_response teapots total (tq_page query) (tq_limit query), store)
  end.

(** [POST /teapots] *)
Definition create_teapot (data : CreateTeapotRequest) (uuid : string) (now : Z)
  : Handler := fun store =>
  match CreateTeapotRequest_errors data with
  | (_ :: _) as errs => (validation_error errs, store)
  | [] =>
    match construct Teapot_ok
            {| teapot_id_ := uuid;
               teapot_name := ct_name data;
               teapot_material := ct_material data;
               teapot_capacity_ml := ct_capacity_ml data;
               teapot_style := ct_style_or_default data;
               teapot_description := ct_description data;
               teapot_created_at := now;
               teapot_updated_at := now |} with
    | None => (internal_error, store)
    | Some teapot =>
      let (_, store) := Store.create_teapot teapot store in
      ((JsonTeapot teapot, 201), store)
    end
  end.

(** [GET /teapots/<id>] *)
Definition get_teapot (id : string) : Handler := fun store =>
  let (teapot, store) := Store.get_teapot id store in
  match teapot with
  | None => (not_found "Teapot not found" 404, store)
  | Some teapot => ((JsonTeapot teapot, 200), store)
  end.

(** [PUT /teapots/<id>] *)
Definition update_teapot (id : string) (data : UpdateTeapotRequest) (now : Z)
  : Handler := fun store =>
  let (existing, store) := Store.get_teapot id store in
  match existing with
  | None => (not_found "Teapot not found" 404, store)
  | Some existing =>
    match UpdateTeapotRequest_errors data with
    | (_ :: _) as errs => (validation_error errs, store)
    | [] =>
      match construct Teapot_ok
              {| teapot_id_ := id;
                 teapot_name := ut_name data;
                 teapot_material := ut_material data;
                 teapot_capacity_ml := ut_capacity_ml data;
                 teapot_style := ut_style data;
                 teapot_description := ut_description data;
                 teapot_created_at := teapot_created_at existing;
                 teapot_updated_at := now |} with
      | None => (internal_error, store)
      | Some teapot =>
        let (_, store) := Store.update_teapot teapot store in
        ((JsonTeapot teapot, 200), store)
      end
    end
  end.

(** [DELETE /teapots/<id>] *)
Definition delete_teapot (id : string) : DeleteHandler := fun store =>
  let (deleted, store) := Store.delete_teapot id store in
  if negb deleted then ((Json (fst (not_found "Teapot not found" 404)), 404), store)
  else ((Empty, 204), store).

(** [GET /teapots/<teapot_id>/brews] *)
Definition list_teapot_brews (teapot_id : string) (query : PaginationQuery)
  : ListHandler Brew := fun store =>
  (* Check if teapot exists *)
  let (teapot, store) := Store.get_teapot teapot_id store in
  match teapot with
  | None => (list_not_found "Teapot not found", store)
  | Some _ =>
    match PaginationQuery_errors query with
    | (_ :: _) as errs => (query_error errs, store)
    | [] =>
      let '((brews, total), store) :=
        Store.list_brews_by_teapot teapot_id query store in
      (page_response brews total (pq_page query) (pq_limit query), store)
    end
  end.

End TeapotRoutes.

Module TeaRoutes.

(** [GET /teas] *)
Definition list_teas (query : TeaQuery) : ListHandler Tea := fun store =>
  match TeaQuery_errors query with
  | (_ :: _) as errs => (query_error errs, store)
  | [] =>
    let '((teas, total), store) := Store.list_teas query store in
    (page_response teas total (eq_page query) (eq_limit query), store)
  end.

(** [POST /teas] *)
Definition create_tea (data : CreateTeaRequest) (uuid : string) (now : Z)
  : Handler := fun store =>
  match CreateTeaRequest_errors data with
  | (_ :: _) as errs => (validation_error errs, store)
  | [] =>
    match construct Tea_ok
            {| tea_id_ := uuid;
               tea_name := ce_name data;
               tea_type := ce_type data;
               tea_origin := ce_origin data;
               tea_caffeine_level := ce_caffeine_or_default data;
               tea_steep_temp_celsius := ce_steep_temp_celsius data;
               tea_steep_time_seconds := ce_steep_time_seconds data;
               tea_description := ce_description data;
               tea_created_at := now;
               tea_updated_at := now |} with
    | None => (internal_error, store)
    | Some tea =>
      let (_, store) := Store.create_tea tea store in
      ((JsonTea tea, 201), store)
    end
  end.

(** [GET /teas/<id>] *)
Definition get_tea (id : string) : Handler := fun store =>
  let (tea, store) := Store.get_tea id store in
  match tea with
  | None => (not_found "Tea not found" 404, store)
  | Some tea => ((JsonTea tea, 200), store)
  end.

(** [PUT /teas/<id>] *)
Definition update_tea (id : string) (data : UpdateTeaRequest) (now : Z)
  : Handler := fun store =>
  let (existing, store) := Store.get_tea id store in
  match existing with
  | None => (not_found "Tea not found" 404, store)
  | Some existing =>
    match UpdateTeaRequest_errors data with
    | (_ :: _) as errs => (validation_error errs, store)
    | [] =>
      match construct Tea_ok
              {| tea_id_ := id;
                 tea_name := ue_name data;
                 tea_type := ue_type data;
                 tea_origin := ue_origin data;
                 tea_caffeine_level := ue_caffeine_level data;
                 tea_steep_temp_celsius := ue_steep_temp_celsius data;
                 tea_steep_time_seconds := ue_steep_time_seconds data;
                 tea_description := ue_description data;
                 tea_created_at := tea_created_at existing;
                 tea_updated_at := now |} with
      | None => (internal_error, store)
      | Some tea =>
        let (_, store) := Store.update_tea tea store in
        ((JsonTea tea, 200), store)
      end
    end
  end.

(** [DELETE /teas/<id>] *)
Definition delete_tea (id : string) : DeleteHandler := fun store =>
  let (deleted, store) := Store.delete_tea id store in
  if negb deleted then ((Json (fst (not_found "Tea not found" 404)), 404), store)
  else ((Empty, 204), store).

End TeaRoutes.

Module BrewRoutes.

(** [GET /brews] *)
Definition list_brews (query : BrewQuery) : ListHandler Brew := fun store =>
  match BrewQuery_errors query with
  | (_ :: _) as errs => (query_error errs, store)
  | [] =>
    let '((brews, total), store) := Store.list_brews query store in
    (page_response brews total (bq_page query) (bq_limit query), store)
  end.

(** [GET /brews/<id>] *)
Definition get_brew (id : string) : Handler := fun store =>
  let (brew, store) := Store.get_brew id store in
  match brew with
  | None => (not_found "Brew not found" 404, store)
  | Some brew => ((JsonBrew brew, 200), store)
  end.

(** [DELETE /brews/<id>] *)
Definition delete_brew (id : string) : DeleteHandler := fun store =>
  let (deleted, store) := Store.delete_brew id store in
  if negb deleted then ((Json (fst (not_found "Brew not found" 404)), 404), store)
  else ((Empty, 204), store).

(** [GET /brews/<brew_id>/steeps] *)
Definition list_steeps (brew_id : string) (query : PaginationQuery)
  : ListHandler Steep := fun store =>
  (* Check if brew exists *)
  let (brew, store) := Store.get_brew brew_id store in
  match brew with
  | None => (list_not_found "Brew not found", store)
  | Some _ =>
    match PaginationQuery_errors query with
    | (_ :: _) as errs => (query_error errs, store)
    | [] =>
      let '((steeps, total), store) :=
        Store.list_steeps_by_brew brew_id query store in
      (page_response steeps total (pq_page query) (pq_limit query), store)
    end
  end.

End BrewRoutes.

(** ** Requests served one after the other *)

(** A request as a handler receives it; a POST carries the identifier
    [uuid4()] returns for it and every writing request its clock reading. *)
Inductive Request :=
| GET_teapots (query : TeapotQuery)
| POST_teapots (data : CreateTeapotRequest) (uuid : string) (now : Z)
| GET_teapot (id : string)
| PUT_teapot (id : string) (data : UpdateTeapotRequest) (now : Z)
| PATCH_teapot (id : string) (data : PatchTeapotRequest) (now : Z)
| DELETE_teapot (id : string)
| GET_teapot_brews (teapot_id : string) (query : PaginationQuery)
| GET_teas (query : TeaQuery)
| POST_teas (data : CreateTeaRequest) (uuid : string) (now : Z)
| GET_tea (id : string)
| PUT_tea (id : string) (data : UpdateTeaRequest) (now : Z)
| PATCH_tea (id : string) (data : PatchTeaRequest) (now : Z)
| DELETE_tea (id : string)
| GET_brews (query : BrewQuery)
| POST_brews (data : CreateBrewRequest) (uuid : string) (now : Z)
| GET_brew (id : string)
| PATCH_brew (id : string) (data : PatchBrewRequest) (now : Z)
| DELETE_brew (id : string)
| GET_steeps (brew_id : string) (query : PaginationQuery)
| POST_steeps (brew_id : string) (data : CreateSteepRequest) (uuid : string) (now : Z).

(** The status code of the answer, and the store the handler leaves. *)
Definition status_and_store {P : Type} (r : (P * Z) * MemoryStore) : Z * MemoryStore :=
  (snd (fst r), snd r).

Definition serve (r : Request) : Locked Z := fun store =>
  match r with
  | GET_teapots q => status_and_store (TeapotRoutes.list_teapots q store)
  | POST_teapots d u n => status_and_store (TeapotRoutes.create_teapot d u n store)
  | GET_teapot i => status_and_store (TeapotRoutes.get_teapot i store)
  | PUT_teapot i d n => status_and_store (TeapotRoutes.update_teapot i d n store)
  | PATCH_teapot i d n => status_and_store (Routes.patch_teapot i d n store)
  | DELETE_teapot i => status_and_store (TeapotRoutes.delete_teapot i store)
  | GET_teapot_brews i q => status_and_store (TeapotRoutes.list_teapot_brews i q store)
  | GET_teas q => status_and_store (TeaRoutes.list_teas q store)
  | POST_teas d u n => status_and_store (TeaRoutes.create_tea d u n store)
  | GET_tea i => status_and_store (TeaRoutes.get_tea i store)
  | PUT_tea i d n => status_and_store (TeaRoutes.update_tea i d n store)
  | PATCH_tea i d n => status_and_store (Routes.patch_tea i d n store)
  | DELETE_tea i => status_and_store (TeaRoutes.delete_tea i store)
  | GET_brews q => status_and_store (BrewRoutes.list_brews q store)
  | POST_brews d u n => status_and_store (Routes.create_brew d u n store)
  | GET_brew i => status_and_store (BrewRoutes.get_brew i store)
  | PATCH_brew i d n => status_and_store (Routes.patch_brew i d n store)
  | DELETE_brew i => status_and_store (BrewRoutes.delete_brew i store)
  | GET_steeps b q => status_and_store (BrewRoutes.list_steeps b q store)
  | POST_steeps b d u n => status_and_store (Routes.create_steep b d u n store)
  end.

(** The store after a sequence of requests, each served to its end before
    the next one starts. *)
Definition serve_all (rs : list Request) (store : MemoryStore) : MemoryStore :=
  fold_left (fun st r => snd (serve r st)) rs store.

(** The identifiers the POST requests of a sequence bring. *)
Definition generated_id (r : Request) : list string :=
  match r with
  | POST_teapots _ u _ | POST_teas _ u _ | POST_brews _ u _
  | POST_steeps _ _ u _ => [u]
  | _ => []
  end.

Definition generated_ids (rs : list Request) : list string :=
  flat_map generated_id rs.

(** ** Invariants of the store *)

(** Every entry of a dict is stored under the id it carries. *)
Definition keyed {V : Type} (id_of : V -> string) (d : PyDict.t V) : Prop :=
  forall k v, In (k, v) d -> id_of v = k.

(** Every stored entity satisfies the constraints of its class. *)
Definition all_ok {V : Type} (ok : V -> bool) (d : PyDict.t V) : Prop :=
  forall k v, In (k, v) d -> ok v = true.

Definition consistent (store : MemoryStore) : Prop :=
  Store.wf store /\
  keyed teapot_id_ (_teapots store) /\ keyed tea_id_ (_teas store) /\
  keyed brew_id_ (_brews store) /\ keyed steep_id_ (_steeps store) /\
  all_ok Teapot_ok (_teapots store) /\ all_ok Tea_ok (_teas store) /\
  all_ok Brew_ok (_brews store) /\ all_ok Steep_ok (_steeps store).

(** Every steep belongs to a stored brew. *)
Definition no_orphan_steeps (store : MemoryStore) : Prop :=
  forall s, In s (PyDict.values (_steeps store)) ->
            PyDict.contains (_brews store) (steep_brew_id s) = true.

(** The steeps of every brew carry the numbers 1, 2, ..., k in the order
    they were stored. *)
Definition steeps_numbered (store : MemoryStore) : Prop :=
  forall brew_id, exists k : nat,
    steep_numbers_of brew_id store = map Z.of_nat (seq 1 k).

(** What a handler may do to the store, [ids] being the identifiers the
    request brings: nothing; store a valid entity under its id; store a
    valid steep of a stored brew, numbered by [get_next_steep_number] and
    named by a brought identifier; or run a delete method. *)
Inductive store_change (ids : list string) (st : MemoryStore) : MemoryStore -> Prop :=
| change_none : store_change ids st st
| change_teapot (t : Teapot) :
    Teapot_ok t = true -> store_change ids st (snd (Store.update_teapot t st))
| change_tea (t : Tea) :
    Tea_ok t = true -> store_change ids st (snd (Store.update_tea t st))
| change_brew (b : Brew) :
    Brew_ok b = true -> store_change ids st (snd (Store.update_brew b st))
| change_steep (s : Steep) :
    Steep_ok s = true ->
    PyDict.contains (_brews st) (steep_brew_id s) = true ->
    steep_number s = fst (Store.get_next_steep_number (steep_brew_id s) st) ->
    In (steep_id_ s) ids ->
    store_change ids st (snd (Store.create_steep s st))
| change_delete_teapot (id : string) :
    store_change ids st (snd (Store.delete_teapot id st))
| change_delete_tea (id : string) :
    store_change ids st (snd (Store.delete_tea id st))
| change_delete_brew (id : string) :
    store_change ids st (snd (Store.delete_brew id st)).


(** A PATCH field that is given as [null]. *)
Definition is_null {A : Type} (p : Patch A) : bool :=
  match p with Given None => true | _ => false end.

(** A PATCH body that gives [null] for a field the entity requires. *)
Definition PatchTeapotRequest_nulls (d : PatchTeapotRequest) : bool :=
  is_null (pt_name d) || is_null (pt_material d) || is_null (pt_capacity_ml d)
  || is_null (pt_style d).

Definition PatchTeaRequest_nulls (d : PatchTeaRequest) : bool :=
  is_null (pe_name d) || is_null (pe_type d) || is_null (pe_caffeine_level d)
  || is_null (pe_steep_temp_celsius d) || is_null (pe_steep_time_seconds d).

Definition PatchBrewRequest_nulls (d : PatchBrewRequest) : bool :=
  is_null (pb_status d).

(** The PATCH bodies that give no field. *)
Definition empty_teapot_patch : PatchTeapotRequest :=
  {| pt_name := Unset; pt_material := Unset; pt_capacity_ml := Unset;
     pt_style := Unset; pt_description := Unset |}.

Definition empty_tea_patch : PatchTeaRequest :=
  {| pe_name := Unset; pe_type := Unset; pe_origin := Unset;
     pe_caffeine_level := Unset; pe_steep_temp_celsius := Unset;
     pe_steep_time_seconds := Unset; pe_description := Unset |}.

Definition empty_brew_patch : PatchBrewRequest :=
  {| pb_status := Unset; pb_notes := Unset; pb_completed_at := Unset |}.

(** The position of a thread after [k] steps of its own, with no other
    thread running in between. *)
Fixpoint solo (c : SteepCall) (k : nat) : Locked SteepPc := fun store =>
  match k with
  | O => (AtGetBrew, store)
  | S k => let (pc, store) := solo c k store in steep_step c pc store
  end.

(** While a thread has not returned, the store [cur] shows it what the
    store [st] it started from would: the same steeps of its brew, and its
    identifier still unused. *)
Definition undisturbed (c : SteepCall) (pc : SteepPc) (st cur : MemoryStore) : Prop :=
  (forall r, pc <> Returned r) ->
  filter (fun s => String.eqb (steep_brew_id s) (sc_brew_id c))
    (PyDict.values (_steeps cur))
  = filter (fun s => String.eqb (steep_brew_id s) (sc_brew_id c))
      (PyDict.values (_steeps st)) /\
  PyDict.get (_steeps cur) (sc_uuid c) = None.

(** ** Specification-side notions *)

(** The window [[off, off + n)] of a list. *)
Definition window {A : Type} (off n : nat) (xs : list A) : list A :=
  firstn n (skipn off xs).

(** An optional filter field read literally: an absent field accepts every
    entity, a supplied one accepts the entities that carry exactly it. *)
Definition accepts {F : Type} (eqb : F -> F -> bool) (q : option F) (f : F) : bool :=
  match q with None => true | Some g => eqb f g end.

(** The same, where an empty string counts as absent. *)
Definition accepts_nonempty (q : option string) (f : string) : bool :=
  match q with
  | None => true
  | Some g => if String.eqb g "" then true else String.eqb f g
  end.

Definition teapot_matches (q : TeapotQuery) (t : Teapot) : bool :=
  accepts TeapotMaterial_eqb (tq_material q) (teapot_material t)
  && accepts TeapotStyle_eqb (tq_style q) (teapot_style t).

Definition tea_matches (q : TeaQuery) (t : Tea) : bool :=
  accepts TeaType_eqb (eq_type q) (tea_type t)
  && accepts CaffeineLevel_eqb (eq_caffeine_level q) (tea_caffeine_level t).

(** A brew matches on exact equality with every supplied field. *)
Definition brew_matches_exact (q : BrewQuery) (b : Brew) : bool :=
  accepts BrewStatus_eqb (bq_status q) (brew_status b)
  && accepts String.eqb (bq_teapot_id q) (brew_teapot_id b)
  && accepts String.eqb (bq_tea_id q) (brew_tea_id b).

(** A brew matches as the store decides it. *)
Definition brew_matches (q : BrewQuery) (b : Brew) : bool :=
  accepts BrewStatus_eqb (bq_status q) (brew_status b)
  && accepts_nonempty (bq_teapot_id q) (brew_teapot_id b)
  && accepts_nonempty (bq_tea_id q) (brew_tea_id b).

(** The field of an entity as a PATCH leaves it: untouched when the body
    leaves it out, the given value otherwise. *)
Definition patched {A : Type} (before after : option A) (p : Patch A) : Prop :=
  match p with Unset => after = before | Given v => after = v end.


(** Ascending order of a key. *)
Definition key_le {A : Type} (key : A -> Z) (a b : A) : Prop := key a <= key b.

(** What a successful PATCH leaves of the entity [existing] it found: every
    field as the body says, id and created_at as they were, and updated_at
    the clock reading [now] of the handler. *)
Definition Teapot_patched (existing : Teapot) (data : PatchTeapotRequest)
    (now : Z) (teapot : Teapot) : Prop :=
  patched (Some (teapot_name existing)) (Some (teapot_name teapot)) (pt_name data) /\
  patched (Some (teapot_material existing)) (Some (teapot_material teapot))
    (pt_material data) /\
  patched (Some (teapot_capacity_ml existing)) (Some (teapot_capacity_ml teapot))
    (pt_capacity_ml data) /\
  patched (Some (teapot_style existing)) (Some (teapot_style teapot))
    (pt_style data) /\
  patched (teapot_description existing) (teapot_description teapot)
    (pt_description data) /\
  teapot_id_ teapot = teapot_id_ existing /\
  teapot_created_at teapot = teapot_created_at existing /\
  teapot_updated_at teapot = now.

Definition Tea_patched (existing : Tea) (data : PatchTeaRequest)
    (now : Z) (tea : Tea) : Prop :=
  patched (Some (tea_name existing)) (Some (tea_name tea)) (pe_name data) /\
  patched (Some (tea_type existing)) (Some (tea_type tea)) (pe_type data) /\
  patched (tea_origin existing) (tea_origin tea) (pe_origin data) /\
  patched (Some (tea_caffeine_level existing)) (Some (tea_caffeine_level tea))
    (pe_caffeine_level data) /\
  patched (Some (tea_steep_temp_celsius existing))
    (Some (tea_steep_temp_celsius tea)) (pe_steep_temp_celsius data) /\
  patched (Some (tea_steep_time_seconds existing))
    (Some (tea_steep_time_seconds tea)) (pe_steep_time_seconds data) /\
  patched (tea_description existing) (tea_description tea) (pe_description data) /\
  tea_id_ tea = tea_id_ existing /\
  tea_created_at tea = tea_created_at existing /\
  tea_updated_at tea = now.

Definition Brew_patched (existing : Brew) (data : PatchBrewRequest)
    (now : Z) (brew : Brew) : Prop :=
  patched (Some (brew_status existing)) (Some (brew_status brew)) (pb_status data) /\
  patched (brew_notes existing) (brew_notes brew) (pb_notes data) /\
  patched (brew_completed_at existing) (brew_completed_at brew)
    (pb_completed_at data) /\
  brew_teapot_id brew = brew_teapot_id existing /\
  brew_tea_id brew = brew_tea_id existing /\
  brew_water_temp_celsius brew = brew_water_temp_celsius existing /\
  brew_started_at brew = brew_started_at existing /\
  brew_id_ brew = brew_id_ existing /\
  brew_created_at brew = brew_created_at existing /\
  brew_updated_at brew = now.

(** [word in msg] *)
Definition mentions (word msg : string) : bool :=
  match String.index 0 word msg with Some _ => true | None => false end.

(** A query asked again for another page. *)
Definition TeapotQuery_at (q : TeapotQuery) (page : nat) : TeapotQuery :=
  {| tq_page := Z.of_nat page; tq_limit := tq_limit q;
     tq_material := tq_material q; tq_style := tq_style q |}.

Definition TeaQuery_at (q : TeaQuery) (page : nat) : TeaQuery :=
  {| eq_page := Z.of_nat page; eq_limit := eq_limit q;
     eq_type := eq_type q; eq_caffeine_level := eq_caffeine_level q |}.

Definition BrewQuery_at (q : BrewQuery) (page : nat) : BrewQuery :=
  {| bq_page := Z.of_nat page; bq_limit := bq_limit q; bq_status := bq_status q;
     bq_teapot_id := bq_teapot_id q; bq_tea_id := bq_tea_id q |}.

(** [answer] is the 200 answer of a list endpoint for page [page] of
    [matching] in pages of [limit]: the window of the page, the number of
    matching items, and the number of pages, which is the least number of
    pages of [limit] items that hold them all. *)
Definition paged_answer {A : Type} (matching : list A) (page limit : Z)
    (answer : ListPayload A * Z) : Prop :=
  exists data pg,
    answer = (JsonPage data pg, 200) /\
    data = window (Z.to_nat ((page - 1) * limit)) (Z.to_nat limit) matching /\
    pg_page pg = page /\ pg_limit pg = limit /\ pg_total pg = len matching /\
    0 <= pg_total_pages pg /\
    (forall n, 0 <= n -> (len matching <= n * limit <-> pg_total_pages pg <= n)) /\
    len data <= limit /\
    (data = [] <-> pg_total_pages pg < page).

(** ** Sample data *)

Definition demo_brew (id teapot tea : string) : Brew :=
  {| brew_id_ := id; brew_teapot_id := teapot; brew_tea_id := tea;
     brew_status := PREPARING; brew_water_temp_celsius := 80;
     brew_notes := None; brew_started_at := 10; brew_completed_at := None;
     brew_created_at := 10; brew_updated_at := 10 |}.

Definition demo_steep (id brew : string) (n : Z) : Steep :=
  {| steep_id_ := id; steep_brew_id := brew; steep_number := n;
     steep_duration_seconds := 30; steep_rating := None; steep_notes := None;
     steep_created_at := 20 |}.

Definition demo_teapot : Teapot :=
  {| teapot_id_ := "tp1"; teapot_name := "Kyusu"; teapot_material := CLAY;
     teapot_capacity_ml := 350; teapot_style := KYUSU;
     teapot_description := Some "small"; teapot_created_at := 5;
     teapot_updated_at := 5 |}.

Definition demo_tea : Tea :=
  {| tea_id_ := "t1"; tea_name := "Sencha"; tea_type := GREEN;
     tea_origin := Some "Japan"; tea_caffeine_level := MEDIUM;
     tea_steep_temp_celsius := 80; tea_steep_time_seconds := 120;
     tea_description := None; tea_created_at := 6; tea_updated_at := 6 |}.

Definition demo_store : MemoryStore :=
  {| _teapots := [("tp1", demo_teapot)]; _teas := [("t1", demo_tea)];
     _brews := [("b1", demo_brew "b1" "tp1" "t1"); ("b2", demo_brew "b2" "tp1" "t1")];
     _steeps := [("s1", demo_steep "s1" "b1" 1); ("s2", demo_steep "s2" "b2" 1);
                 ("s3", demo_steep "s3" "b1" 2)] |}.


(** A store with one brew and no steep, and two requests for a steep of it. *)
Definition race_store : MemoryStore :=
  {| _teapots := [("tp1", demo_teapot)]; _teas := [("t1", demo_tea)];
     _brews := [("b1", demo_brew "b1" "tp1" "t1")]; _steeps := [] |}.

Definition race_call (uuid : string) (now : Z) : SteepCall :=
  {| sc_brew_id := "b1";
     sc_data := {| cs_duration_seconds := 30; cs_rating := None; cs_notes := None |};
     sc_uuid := uuid; sc_now := now |}.

(** The steep either request builds when it reads steep number 1. *)
Definition demo_steep_at (uuid : string) (now : Z) : Steep :=
  {| steep_id_ := uuid; steep_brew_id := "b1"; steep_number := 1;
     steep_duration_seconds := 30; steep_rating := None; steep_notes := None;
     steep_created_at := now |}.

(** A teapot, a tea, a brew of them and two steeps of the brew, created one
    after the other. *)
Definition demo_requests : list Request :=
  [ POST_teapots {| ct_name := "Kyusu"; ct_material := CLAY; ct_capacity_ml := 350;
                    ct_style := Some KYUSU; ct_description := None |} "tp" 1;
    POST_teas {| ce_name := "Sencha"; ce_type := GREEN; ce_origin := None;
                 ce_caffeine_level := None; ce_steep_temp_celsius := 80;
                 ce_steep_time_seconds := 120; ce_description := None |} "t" 2;
    POST_brews {| cb_teapot_id := "tp"; cb_tea_id := "t";
                  cb_water_temp_celsius := None; cb_notes := None |} "b" 3;
    POST_steeps "b" {| cs_duration_seconds := 30; cs_rating := None;
                       cs_notes := None |} "s1" 4;
    POST_steeps "b" {| cs_duration_seconds := 45; cs_rating := Some 4;
                       cs_notes := None |} "s2" 5 ].


(** A request for a steep of a given brew. *)
Definition demo_call (brew uuid : string) (now : Z) : SteepCall :=
  {| sc_brew_id := brew;
     sc_data := {| cs_duration_seconds := 30; cs_rating := None; cs_notes := None |};
     sc_uuid := uuid; sc_now := now |}.

(* ================================================================== *)
(** * Properties *)
(* ================================================================== *)

(** ** Dictionaries *)

Section PyDictFacts.
Context {V : Type}.
Implicit Types (d : PyDict.t V) (k : string) (v : V).

Lemma get_None_iff d k : PyDict.get d k = None <-> ~ In k (PyDict.keys d).
Proof.
  induction d as [|[k' v'] r IH]; simpl.
  - tauto.
  - destruct (String.eqb_spec k k') as [->|Hne].
    + split; [discriminate | intros H; exfalso; apply H; now left].
    + rewrite IH. split.
      * intros H [E|I]; [congruence | tauto].
      * intros H I. apply H. now right.
Qed.

Lemma get_Some_In d k v : PyDict.get d k = Some v -> In (k, v) d.
Proof.
  induction d as [|[k' v'] r IH]; simpl; [discriminate|].
  destruct (String.eqb_spec k k') as [->|Hne].
  - intros [= ->]. now left.
  - intros H. right. auto.
Qed.

Lemma In_get_wf d k v : PyDict.wf d -> In (k, v) d -> PyDict.get d k = Some v.
Proof.
  unfold PyDict.wf. induction d as [|[k' v'] r IH]; simpl; [tauto|].
  intros Hnd [E|I].
  - inversion E; subst. now rewrite String.eqb_refl.
  - inversion Hnd as [|? ? Hnot Hnd']; subst.
    destruct (String.eqb_spec k k') as [->|Hne].
    + exfalso. apply Hnot. change (In (fst (k', v)) (map fst r)).
      now apply in_map.
    + auto.
Qed.

Lemma contains_true_iff d k :
  PyDict.contains d k = true <-> exists v, PyDict.get d k = Some v.
Proof.
  unfold PyDict.contains. destruct (PyDict.get d k) as [v|].
  - split; eauto.
  - split; [discriminate | intros [v H]; discriminate].
Qed.

Lemma contains_false_iff d k :
  PyDict.contains d k = false <-> PyDict.get d k = None.
Proof.
  unfold PyDict.contains. destruct (PyDict.get d k); split; congruence.
Qed.

Lemma get_setitem_eq d k v : PyDict.get (PyDict.setitem d k v) k = Some v.
Proof.
  induction d as [|[k' v'] r IH]; simpl.
  - now rewrite String.eqb_refl.
  - destruct (String.eqb_spec k k') as [->|Hne]; simpl.
    + now rewrite String.eqb_refl.
    + destruct (String.eqb_spec k k'); [contradiction | exact IH].
Qed.

Lemma get_setitem_ne d k k' v :
  k' <> k -> PyDict.get (PyDict.setitem d k v) k' = PyDict.get d k'.
Proof.
  intros Hne. induction d as [|[k0 v0] r IH]; simpl.
  - destruct (String.eqb_spec k' k); [contradiction | reflexivity].
  - destruct (String.eqb_spec k k0) as [->|Hk]; simpl.
    + destruct (String.eqb_spec k' k0); [contradiction | reflexivity].
    + destruct (String.eqb_spec k' k0); [reflexivity | exact IH].
Qed.

(** A new key goes to the end: listing order is insertion order. *)
Lemma setitem_fresh d k v :
  PyDict.get d k = None -> PyDict.setitem d k v = d ++ [(k, v)].
Proof.
  induction d as [|[k' v'] r IH]; simpl; [reflexivity|].
  destruct (String.eqb_spec k k') as [->|Hne]; [discriminate|].
  intros H. now rewrite IH.
Qed.

Lemma values_setitem_fresh d k v :
  PyDict.get d k = None ->
  PyDict.values (PyDict.setitem d k v) = PyDict.values d ++ [v].
Proof.
  intros H. rewrite setitem_fresh by assumption.
  unfold PyDict.values. now rewrite map_app.
Qed.

(** A present key keeps its place. *)
Lemma keys_setitem_present d k v :
  PyDict.get d k <> None -> PyDict.keys (PyDict.setitem d k v) = PyDict.keys d.
Proof.
  induction d as [|[k' v'] r IH]; simpl; [congruence|].
  destruct (String.eqb_spec k k') as [->|Hne]; simpl; [reflexivity|].
  intros H. f_equal. auto.
Qed.

Lemma wf_setitem d k v : PyDict.wf d -> PyDict.wf (PyDict.setitem d k v).
Proof.
  intros Hwf. destruct (PyDict.get d k) eqn:E.
  - unfold PyDict.wf. rewrite keys_setitem_present by congruence. exact Hwf.
  - rewrite setitem_fresh by assumption. unfold PyDict.wf, PyDict.keys.
    rewrite map_app. simpl.
    apply get_None_iff in E. unfold PyDict.keys in E.
    revert Hwf E. unfold PyDict.wf, PyDict.keys.
    generalize (map fst d). intros l. induction l as [|a l IH]; simpl; intros Hnd Hin.
    + constructor; [tauto | constructor].
    + inversion Hnd; subst. constructor.
      * rewrite in_app_iff. simpl. intros [I|[E'|[]]]; [tauto|].
        apply Hin. now left.
      * apply IH; [assumption | tauto].
Qed.

Lemma keys_delitem_incl d k x :
  In x (PyDict.keys (PyDict.delitem d k)) -> In x (PyDict.keys d).
Proof.
  induction d as [|[k' v'] r IH]; simpl; [tauto|].
  destruct (String.eqb k k'); simpl; tauto.
Qed.

Lemma wf_delitem d k : PyDict.wf d -> PyDict.wf (PyDict.delitem d k).
Proof.
  unfold PyDict.wf. induction d as [|[k' v'] r IH]; simpl; [trivial|].
  intros Hnd. inversion Hnd; subst.
  destruct (String.eqb k k'); simpl; [assumption|].
  constructor; [|auto]. intros I. apply keys_delitem_incl in I. contradiction.
Qed.

Lemma get_delitem_eq d k : PyDict.wf d -> PyDict.get (PyDict.delitem d k) k = None.
Proof.
  unfold PyDict.wf. induction d as [|[k' v'] r IH]; simpl; [trivial|].
  intros Hnd. inversion Hnd; subst.
  destruct (String.eqb_spec k k') as [->|Hne]; simpl.
  - now apply get_None_iff.
  - destruct (String.eqb_spec k k'); [contradiction | auto].
Qed.

Lemma get_delitem_ne d k k' :
  k' <> k -> PyDict.get (PyDict.delitem d k) k' = PyDict.get d k'.
Proof.
  intros Hne. induction d as [|[k0 v0] r IH]; simpl; [reflexivity|].
  destruct (String.eqb_spec k k0) as [->|Hk]; simpl.
  - destruct (String.eqb_spec k' k0); [contradiction | reflexivity].
  - destruct (String.eqb_spec k' k0); [reflexivity | exact IH].
Qed.

Lemma keys_filter_incl (p : string * V -> bool) d x :
  In x (PyDict.keys (filter p d)) -> In x (PyDict.keys d).
Proof.
  induction d as [|kv r IH]; simpl; [tauto|].
  destruct (p kv); simpl; tauto.
Qed.

Lemma wf_filter (p : string * V -> bool) d : PyDict.wf d -> PyDict.wf (filter p d).
Proof.
  unfold PyDict.wf. induction d as [|kv r IH]; simpl; [trivial|].
  intros Hnd. inversion Hnd; subst.
  destruct (p kv); simpl; [|auto].
  constructor; [|auto]. intros I. apply keys_filter_incl in I. contradiction.
Qed.

Lemma of_items_acc (kvs acc : PyDict.t V) :
  PyDict.wf (acc ++ kvs) ->
  fold_left (fun a kv => PyDict.setitem a (fst kv) (snd kv)) kvs acc = acc ++ kvs.
Proof.
  revert acc. induction kvs as [|[k v] r IH]; intros acc Hwf; simpl.
  - now rewrite app_nil_r.
  - rewrite setitem_fresh.
    + rewrite IH; rewrite <- app_assoc; [reflexivity | exact Hwf].
    + apply get_None_iff. unfold PyDict.wf, PyDict.keys in *.
      rewrite map_app in Hwf. simpl in Hwf.
      apply NoDup_remove_2 in Hwf. intros I. apply Hwf.
      apply in_or_app. now left.
Qed.

(** Rebuilding a dict from its own pairs gives the same dict. *)
Lemma of_items_wf d : PyDict.wf d -> PyDict.of_items d = d.
Proof. intros H. unfold PyDict.of_items. now rewrite of_items_acc. Qed.

Lemma get_filter (p : string * V -> bool) d k :
  PyDict.wf d ->
  PyDict.get (filter p d) k =
  match PyDict.get d k with
  | Some v => if p (k, v) then Some v else None
  | None => None
  end.
Proof.
  unfold PyDict.wf. induction d as [|[k' v'] r IH]; simpl; [reflexivity|].
  intros Hnd. inversion Hnd as [|? ? Hnot Hnd']; subst.
  destruct (String.eqb_spec k k') as [->|Hne].
  - destruct (p (k', v')) eqn:Ep; simpl.
    + now rewrite String.eqb_refl.
    + apply get_None_iff. intros I. apply keys_filter_incl in I. contradiction.
  - destruct (p (k', v')); simpl; [|auto].
    destruct (String.eqb_spec k k'); [contradiction | auto].
Qed.

Lemma values_filter_snd (p : V -> bool) d :
  PyDict.values (filter (fun kv => p (snd kv)) d) = filter p (PyDict.values d).
Proof.
  induction d as [|[k v] r IH]; simpl; [reflexivity|].
  destruct (p v); simpl; now rewrite IH.
Qed.
End PyDictFacts.

(** ** Slices and maxima *)

Lemma len_nonneg {A : Type} (xs : list A) : 0 <= len xs.
Proof. unfold len. lia. Qed.

(** With a start that is not negative, a slice is a window: the negative
    index rule of Python never applies to a page [>= 1] and a limit [>= 1]. *)
Lemma py_slice_window {A : Type} (xs : list A) (start n : Z) :
  0 <= start -> 0 <= n ->
  py_slice xs start (start + n) = window (Z.to_nat start) (Z.to_nat n) xs.
Proof.
  intros Hs Hn. unfold py_slice, window, slice_index, len.
  destruct (Z.ltb_spec start 0) as [?|_]; [lia|].
  destruct (Z.ltb_spec (start + n) 0) as [?|_]; [lia|].
  set (L := List.length xs).
  destruct (Z_le_gt_dec start (Z.of_nat L)) as [Hle|Hgt].
  - rewrite (Z.min_l start) by lia.
    destruct (Z_le_gt_dec (start + n) (Z.of_nat L)) as [Hle2|Hgt2].
    + rewrite Z.min_l by lia. f_equal. lia.
    + rewrite Z.min_r by lia.
      rewrite !firstn_all2; [reflexivity | |]; rewrite length_skipn; fold L; lia.
  - rewrite !Z.min_r by lia. rewrite Z.sub_diag. simpl.
    rewrite skipn_all2 by (fold L; lia). now rewrite firstn_nil.
Qed.


(** The window, element by element. *)
Lemma window_nth_error {A : Type} (off n i : nat) (xs : list A) :
  nth_error (window off n xs) i =
  if (i <? n)%nat then nth_error xs (off + i) else None.
Proof.
  unfold window. destruct (Nat.ltb_spec i n) as [Hlt|Hge].
  - rewrite nth_error_firstn. destruct (Nat.ltb_spec i n); [|lia].
    apply nth_error_skipn.
  - apply nth_error_None. rewrite length_firstn. lia.
Qed.

Lemma py_max_ge_init (x : Z) (xs : list Z) : x <= py_max x xs.
Proof.
  unfold py_max. revert x. induction xs as [|y ys IH]; intros x; simpl; [lia|].
  specialize (IH (Z.max x y)). lia.
Qed.

Lemma py_max_ge (x : Z) (xs : list Z) y : In y xs -> y <= py_max x xs.
Proof.
  unfold py_max. revert x. induction xs as [|z zs IH]; intros x; simpl; [tauto|].
  intros [->|I].
  - pose proof (py_max_ge_init (Z.max x y) zs) as H. unfold py_max in H. lia.
  - auto.
Qed.

Lemma py_max_attained (x : Z) (xs : list Z) : In (py_max x xs) (x :: xs).
Proof.
  unfold py_max. revert x. induction xs as [|y ys IH]; intros x; simpl.
  - now left.
  - destruct (IH (Z.max x y)) as [E|I].
    + rewrite <- E.
      destruct (Z.max_spec x y) as [[_ Hm]|[_ Hm]]; rewrite Hm.
      * right. now left.
      * now left.
    + right. right. exact I.
Qed.

(** ** The store: steep numbers *)

(** C2. [get_next_steep_number] leaves the store as it is; it returns 1 when
    no steep of the store belongs to the brew, and otherwise one more than
    the greatest steep number among the steeps of the brew. *)
Theorem get_next_steep_number_spec (self : MemoryStore) (brew_id : string) :
  snd (Store.get_next_steep_number brew_id self) = self /\
  ((forall s, In s (PyDict.values (_steeps self)) -> steep_brew_id s <> brew_id) ->
   fst (Store.get_next_steep_number brew_id self) = 1) /\
  ((exists s, In s (PyDict.values (_steeps self)) /\ steep_brew_id s = brew_id) ->
   exists top,
     In top (PyDict.values (_steeps self)) /\ steep_brew_id top = brew_id /\
     (forall s, In s (PyDict.values (_steeps self)) -> steep_brew_id s = brew_id ->
                steep_number s <= steep_number top) /\
     fst (Store.get_next_steep_number brew_id self) = steep_number top + 1).
Proof.
  unfold Store.get_next_steep_number.
  set (mine := fun s => String.eqb (steep_brew_id s) brew_id).
  assert (Hin : forall s, In s (filter mine (PyDict.values (_steeps self))) <->
                          In s (PyDict.values (_steeps self)) /\ steep_brew_id s = brew_id).
  { intros s. rewrite filter_In. unfold mine. now rewrite String.eqb_eq. }
  destruct (filter mine (PyDict.values (_steeps self))) as [|s0 rest] eqn:E.
  - simpl. split; [reflexivity|]. split; [reflexivity|].
    intros [s [Hs Hb]]. exfalso. apply (proj2 (Hin s)). now split.
  - simpl. split; [reflexivity|]. split.
    + intros Hnone. exfalso. destruct (proj1 (Hin s0) (or_introl eq_refl)) as [I B].
      exact (Hnone s0 I B).
    + intros _.
      destruct (py_max_attained (steep_number s0) (map steep_number rest)) as [Hm|Hm].
      * exists s0. destruct (proj1 (Hin s0) (or_introl eq_refl)) as [I B].
        repeat split; try assumption; [|now rewrite <- Hm].
        intros s Is Bs. destruct (proj2 (Hin s) (conj Is Bs)) as [->|Ir]; [lia|].
        rewrite Hm. apply py_max_ge. now apply in_map.
      * apply in_map_iff in Hm. destruct Hm as [top [Ht It]].
        exists top. destruct (proj1 (Hin top) (or_intror It)) as [I B].
        repeat split; try assumption; [|now rewrite Ht].
        intros s Is Bs. rewrite Ht.
        destruct (proj2 (Hin s) (conj Is Bs)) as [->|Ir].
        -- apply py_max_ge_init.
        -- apply py_max_ge. now apply in_map.
Qed.

Example next_steep_number_demo :
  fst (Store.get_next_steep_number "b1" demo_store) = 3 /\
  fst (Store.get_next_steep_number "b2" demo_store) = 2 /\
  fst (Store.get_next_steep_number "b3" demo_store) = 1.
Proof. repeat split. Qed.

(** ** The store: the representation invariant *)

Lemma wf_init : Store.wf Store.init.
Proof. repeat split; constructor. Qed.

Lemma wf_create_teapot t self : Store.wf self -> Store.wf (snd (Store.create_teapot t self)).
Proof. intros (H1 & H2 & H3 & H4). repeat split; simpl; auto using @wf_setitem. Qed.

Lemma wf_create_tea t self : Store.wf self -> Store.wf (snd (Store.create_tea t self)).
Proof. intros (H1 & H2 & H3 & H4). repeat split; simpl; auto using @wf_setitem. Qed.

Lemma wf_create_brew b self : Store.wf self -> Store.wf (snd (Store.create_brew b self)).
Proof. intros (H1 & H2 & H3 & H4). repeat split; simpl; auto using @wf_setitem. Qed.

Lemma wf_create_steep s self : Store.wf self -> Store.wf (snd (Store.create_steep s self)).
Proof. intros (H1 & H2 & H3 & H4). repeat split; simpl; auto using @wf_setitem. Qed.

Lemma wf_delete_teapot id self : Store.wf self -> Store.wf (snd (Store.delete_teapot id self)).
Proof.
  intros (H1 & H2 & H3 & H4). unfold Store.delete_teapot.
  destruct (negb _); repeat split; simpl; auto using @wf_delitem.
Qed.

Lemma wf_delete_tea id self : Store.wf self -> Store.wf (snd (Store.delete_tea id self)).
Proof.
  intros (H1 & H2 & H3 & H4). unfold Store.delete_tea.
  destruct (negb _); repeat split; simpl; auto using @wf_delitem.
Qed.

(** The cascade of [delete_brew] keeps the steeps that stay in their order. *)
Lemma delete_brew_steeps id (steeps : PyDict.t Steep) :
  PyDict.wf steeps ->
  PyDict.of_items
    (filter (fun kv => negb (String.eqb (steep_brew_id (snd kv)) id))
       (PyDict.items steeps))
  = filter (fun kv => negb (String.eqb (steep_brew_id (snd kv)) id)) steeps.
Proof. intros H. unfold PyDict.items. apply of_items_wf. now apply wf_filter. Qed.

Lemma wf_delete_brew id self : Store.wf self -> Store.wf (snd (Store.delete_brew id self)).
Proof.
  intros (H1 & H2 & H3 & H4). unfold Store.delete_brew.
  destruct (negb _); repeat split; simpl; auto using @wf_delitem.
  rewrite delete_brew_steeps by assumption. now apply wf_filter.
Qed.

(** ** The store: deletion *)

(** C3. [delete_brew] answers [true] exactly when the brew was stored. Then,
    in this one transition, the brew is gone, the other brews are as before,
    a steep is kept exactly when its brew is another one (and the kept steeps
    keep their order), and teapots and teas are untouched. When it answers
    [false] the store is unchanged. *)
Theorem delete_brew_cascade (self : MemoryStore) (id : string) :
  Store.wf self ->
  let r := fst (Store.delete_brew id self) in
  let self' := snd (Store.delete_brew id self) in
  (r = true <-> exists b, PyDict.get (_brews self) id = Some b) /\
  (r = true ->
     PyDict.get (_brews self') id = None /\
     (forall k, k <> id -> PyDict.get (_brews self') k = PyDict.get (_brews self) k) /\
     (forall k s, PyDict.get (_steeps self') k = Some s <->
                  PyDict.get (_steeps self) k = Some s /\ steep_brew_id s <> id) /\
     PyDict.values (_steeps self') =
       filter (fun s => negb (String.eqb (steep_brew_id s) id))
         (PyDict.values (_steeps self)) /\
     _teapots self' = _teapots self /\ _teas self' = _teas self) /\
  (r = false -> self' = self).
Proof.
  intros (H1 & H2 & H3 & H4). unfold Store.delete_brew.
  destruct (PyDict.contains (_brews self) id) eqn:Ec; simpl.
  - apply contains_true_iff in Ec. split; [tauto|]. split; [|discriminate].
    intros _. rewrite delete_brew_steeps by assumption.
    split; [now apply get_delitem_eq|].
    split; [intros k Hk; now apply get_delitem_ne|].
    split; [|split; [apply (values_filter_snd
                              (fun s => negb (String.eqb (steep_brew_id s) id)))
                    | split; reflexivity]].
    intros k s. rewrite get_filter by assumption. simpl.
    destruct (PyDict.get (_steeps self) k) as [s'|].
    + destruct (String.eqb_spec (steep_brew_id s') id) as [E|N]; simpl.
      * split; [discriminate|]. intros [[= ->] Hn]. contradiction.
      * split; [intros [= ->]; now split | tauto].
    + split; [discriminate | intros [? _]; discriminate].
  - apply contains_false_iff in Ec. split; [|split; [discriminate | reflexivity]].
    split; [discriminate|]. intros [b Hb]. congruence.
Qed.

Lemma wf_demo_store : Store.wf demo_store.
Proof.
  repeat split; unfold PyDict.wf; simpl;
    repeat (constructor; [simpl; intuition discriminate|]); constructor.
Defined.

Lemma delete_brew_cascade_witness :
  fst (Store.delete_brew "b1" demo_store) = true /\
  PyDict.values (_steeps (snd (Store.delete_brew "b1" demo_store)))
  = [demo_steep "s2" "b2" 1].
Proof.
  pose proof (delete_brew_cascade demo_store "b1" wf_demo_store) as H.
  simpl in H. destruct H as (_ & H & _).
  split; [reflexivity|]. destruct (H eq_refl) as (_ & _ & _ & Hv & _).
  exact Hv.
Defined.

(** C9. Deleting a teapot changes the teapot dict only, and deleting a tea
    the tea dict only: brews (those that name the deleted record too) and
    steeps are exactly as before. *)
Theorem delete_teapot_tea_frame (self : MemoryStore) (id : string) :
  (_brews (snd (Store.delete_teapot id self)) = _brews self /\
   _steeps (snd (Store.delete_teapot id self)) = _steeps self /\
   _teas (snd (Store.delete_teapot id self)) = _teas self) /\
  (_brews (snd (Store.delete_tea id self)) = _brews self /\
   _steeps (snd (Store.delete_tea id self)) = _steeps self /\
   _teapots (snd (Store.delete_tea id self)) = _teapots self).
Proof.
  unfold Store.delete_teapot, Store.delete_tea.
  destruct (negb (PyDict.contains (_teapots self) id));
    destruct (negb (PyDict.contains (_teas self) id)); simpl; repeat split.
Qed.

(** After the teapot of two brews is deleted, both brews still name it. *)
Example delete_teapot_leaves_dangling :
  fst (Store.delete_teapot "tp1" demo_store) = true /\
  PyDict.get (_teapots (snd (Store.delete_teapot "tp1" demo_store))) "tp1" = None /\
  map brew_teapot_id
    (PyDict.values (_brews (snd (Store.delete_teapot "tp1" demo_store))))
  = ["tp1"; "tp1"].
Proof. repeat split. Qed.

(** ** The store: updates *)

(** C10. An update has no not-found answer (it returns nothing) and stores
    the entity under its id whether or not the id was present: afterwards the
    id maps to the entity, the other ids are as before, and an id that was
    absent is appended as a new entry. *)
Theorem update_is_upsert (self : MemoryStore) :
  (forall t : Teapot,
     let self' := snd (Store.update_teapot t self) in
     PyDict.get (_teapots self') (teapot_id_ t) = Some t /\
     (forall k, k <> teapot_id_ t ->
                PyDict.get (_teapots self') k = PyDict.get (_teapots self) k) /\
     (PyDict.get (_teapots self) (teapot_id_ t) = None ->
      PyDict.values (_teapots self') = PyDict.values (_teapots self) ++ [t])) /\
  (forall t : Tea,
     let self' := snd (Store.update_tea t self) in
     PyDict.get (_teas self') (tea_id_ t) = Some t /\
     (forall k, k <> tea_id_ t ->
                PyDict.get (_teas self') k = PyDict.get (_teas self) k) /\
     (PyDict.get (_teas self) (tea_id_ t) = None ->
      PyDict.values (_teas self') = PyDict.values (_teas self) ++ [t])) /\
  (forall b : Brew,
     let self' := snd (Store.update_brew b self) in
     PyDict.get (_brews self') (brew_id_ b) = Some b /\
     (forall k, k <> brew_id_ b ->
                PyDict.get (_brews self') k = PyDict.get (_brews self) k) /\
     (PyDict.get (_brews self) (brew_id_ b) = None ->
      PyDict.values (_brews self') = PyDict.values (_brews self) ++ [b])).
Proof.
  repeat split; simpl;
    first [ apply get_setitem_eq
          | intros k Hk; now apply get_setitem_ne
          | intros Hnone; now apply values_setitem_fresh ].
Qed.

(** ** The store: filters *)

Lemma filter_all {A : Type} (xs : list A) : filter (fun _ => true) xs = xs.
Proof. induction xs as [|x xs IH]; simpl; congruence. Qed.

Lemma filter_twice {A : Type} (p q : A -> bool) (xs : list A) :
  filter q (filter p xs) = filter (fun x => p x && q x) xs.
Proof.
  induction xs as [|x xs IH]; simpl; [reflexivity|].
  destruct (p x); simpl; [destruct (q x)|]; now rewrite IH.
Qed.

(** A member of an enumeration is never an empty string, so [if query.field:]
    holds for every supplied member. *)
Lemma TeapotMaterial_truthy m : truthy_str (TeapotMaterial_value m) = true.
Proof. now destruct m. Qed.
Lemma TeapotStyle_truthy s : truthy_str (TeapotStyle_value s) = true.
Proof. now destruct s. Qed.
Lemma TeaType_truthy t : truthy_str (TeaType_value t) = true.
Proof. now destruct t. Qed.
Lemma CaffeineLevel_truthy c : truthy_str (CaffeineLevel_value c) = true.
Proof. now destruct c. Qed.
Lemma BrewStatus_truthy s : truthy_str (BrewStatus_value s) = true.
Proof. now destruct s. Qed.

Lemma TeapotMaterial_eqb_eq a b : TeapotMaterial_eqb a b = true <-> a = b.
Proof. destruct a, b; cbv; split; congruence. Qed.
Lemma TeapotStyle_eqb_eq a b : TeapotStyle_eqb a b = true <-> a = b.
Proof. destruct a, b; cbv; split; congruence. Qed.
Lemma TeaType_eqb_eq a b : TeaType_eqb a b = true <-> a = b.
Proof. destruct a, b; cbv; split; congruence. Qed.
Lemma CaffeineLevel_eqb_eq a b : CaffeineLevel_eqb a b = true <-> a = b.
Proof. destruct a, b; cbv; split; congruence. Qed.
Lemma BrewStatus_eqb_eq a b : BrewStatus_eqb a b = true <-> a = b.
Proof. destruct a, b; cbv; split; congruence. Qed.

Lemma filter_if_enum {A F : Type} (value : F -> string) (eqb : F -> F -> bool)
    (field : A -> F) (q : option F) (items : list A) :
  (forall f, truthy_str (value f) = true) ->
  filter_if value eqb field q items = filter (fun x => accepts eqb q (field x)) items.
Proof.
  intros Ht. destruct q as [f|]; simpl.
  - now rewrite Ht.
  - now rewrite filter_all.
Qed.

Lemma filter_if_str {A : Type} (field : A -> string) (q : option string)
    (items : list A) :
  filter_if (fun s : string => s) String.eqb field q items
  = filter (fun x => accepts_nonempty q (field x)) items.
Proof.
  destruct q as [f|]; simpl.
  - unfold truthy_str. destruct (String.eqb f ""); simpl.
    + now rewrite filter_all.
    + reflexivity.
  - now rewrite filter_all.
Qed.

Lemma accepts_iff {F : Type} (eqb : F -> F -> bool) (q : option F) (f : F) :
  (forall a b, eqb a b = true <-> a = b) ->
  accepts eqb q f = true <-> (forall g, q = Some g -> f = g).
Proof.
  intros Heq. destruct q as [g|]; simpl.
  - rewrite Heq. split; [intros -> g' [= <-]; reflexivity | intros H; now apply H].
  - split; [intros _ g; discriminate | reflexivity].
Qed.

Lemma accepts_nonempty_iff (q : option string) (f : string) :
  accepts_nonempty q f = true <-> (forall g, q = Some g -> g <> "" -> f = g).
Proof.
  destruct q as [g|]; simpl.
  - destruct (String.eqb_spec g "") as [->|Hne].
    + split; [intros _ g' [= <-] H; congruence | reflexivity].
    + rewrite String.eqb_eq.
      split; [intros -> g' [= <-] _; reflexivity | intros H; now apply H].
  - split; [intros _ g; discriminate | reflexivity].
Qed.

(** What each list method computes: the matching entities in dict order, cut
    to the requested slice, and their number. *)
Lemma list_teapots_eq (q : TeapotQuery) (self : MemoryStore) :
  Store.list_teapots q self =
  let matching := filter (teapot_matches q) (PyDict.values (_teapots self)) in
  let start := (tq_page q - 1) * tq_limit q in
  ((py_slice matching start (start + tq_limit q), len matching), self).
Proof.
  unfold Store.list_teapots.
  rewrite !filter_if_enum by auto using TeapotMaterial_truthy, TeapotStyle_truthy.
  rewrite filter_twice. reflexivity.
Qed.

Lemma list_teas_eq (q : TeaQuery) (self : MemoryStore) :
  Store.list_teas q self =
  let matching := filter (tea_matches q) (PyDict.values (_teas self)) in
  let start := (eq_page q - 1) * eq_limit q in
  ((py_slice matching start (start + eq_limit q), len matching), self).
Proof.
  unfold Store.list_teas.
  rewrite !filter_if_enum by auto using TeaType_truthy, CaffeineLevel_truthy.
  rewrite filter_twice. reflexivity.
Qed.

Lemma list_brews_eq (q : BrewQuery) (self : MemoryStore) :
  Store.list_brews q self =
  let matching := filter (brew_matches q) (PyDict.values (_brews self)) in
  let start := (bq_page q - 1) * bq_limit q in
  ((py_slice matching start (start + bq_limit q), len matching), self).
Proof.
  unfold Store.list_brews.
  rewrite (filter_if_enum BrewStatus_value) by exact BrewStatus_truthy.
  rewrite !filter_if_str, !filter_twice.
  rewrite (filter_ext _ (brew_matches q))
    by (intros b; unfold brew_matches; now rewrite andb_assoc).
  reflexivity.
Qed.

(** ** Sorting by a key *)

Section SortBy.
Context {A : Type} (key : A -> Z).

Lemma insert_by_perm x xs : Permutation (insert_by key x xs) (x :: xs).
Proof.
  induction xs as [|y ys IH]; simpl; [reflexivity|].
  destruct (key x <? key y); [reflexivity|].
  rewrite IH. apply perm_swap.
Qed.

Lemma insert_by_hd a x xs :
  key_le key a x -> HdRel (key_le key) a xs ->
  HdRel (key_le key) a (insert_by key x xs).
Proof.
  intros Hax Hxs. destruct xs as [|y ys]; simpl.
  - now constructor.
  - destruct (key x <? key y); constructor; [assumption|].
    now inversion Hxs.
Qed.

Lemma insert_by_sorted x xs :
  Sorted (key_le key) xs -> Sorted (key_le key) (insert_by key x xs).
Proof.
  induction xs as [|y ys IH]; simpl; intros Hs.
  - repeat constructor.
  - inversion Hs as [|? ? Hys Hhd]; subst.
    destruct (Z.ltb_spec (key x) (key y)) as [Hlt|Hge].
    + constructor; [assumption|]. constructor. unfold key_le. lia.
    + constructor; [auto|]. apply insert_by_hd; [unfold key_le; lia | assumption].
Qed.

Lemma sort_by_acc xs acc :
  Sorted (key_le key) acc ->
  Sorted (key_le key) (fold_left (fun acc x => insert_by key x acc) xs acc) /\
  Permutation (fold_left (fun acc x => insert_by key x acc) xs acc) (acc ++ xs).
Proof.
  revert acc. induction xs as [|x xs IH]; intros acc Hs; simpl.
  - rewrite app_nil_r. now split.
  - destruct (IH (insert_by key x acc) (insert_by_sorted x acc Hs)) as [S P].
    split; [exact S|]. rewrite P, insert_by_perm.
    change (Permutation ((x :: acc) ++ xs) (acc ++ x :: xs)).
    apply Permutation_middle.
Qed.

(** [sort_by] returns its argument rearranged in ascending order of the key. *)
Lemma sort_by_sorted xs : Sorted (key_le key) (sort_by key xs).
Proof. apply sort_by_acc. constructor. Qed.

Lemma sort_by_perm xs : Permutation (sort_by key xs) xs.
Proof. apply (sort_by_acc xs []). constructor. Qed.

Lemma sort_by_length xs : List.length (sort_by key xs) = List.length xs.
Proof. apply Permutation_length, sort_by_perm. Qed.

(** A list that is already in order is left as it is. *)
Lemma insert_by_last x xs :
  Forall (fun y => key y <= key x) xs -> insert_by key x xs = xs ++ [x].
Proof.
  induction 1 as [|y ys Hy _ IH]; simpl; [reflexivity|].
  destruct (Z.ltb_spec (key x) (key y)); [lia|]. now rewrite IH.
Qed.
End SortBy.

(** ** The store: pagination *)





(** ** The store: filter semantics *)

(** C7, as the store has it. A list method counts and returns exactly the
    entities that pass its filter. A teapot or a tea passes when it equals
    every supplied filter field; a brew passes when it equals the supplied
    status and every supplied teapot id and tea id that is not the empty
    string. A field that is absent, or an id filter that is the empty
    string, constrains nothing. *)
Theorem list_filter_semantics (self : MemoryStore) :
  (forall q,
     fst (Store.list_teapots q self) =
       (py_slice (filter (teapot_matches q) (PyDict.values (_teapots self)))
          ((tq_page q - 1) * tq_limit q)
          ((tq_page q - 1) * tq_limit q + tq_limit q),
        len (filter (teapot_matches q) (PyDict.values (_teapots self)))) /\
     forall t, teapot_matches q t = true <->
       (forall m, tq_material q = Some m -> teapot_material t = m) /\
       (forall s, tq_style q = Some s -> teapot_style t = s)) /\
  (forall q,
     fst (Store.list_teas q self) =
       (py_slice (filter (tea_matches q) (PyDict.values (_teas self)))
          ((eq_page q - 1) * eq_limit q)
          ((eq_page q - 1) * eq_limit q + eq_limit q),
        len (filter (tea_matches q) (PyDict.values (_teas self)))) /\
     forall t, tea_matches q t = true <->
       (forall ty, eq_type q = Some ty -> tea_type t = ty) /\
       (forall c, eq_caffeine_level q = Some c -> tea_caffeine_level t = c)) /\
  (forall q,
     fst (Store.list_brews q self) =
       (py_slice (filter (brew_matches q) (PyDict.values (_brews self)))
          ((bq_page q - 1) * bq_limit q)
          ((bq_page q - 1) * bq_limit q + bq_limit q),
        len (filter (brew_matches q) (PyDict.values (_brews self)))) /\
     forall b, brew_matches q b = true <->
       (forall s, bq_status q = Some s -> brew_status b = s) /\
       (forall i, bq_teapot_id q = Some i -> i <> "" -> brew_teapot_id b = i) /\
       (forall i, bq_tea_id q = Some i -> i <> "" -> brew_tea_id b = i)).
Proof.
  split; [|split]; intros q.
  - rewrite list_teapots_eq. split; [reflexivity|]. intros t.
    unfold teapot_matches. rewrite andb_true_iff.
    now rewrite (accepts_iff _ _ _ TeapotMaterial_eqb_eq),
                (accepts_iff _ _ _ TeapotStyle_eqb_eq).
  - rewrite list_teas_eq. split; [reflexivity|]. intros t.
    unfold tea_matches. rewrite andb_true_iff.
    now rewrite (accepts_iff _ _ _ TeaType_eqb_eq),
                (accepts_iff _ _ _ CaffeineLevel_eqb_eq).
  - rewrite list_brews_eq. split; [reflexivity|]. intros b.
    unfold brew_matches. rewrite !andb_true_iff.
    rewrite (accepts_iff _ _ _ BrewStatus_eqb_eq), !accepts_nonempty_iff.
    tauto.
Qed.

(** Counterexample to C7 read for every supplied value: an id filter that is
    supplied as the empty string: no brew carries the teapot id [""], and still every brew is
    counted. *)
Lemma list_brews_empty_id_filter :
  snd (fst (Store.list_brews
              {| bq_page := 1; bq_limit := 20; bq_status := None;
                 bq_teapot_id := Some ""; bq_tea_id := None |} demo_store)) = 2 /\
  len (filter (brew_matches_exact
                 {| bq_page := 1; bq_limit := 20; bq_status := None;
                    bq_teapot_id := Some ""; bq_tea_id := None |})
         (PyDict.values (_brews demo_store))) = 0.
Proof. split; reflexivity. Qed.

(** ** Handlers: creating a brew *)

Lemma field_error_nil name ok : field_error name ok = [] -> ok = true.
Proof. destruct ok; [reflexivity | discriminate]. Qed.

Lemma CreateBrewRequest_errors_nil data :
  CreateBrewRequest_errors data = [] ->
  opt_ok (in_range 60 100) (cb_water_temp_celsius data) = true /\
  opt_ok (len_in 0 500) (cb_notes data) = true.
Proof.
  unfold CreateBrewRequest_errors. intros H.
  apply app_eq_nil in H. destruct H as [H1 H2].
  split; eapply field_error_nil; eassumption.
Qed.

Lemma in_range_iff lo hi n : in_range lo hi n = true <-> lo <= n <= hi.
Proof. unfold in_range. rewrite andb_true_iff, !Z.leb_le. tauto. Qed.

(** C8. A well-formed request that names a teapot that is not stored is
    answered 400 with code NOT_FOUND and a message that mentions "Teapot";
    when the teapot is stored and the tea is not, the message mentions "Tea".
    In both cases the store, and so its brews, is left unchanged. *)
Theorem create_brew_missing_reference
    (data : CreateBrewRequest) (uuid : string) (now : Z) (store : MemoryStore) :
  CreateBrewRequest_errors data = [] ->
  (PyDict.get (_teapots store) (cb_teapot_id data) = None ->
   exists e,
     Routes.create_brew data uuid now store = ((JsonError e, 400), store) /\
     code e = "NOT_FOUND" /\ mentions "Teapot" (message e) = true /\
     message e = "Teapot not found") /\
  ((exists teapot, PyDict.get (_teapots store) (cb_teapot_id data) = Some teapot) ->
   PyDict.get (_teas store) (cb_tea_id data) = None ->
   exists e,
     Routes.create_brew data uuid now store = ((JsonError e, 400), store) /\
     code e = "NOT_FOUND" /\ mentions "Tea" (message e) = true /\
     message e = "Tea not found").
Proof.
  intros Hok. unfold Routes.create_brew, Store.get_teapot, Store.get_tea.
  rewrite Hok. split.
  - intros ->. eexists. split; [reflexivity|]. repeat split.
  - intros [teapot ->] ->. eexists. split; [reflexivity|]. repeat split.
Qed.

Lemma create_brew_missing_reference_witness :
  exists e,
    Routes.create_brew
      {| cb_teapot_id := "nope"; cb_tea_id := "t1";
         cb_water_temp_celsius := Some 75; cb_notes := None |}
      "b9" 30 demo_store = ((JsonError e, 400), demo_store) /\
    code e = "NOT_FOUND" /\ mentions "Teapot" (message e) = true /\
    message e = "Teapot not found".
Proof.
  refine (proj1 (create_brew_missing_reference
                   {| cb_teapot_id := "nope"; cb_tea_id := "t1";
                      cb_water_temp_celsius := Some 75; cb_notes := None |}
                   "b9" 30 demo_store _) _); reflexivity.
Defined.

(** C4. When the teapot and the tea of a well-formed request are stored, the
    brew is created and stored under the fresh id; its water temperature is
    the tea's steep temperature when the request leaves it out, and the
    supplied value (which lies in 60..100) otherwise. The stored tea is a
    [Tea] instance, so it satisfies the constraints of its class. *)
Theorem create_brew_water_temp
    (data : CreateBrewRequest) (uuid : string) (now : Z) (store : MemoryStore)
    (teapot : Teapot) (tea : Tea) :
  CreateBrewRequest_errors data = [] ->
  PyDict.get (_teapots store) (cb_teapot_id data) = Some teapot ->
  PyDict.get (_teas store) (cb_tea_id data) = Some tea ->
  Tea_ok tea = true ->
  exists brew store',
    Routes.create_brew data uuid now store = ((JsonBrew brew, 201), store') /\
    PyDict.get (_brews store') uuid = Some brew /\
    (cb_water_temp_celsius data = None ->
     brew_water_temp_celsius brew = tea_steep_temp_celsius tea) /\
    (forall w, cb_water_temp_celsius data = Some w ->
               60 <= w <= 100 /\ brew_water_temp_celsius brew = w).
Proof.
  intros Hok Htp Htea Hvalid.
  destruct (CreateBrewRequest_errors_nil data Hok) as [Hw Hn].
  assert (Ht : in_range 60 100 (tea_steep_temp_celsius tea) = true).
  { unfold Tea_ok in Hvalid. rewrite !andb_true_iff in Hvalid. tauto. }
  unfold Routes.create_brew, Store.get_teapot, Store.get_tea, Store.create_brew.
  rewrite Hok, Htp, Htea. unfold construct, Brew_ok. simpl.
  destruct (cb_water_temp_celsius data) as [w|] eqn:Ew; simpl in Hw.
  - assert (Hr := proj1 (in_range_iff _ _ _) Hw).
    assert (Hnz : truthy_int w = true).
    { unfold truthy_int. destruct (Z.eqb_spec w 0); [lia | reflexivity]. }
    rewrite Hnz, Hw, Hn. simpl.
    eexists. eexists. split; [reflexivity|]. simpl.
    split; [apply get_setitem_eq|]. split; [discriminate|].
    intros w' [= <-]. now split.
  - rewrite Ht, Hn. simpl.
    eexists. eexists. split; [reflexivity|]. simpl.
    split; [apply get_setitem_eq|]. split; [reflexivity | discriminate].
Qed.

Lemma create_brew_water_temp_witness :
  exists brew store',
    Routes.create_brew
      {| cb_teapot_id := "tp1"; cb_tea_id := "t1";
         cb_water_temp_celsius := None; cb_notes := None |}
      "b9" 30 demo_store = ((JsonBrew brew, 201), store') /\
    brew_water_temp_celsius brew = 80.
Proof.
  destruct (create_brew_water_temp
              {| cb_teapot_id := "tp1"; cb_tea_id := "t1";
                 cb_water_temp_celsius := None; cb_notes := None |}
              "b9" 30 demo_store demo_teapot demo_tea
              eq_refl eq_refl eq_refl eq_refl)
    as (brew & store' & Hrun & _ & Hnone & _).
  exists brew, store'. split; [exact Hrun | exact (Hnone eq_refl)].
Defined.

(** ** Handlers: PATCH *)

Lemma overlay_patched {A : Type} (cur after : option A) (p : Patch A) :
  overlay cur p = after -> patched cur after p.
Proof. destruct p; simpl; intros <-; reflexivity. Qed.

Lemma construct_Some {A : Type} (ok : A -> bool) (a b : A) :
  construct ok a = Some b -> a = b /\ ok b = true.
Proof.
  unfold construct. destruct (ok a) eqn:E; [|discriminate].
  intros [= <-]. now split.
Qed.

(** A dict that validates carries the fields of the instance it gives. *)
Lemma Teapot_model_validate_Some d t :
  Teapot_model_validate d = Some t -> d = Teapot_model_dump t.
Proof.
  unfold Teapot_model_validate. destruct d as [i n m c s de ca ua]. simpl.
  destruct i, n, m, c, s, ca, ua; try discriminate.
  intros H. apply construct_Some in H. destruct H as [<- _]. reflexivity.
Qed.

Lemma Tea_model_validate_Some d t :
  Tea_model_validate d = Some t -> d = Tea_model_dump t.
Proof.
  unfold Tea_model_validate. destruct d as [i n ty o c st tm de ca ua]. simpl.
  destruct i, n, ty, c, st, tm, ca, ua; try discriminate.
  intros H. apply construct_Some in H. destruct H as [<- _]. reflexivity.
Qed.

Lemma Brew_model_validate_Some d b :
  Brew_model_validate d = Some b -> d = Brew_model_dump b.
Proof.
  unfold Brew_model_validate. destruct d as [i tp te s w n sa co ca ua]. simpl.
  destruct i, tp, te, s, w, sa, ca, ua; try discriminate.
  intros H. apply construct_Some in H. destruct H as [<- _]. reflexivity.
Qed.

Lemma patch_teapot_ok id data now store teapot store' :
  Routes.patch_teapot id data now store = ((JsonTeapot teapot, 200), store') ->
  exists existing,
    PyDict.get (_teapots store) id = Some existing /\
    PyDict.get (_teapots store') (teapot_id_ teapot) = Some teapot /\
    Teapot_patched existing data now teapot.
Proof.
  unfold Routes.patch_teapot, Store.get_teapot, Store.update_teapot.
  destruct (PyDict.get (_teapots store) id) as [existing|]; [|discriminate].
  destruct (PatchTeapotRequest_errors data); [|discriminate].
  destruct (Teapot_model_validate _) as [t|] eqn:Ev; [|discriminate].
  intros [= -> <-]. exists existing. split; [reflexivity|].
  apply Teapot_model_validate_Some in Ev.
  unfold TeapotData_update, Teapot_model_dump in Ev. simpl in Ev.
  injection Ev as Hid Hn Hm Hc Hs Hd Hca Hua.
  simpl. split; [apply get_setitem_eq|].
  repeat split; simpl; try (now apply overlay_patched); congruence.
Qed.

Lemma patch_tea_ok id data now store tea store' :
  Routes.patch_tea id data now store = ((JsonTea tea, 200), store') ->
  exists existing,
    PyDict.get (_teas store) id = Some existing /\
    PyDict.get (_teas store') (tea_id_ tea) = Some tea /\
    Tea_patched existing data now tea.
Proof.
  unfold Routes.patch_tea, Store.get_tea, Store.update_tea.
  destruct (PyDict.get (_teas store) id) as [existing|]; [|discriminate].
  destruct (PatchTeaRequest_errors data); [|discriminate].
  destruct (Tea_model_validate _) as [t|] eqn:Ev; [|discriminate].
  intros [= -> <-]. exists existing. split; [reflexivity|].
  apply Tea_model_validate_Some in Ev.
  unfold TeaData_update, Tea_model_dump in Ev. simpl in Ev.
  injection Ev as Hid Hn Hty Ho Hc Hst Htm Hd Hca Hua.
  simpl. split; [apply get_setitem_eq|].
  repeat split; simpl; try (now apply overlay_patched); congruence.
Qed.

Lemma patch_brew_ok id data now store brew store' :
  Routes.patch_brew id data now store = ((JsonBrew brew, 200), store') ->
  exists existing,
    PyDict.get (_brews store) id = Some existing /\
    PyDict.get (_brews store') (brew_id_ brew) = Some brew /\
    Brew_patched existing data now brew.
Proof.
  unfold Routes.patch_brew, Store.get_brew, Store.update_brew.
  destruct (PyDict.get (_brews store) id) as [existing|]; [|discriminate].
  destruct (PatchBrewRequest_errors data); [|discriminate].
  destruct (Brew_model_validate _) as [b|] eqn:Ev; [|discriminate].
  intros [= -> <-]. exists existing. split; [reflexivity|].
  apply Brew_model_validate_Some in Ev.
  unfold BrewData_update, Brew_model_dump in Ev. simpl in Ev.
  injection Ev as Hid Htp Hte Hs Hw Hn Hsa Hco Hca Hua.
  simpl. split; [apply get_setitem_eq|].
  repeat split; simpl; try (now apply overlay_patched); congruence.
Qed.

(** C5, as the handlers have it. After a successful PATCH of a teapot, a tea
    or a brew, the entity stored under its id (the id of the path, when the
    dict keys an entity by its id) is the returned one; a field
    the body leaves out is as before, a field the body gives (a value, or
    null for a nullable field) has what was given, id and created_at are as
    before, and updated_at is the clock reading of the handler. It is later
    than the previous updated_at exactly when that reading is. *)
Theorem patch_semantics (id : string) (now : Z) (store : MemoryStore) :
  (forall data teapot store',
     Routes.patch_teapot id data now store = ((JsonTeapot teapot, 200), store') ->
     exists existing,
       PyDict.get (_teapots store) id = Some existing /\
       PyDict.get (_teapots store') (teapot_id_ teapot) = Some teapot /\
       (teapot_id_ existing = id -> PyDict.get (_teapots store') id = Some teapot) /\
       Teapot_patched existing data now teapot /\
       (teapot_updated_at existing < teapot_updated_at teapot <->
        teapot_updated_at existing < now)) /\
  (forall data tea store',
     Routes.patch_tea id data now store = ((JsonTea tea, 200), store') ->
     exists existing,
       PyDict.get (_teas store) id = Some existing /\
       PyDict.get (_teas store') (tea_id_ tea) = Some tea /\
       (tea_id_ existing = id -> PyDict.get (_teas store') id = Some tea) /\
       Tea_patched existing data now tea /\
       (tea_updated_at existing < tea_updated_at tea <->
        tea_updated_at existing < now)) /\
  (forall data brew store',
     Routes.patch_brew id data now store = ((JsonBrew brew, 200), store') ->
     exists existing,
       PyDict.get (_brews store) id = Some existing /\
       PyDict.get (_brews store') (brew_id_ brew) = Some brew /\
       (brew_id_ existing = id -> PyDict.get (_brews store') id = Some brew) /\
       Brew_patched existing data now brew /\
       (brew_updated_at existing < brew_updated_at brew <->
        brew_updated_at existing < now)).
Proof.
  split; [|split]; intros data e store' Hrun.
  - destruct (patch_teapot_ok _ _ _ _ _ _ Hrun) as (ex & Hget & Hput & Hp).
    exists ex. split; [assumption|]. split; [assumption|].
    split; [intros <-; destruct Hp as (_ & _ & _ & _ & _ & <- & _); assumption|].
    split; [assumption|].
    destruct Hp as (_ & _ & _ & _ & _ & _ & _ & ->). reflexivity.
  - destruct (patch_tea_ok _ _ _ _ _ _ Hrun) as (ex & Hget & Hput & Hp).
    exists ex. split; [assumption|]. split; [assumption|].
    split; [intros <-; destruct Hp as (_ & _ & _ & _ & _ & _ & _ & <- & _); assumption|].
    split; [assumption|].
    destruct Hp as (_ & _ & _ & _ & _ & _ & _ & _ & _ & ->). reflexivity.
  - destruct (patch_brew_ok _ _ _ _ _ _ Hrun) as (ex & Hget & Hput & Hp).
    exists ex. split; [assumption|]. split; [assumption|].
    split; [intros <-; destruct Hp as (_ & _ & _ & _ & _ & _ & _ & <- & _); assumption|].
    split; [assumption|].
    destruct Hp as (_ & _ & _ & _ & _ & _ & _ & _ & _ & ->). reflexivity.
Qed.

Lemma patch_semantics_witness :
  exists teapot,
    fst (Routes.patch_teapot "tp1"
           {| pt_name := Given (Some "Tokoname"); pt_material := Unset;
              pt_capacity_ml := Unset; pt_style := Unset;
              pt_description := Given None |} 9 demo_store)
    = (JsonTeapot teapot, 200) /\
    teapot_name teapot = "Tokoname" /\ teapot_material teapot = CLAY /\
    teapot_description teapot = None /\ teapot_updated_at teapot = 9.
Proof.
  destruct (proj1 (patch_semantics "tp1" 9 demo_store)
              {| pt_name := Given (Some "Tokoname"); pt_material := Unset;
                 pt_capacity_ml := Unset; pt_style := Unset;
                 pt_description := Given None |}
              _ _ eq_refl)
    as (ex & Hget & _ & _ & Hp & _).
  injection Hget as <-.
  destruct Hp as (Hn & Hm & _ & _ & Hd & _ & _ & Hu). simpl in *.
  eexists. split; [reflexivity|]. simpl. repeat split.
Defined.

(** Counterexample to the last part of C5: where the clock has not moved
    past the stored updated_at, the PATCH succeeds and the stored updated_at is not greater
    than before. *)
Lemma patch_updated_at_not_greater :
  exists teapot store',
    Routes.patch_teapot "tp1"
      {| pt_name := Given (Some "Tokoname"); pt_material := Unset;
         pt_capacity_ml := Unset; pt_style := Unset; pt_description := Unset |}
      5 demo_store = ((JsonTeapot teapot, 200), store') /\
    PyDict.get (_teapots demo_store) "tp1" = Some demo_teapot /\
    PyDict.get (_teapots store') "tp1" = Some teapot /\
    ~ teapot_updated_at demo_teapot < teapot_updated_at teapot.
Proof.
  eexists. eexists. split; [reflexivity|]. split; [reflexivity|].
  split; [reflexivity|]. simpl. lia.
Qed.

(** ** Handlers: creating a steep *)

(** The three steps of a thread that runs alone are the handler. *)
Lemma steep_step_sequential (c : SteepCall) (store : MemoryStore) :
  let (pc1, s1) := steep_step c AtGetBrew store in
  let (pc2, s2) := steep_step c pc1 s1 in
  let (pc3, s3) := steep_step c pc2 s2 in
  (pc3, s3) =
  (Returned (fst (Routes.create_steep (sc_brew_id c) (sc_data c) (sc_uuid c)
                    (sc_now c) store)),
   snd (Routes.create_steep (sc_brew_id c) (sc_data c) (sc_uuid c)
          (sc_now c) store)).
Proof.
  unfold Routes.create_steep. simpl.
  destruct (PyDict.get (_brews store) (sc_brew_id c)); [|reflexivity].
  destruct (CreateSteepRequest_errors (sc_data c)); [|reflexivity].
  simpl. destruct (Store.get_next_steep_number (sc_brew_id c) store) as [n s1].
  destruct (construct Steep_ok _); reflexivity.
Qed.

Lemma py_max_seq (a : nat) (n : nat) (x : Z) :
  py_max x (map Z.of_nat (seq a n)) =
  match n with O => x | S m => Z.max x (Z.of_nat (a + m)) end.
Proof.
  unfold py_max. revert a x. induction n as [|n IH]; intros a x; simpl.
  - reflexivity.
  - rewrite IH. destruct n as [|m].
    + now rewrite Nat.add_0_r.
    + replace (S a + m)%nat with (a + S m)%nat by lia. lia.
Qed.

Lemma next_number_of_run (brew_id : string) (store : MemoryStore) (k : nat) :
  steep_numbers_of brew_id store = map Z.of_nat (seq 1 k) ->
  Store.get_next_steep_number brew_id store = (Z.of_nat (S k), store).
Proof.
  unfold steep_numbers_of, Store.get_next_steep_number.
  destruct (filter _ (PyDict.values (_steeps store))) as [|s rest]; simpl.
  - destruct k; [reflexivity | discriminate].
  - destruct k as [|k]; [discriminate|].
    cbn [seq map]. intros [= Hs Hrest].
    rewrite Hs, Hrest, py_max_seq. f_equal. destruct k; lia.
Qed.

Lemma CreateSteepRequest_errors_nil data :
  CreateSteepRequest_errors data = [] ->
  (1 <=? cs_duration_seconds data) = true /\
  opt_ok (in_range 1 5) (cs_rating data) = true /\
  opt_ok (len_in 0 200) (cs_notes data) = true.
Proof.
  unfold CreateSteepRequest_errors. intros H.
  apply app_eq_nil in H. destruct H as [H1 H].
  apply app_eq_nil in H. destruct H as [H2 H3].
  repeat split; eapply field_error_nil; eassumption.
Qed.

(** One request after the other: when the steeps of a brew are numbered
    1..k, a well-formed request with a fresh id creates the steep k+1, and
    the steeps of the brew are then numbered 1..k+1. *)
Lemma create_steep_sequential
    (brew_id : string) (data : CreateSteepRequest) (uuid : string) (now : Z)
    (store : MemoryStore) (k : nat) :
  (exists brew, PyDict.get (_brews store) brew_id = Some brew) ->
  CreateSteepRequest_errors data = [] ->
  PyDict.get (_steeps store) uuid = None ->
  steep_numbers_of brew_id store = map Z.of_nat (seq 1 k) ->
  exists steep store',
    Routes.create_steep brew_id data uuid now store = ((JsonSteep steep, 201), store') /\
    steep_number steep = Z.of_nat (S k) /\
    steep_numbers_of brew_id store' = map Z.of_nat (seq 1 (S k)).
Proof.
  intros [brew Hb] Hok Hfresh Hrun.
  destruct (CreateSteepRequest_errors_nil data Hok) as (Hd & Hr & Hn).
  unfold Routes.create_steep, Store.get_brew. rewrite Hb, Hok.
  rewrite (next_number_of_run _ _ _ Hrun).
  unfold construct, Steep_ok. cbn [steep_number steep_duration_seconds
                                     steep_rating steep_notes].
  rewrite Hd, Hr, Hn.
  replace (1 <=? Z.of_nat (S k)) with true by (symmetry; apply Z.leb_le; lia).
  cbn [andb]. eexists. eexists. split; [reflexivity|]. split; [reflexivity|].
  unfold steep_numbers_of in *. cbn [Store.create_steep snd _steeps].
  rewrite values_setitem_fresh by assumption.
  rewrite filter_app, map_app, Hrun. cbn [filter steep_brew_id].
  rewrite String.eqb_refl. cbn [map steep_number app].
  rewrite (seq_S k 1), map_app. reflexivity.
Qed.

(** C1 on the code. Two requests for a steep of the same brew, each thread
    taking its turn between the store calls of the other: both read the
    next steep number before either stores its steep, both are answered 201
    with steep number 1, and the brew ends with two steeps numbered 1. *)
Theorem create_steep_race :
  run_schedule [0; 1; 0; 1; 0; 1]%nat
    [(race_call "s-a" 40, AtGetBrew); (race_call "s-b" 41, AtGetBrew)]
    race_store
  = ([(race_call "s-a" 40, Returned (JsonSteep (demo_steep_at "s-a" 40), 201));
      (race_call "s-b" 41, Returned (JsonSteep (demo_steep_at "s-b" 41), 201))],
     {| _teapots := _teapots race_store; _teas := _teas race_store;
        _brews := _brews race_store;
        _steeps := [("s-a", demo_steep_at "s-a" 40); ("s-b", demo_steep_at "s-b" 41)] |})
  /\ steep_number (demo_steep_at "s-a" 40) = 1
  /\ steep_number (demo_steep_at "s-b" 41) = 1
  /\ steep_numbers_of "b1"
       (snd (run_schedule [0; 1; 0; 1; 0; 1]%nat
               [(race_call "s-a" 40, AtGetBrew); (race_call "s-b" 41, AtGetBrew)]
               race_store)) = [1; 1].
Proof. repeat split. Qed.

(** The same two requests, one after the other, get the numbers 1 and 2. *)
Lemma create_steep_in_turn :
  steep_numbers_of "b1"
    (snd (run_schedule [0; 0; 0; 1; 1; 1]%nat
            [(race_call "s-a" 40, AtGetBrew); (race_call "s-b" 41, AtGetBrew)]
            race_store)) = [1; 2].
Proof. reflexivity. Qed.

(* ================================================================== *)
(** * Further properties of the store *)
(* ================================================================== *)

Lemma py_slice_nil {A : Type} (start stop : Z) : py_slice (@nil A) start stop = [].
Proof. unfold py_slice. rewrite skipn_nil. apply firstn_nil. Qed.

Lemma filter_none {A : Type} (p : A -> bool) (xs : list A) :
  (forall x, In x xs -> p x = false) -> filter p xs = [].
Proof.
  induction xs as [|x xs IH]; simpl; intros H; [reflexivity|].
  rewrite (H x) by now left. apply IH. intros y Hy. apply H. now right.
Qed.

(** The steeps [delete_brew] leaves, as a list. *)
Lemma delete_brew_values (self : MemoryStore) (id : string) :
  Store.wf self ->
  fst (Store.delete_brew id self) = true ->
  PyDict.values (_steeps (snd (Store.delete_brew id self))) =
  filter (fun s => negb (String.eqb (steep_brew_id s) id))
    (PyDict.values (_steeps self)).
Proof.
  intros (_ & _ & _ & H4). unfold Store.delete_brew.
  destruct (negb (PyDict.contains (_brews self) id)); [discriminate|].
  intros _. simpl. rewrite delete_brew_steeps by assumption.
  apply (values_filter_snd (fun s => negb (String.eqb (steep_brew_id s) id))).
Qed.

Lemma filter_brew_after_delete (id b : string) (steeps : list Steep) :
  filter (fun s => String.eqb (steep_brew_id s) b)
    (filter (fun s => negb (String.eqb (steep_brew_id s) id)) steeps)
  = if String.eqb b id then []
    else filter (fun s => String.eqb (steep_brew_id s) b) steeps.
Proof.
  rewrite filter_twice. destruct (String.eqb_spec b id) as [->|Hne].
  - apply filter_none. intros s _. now destruct (String.eqb (steep_brew_id s) id).
  - apply filter_ext. intros s.
    destruct (String.eqb_spec (steep_brew_id s) b) as [->|Hb].
    + destruct (String.eqb_spec b id); [contradiction | reflexivity].
    + now rewrite andb_false_r.
Qed.

(** X1. After a brew is deleted, its steep listing is empty with total 0 and
    its next steep number is 1 again, while the listing and the next steep
    number of every other brew are what they were. *)
Theorem delete_brew_steep_queries (self : MemoryStore) (id : string) :
  Store.wf self ->
  fst (Store.delete_brew id self) = true ->
  (forall q, fst (Store.list_steeps_by_brew id q (snd (Store.delete_brew id self)))
             = ([], 0)) /\
  fst (Store.get_next_steep_number id (snd (Store.delete_brew id self))) = 1 /\
  (forall b, b <> id ->
     (forall q, fst (Store.list_steeps_by_brew b q (snd (Store.delete_brew id self)))
                = fst (Store.list_steeps_by_brew b q self)) /\
     fst (Store.get_next_steep_number b (snd (Store.delete_brew id self)))
     = fst (Store.get_next_steep_number b self)).
Proof.
  intros Hwf Hdel. pose proof (delete_brew_values self id Hwf Hdel) as Hv.
  unfold Store.list_steeps_by_brew, Store.get_next_steep_number.
  rewrite Hv. split; [|split].
  - intros q. rewrite filter_brew_after_delete, String.eqb_refl.
    unfold sort_by. cbn [fold_left]. now rewrite py_slice_nil.
  - rewrite filter_brew_after_delete, String.eqb_refl. reflexivity.
  - intros b Hb. rewrite !filter_brew_after_delete.
    destruct (String.eqb_spec b id); [contradiction|]. split; [reflexivity|].
    destruct (filter (fun s => String.eqb (steep_brew_id s) b)
                (PyDict.values (_steeps self))); reflexivity.
Qed.

Lemma delete_brew_steep_queries_witness :
  fst (Store.get_next_steep_number "b1" (snd (Store.delete_brew "b1" demo_store))) = 1 /\
  fst (Store.get_next_steep_number "b2" (snd (Store.delete_brew "b1" demo_store))) = 2.
Proof.
  destruct (delete_brew_steep_queries demo_store "b1" wf_demo_store eq_refl)
    as (_ & H1 & H2).
  split; [exact H1|]. destruct (H2 "b2") as [_ H]; [discriminate|].
  rewrite H. reflexivity.
Defined.

(** X2. Listing the brews of a teapot is listing the brews with that teapot
    id as the only filter, for every teapot id but the empty string. *)
Theorem list_brews_by_teapot_as_filter
    (self : MemoryStore) (teapot_id : string) (q : PaginationQuery) :
  teapot_id <> "" ->
  Store.list_brews_by_teapot teapot_id q self =
  Store.list_brews
    {| bq_page := pq_page q; bq_limit := pq_limit q; bq_status := None;
       bq_teapot_id := Some teapot_id; bq_tea_id := None |} self.
Proof.
  intros Hne. unfold Store.list_brews_by_teapot, Store.list_brews, filter_if.
  cbn [bq_status bq_teapot_id bq_tea_id bq_page bq_limit].
  unfold truthy_str. destruct (String.eqb_spec teapot_id ""); [contradiction|].
  reflexivity.
Qed.

Lemma list_brews_by_teapot_as_filter_witness :
  Store.list_brews_by_teapot "tp1" {| pq_page := 1; pq_limit := 20 |} demo_store =
  Store.list_brews
    {| bq_page := 1; bq_limit := 20; bq_status := None;
       bq_teapot_id := Some "tp1"; bq_tea_id := None |} demo_store.
Proof.
  apply (list_brews_by_teapot_as_filter demo_store "tp1"
           {| pq_page := 1; pq_limit := 20 |}).
  discriminate.
Defined.

(** ** Walking the pages *)

Lemma firstn_add {A : Type} (a b : nat) (xs : list A) :
  firstn (a + b) xs = firstn a xs ++ firstn b (skipn a xs).
Proof.
  revert xs. induction a as [|a IH]; intros xs; simpl; [reflexivity|].
  destruct xs as [|x xs]; simpl.
  - now rewrite firstn_nil.
  - now rewrite IH.
Qed.

Lemma window_concat {A : Type} (l n : nat) (xs : list A) :
  List.concat (map (fun i => window (i * l) l xs) (seq 0 n)) = firstn (n * l) xs.
Proof.
  induction n as [|n IH]; [reflexivity|].
  rewrite seq_S, map_app, concat_app, IH. simpl.
  rewrite app_nil_r. unfold window.
  replace (l + n * l)%nat with (n * l + l)%nat by lia.
  now rewrite firstn_add.
Qed.

Lemma window_length {A : Type} (off n : nat) (xs : list A) :
  List.length (window off n xs) = Nat.min n (List.length xs - off).
Proof. unfold window. now rewrite length_firstn, length_skipn. Qed.

(** The pages 1..n of a list, one behind the other. *)
Lemma pages_concat {A : Type} (limit : Z) (n : nat) (xs : list A) :
  1 <= limit ->
  List.concat (map (fun p : nat =>
                 py_slice xs ((Z.of_nat p - 1) * limit)
                   ((Z.of_nat p - 1) * limit + limit)) (seq 1 n))
  = firstn (n * Z.to_nat limit) xs.
Proof.
  intros Hl. rewrite <- window_concat, <- seq_shift, map_map.
  f_equal. apply map_ext. intros i.
  rewrite py_slice_window by nia. f_equal. nia.
Qed.

(** X3. Asking for the pages 1, 2, ..., n of one query and putting them one
    behind the other gives the first n * limit matching entities, each once
    and in their order; with n * limit at least the total it gives all of
    them. This holds for teapots, teas and brews. *)
Theorem list_pages_concat (self : MemoryStore) (n : nat) :
  (forall q, 1 <= tq_limit q ->
     let matching := filter (teapot_matches q) (PyDict.values (_teapots self)) in
     List.concat (map (fun p => fst (fst (Store.list_teapots (TeapotQuery_at q p) self)))
               (seq 1 n))
     = firstn (n * Z.to_nat (tq_limit q)) matching /\
     (len matching <= Z.of_nat n * tq_limit q ->
      List.concat (map (fun p => fst (fst (Store.list_teapots (TeapotQuery_at q p) self)))
                (seq 1 n)) = matching)) /\
  (forall q, 1 <= eq_limit q ->
     let matching := filter (tea_matches q) (PyDict.values (_teas self)) in
     List.concat (map (fun p => fst (fst (Store.list_teas (TeaQuery_at q p) self)))
               (seq 1 n))
     = firstn (n * Z.to_nat (eq_limit q)) matching /\
     (len matching <= Z.of_nat n * eq_limit q ->
      List.concat (map (fun p => fst (fst (Store.list_teas (TeaQuery_at q p) self)))
                (seq 1 n)) = matching)) /\
  (forall q, 1 <= bq_limit q ->
     let matching := filter (brew_matches q) (PyDict.values (_brews self)) in
     List.concat (map (fun p => fst (fst (Store.list_brews (BrewQuery_at q p) self)))
               (seq 1 n))
     = firstn (n * Z.to_nat (bq_limit q)) matching /\
     (len matching <= Z.of_nat n * bq_limit q ->
      List.concat (map (fun p => fst (fst (Store.list_brews (BrewQuery_at q p) self)))
                (seq 1 n)) = matching)).
Proof.
  split; [|split]; intros q Hl matching.
  - assert (E : List.concat (map (fun p => fst (fst (Store.list_teapots
                                                   (TeapotQuery_at q p) self)))
                          (seq 1 n))
                = firstn (n * Z.to_nat (tq_limit q)) matching).
    { rewrite <- (pages_concat (tq_limit q) n matching Hl). f_equal.
      apply map_ext. intros p. now rewrite list_teapots_eq. }
    split; [exact E|]. intros Hall. rewrite E. apply firstn_all2.
    unfold len in Hall. nia.
  - assert (E : List.concat (map (fun p => fst (fst (Store.list_teas
                                                   (TeaQuery_at q p) self)))
                          (seq 1 n))
                = firstn (n * Z.to_nat (eq_limit q)) matching).
    { rewrite <- (pages_concat (eq_limit q) n matching Hl). f_equal.
      apply map_ext. intros p. now rewrite list_teas_eq. }
    split; [exact E|]. intros Hall. rewrite E. apply firstn_all2.
    unfold len in Hall. nia.
  - assert (E : List.concat (map (fun p => fst (fst (Store.list_brews
                                                   (BrewQuery_at q p) self)))
                          (seq 1 n))
                = firstn (n * Z.to_nat (bq_limit q)) matching).
    { rewrite <- (pages_concat (bq_limit q) n matching Hl). f_equal.
      apply map_ext. intros p. now rewrite list_brews_eq. }
    split; [exact E|]. intros Hall. rewrite E. apply firstn_all2.
    unfold len in Hall. nia.
Qed.

Lemma list_pages_concat_witness :
  List.concat (map (fun p => fst (fst (Store.list_brews
                (BrewQuery_at {| bq_page := 1; bq_limit := 1; bq_status := None;
                                 bq_teapot_id := None; bq_tea_id := None |} p)
                demo_store))) (seq 1 2))
  = [demo_brew "b1" "tp1" "t1"; demo_brew "b2" "tp1" "t1"].
Proof.
  destruct (list_pages_concat demo_store 2) as (_ & _ & H).
  destruct (H {| bq_page := 1; bq_limit := 1; bq_status := None;
                 bq_teapot_id := None; bq_tea_id := None |})
    as [_ Hall]; [simpl; lia|].
  apply Hall. vm_compute. discriminate.
Defined.

(** ** The list endpoints *)

Lemma page_limit_errors_nil (page limit : Z) :
  page_limit_errors page limit = [] <-> 1 <= page /\ 1 <= limit <= 100.
Proof.
  unfold page_limit_errors, field_error, in_range.
  destruct (Z.leb_spec 1 page), (Z.leb_spec 1 limit), (Z.leb_spec limit 100);
    simpl; split; try discriminate; try reflexivity; try lia.
Qed.

Lemma page_response_paged {A : Type} (matching : list A) (page limit : Z) :
  1 <= page -> 1 <= limit <= 100 ->
  paged_answer matching page limit
    (page_response
       (py_slice matching ((page - 1) * limit) ((page - 1) * limit + limit))
       (len matching) page limit).
Proof.
  intros Hp Hl. pose proof (len_nonneg matching) as Hn.
  assert (Hs : 0 <= (page - 1) * limit) by nia.
  set (tp := if 0 <? len matching then (len matching + limit - 1) / limit else 0).
  assert (Htp : 0 <= tp /\ forall n, 0 <= n -> (len matching <= n * limit <-> tp <= n)).
  { unfold tp. destruct (Z.ltb_spec 0 (len matching)) as [Hpos|Hz].
    - pose proof (Z.div_mod (len matching + limit - 1) limit ltac:(lia)) as Hd.
      pose proof (Z.mod_pos_bound (len matching + limit - 1) limit ltac:(lia)) as Hm.
      split; [apply Z.div_pos; lia|]. intros n Hn0.
      revert Hd Hm. generalize ((len matching + limit - 1) / limit).
      generalize ((len matching + limit - 1) mod limit). intros r d Hd Hm.
      split; intros H.
      + destruct (Z_le_gt_dec d n) as [?|Hgt]; [assumption|].
        assert (limit * (n + 1) <= limit * d) by (apply Z.mul_le_mono_nonneg_l; lia).
        lia.
      + assert (limit * d <= limit * n) by (apply Z.mul_le_mono_nonneg_l; lia).
        lia.
    - split; [lia|]. intros n Hn0. split; intros H; [assumption|].
      assert (0 <= n * limit) by (apply Z.mul_nonneg_nonneg; lia). lia. }
  destruct Htp as [Htp0 Htp].
  unfold page_response, construct, Pagination_ok, in_range. fold tp.
  cbn [pg_page pg_limit pg_total pg_total_pages].
  replace (1 <=? page) with true by (symmetry; apply Z.leb_le; lia).
  replace (1 <=? limit) with true by (symmetry; apply Z.leb_le; lia).
  replace (limit <=? 100) with true by (symmetry; apply Z.leb_le; lia).
  replace (0 <=? len matching) with true by (symmetry; apply Z.leb_le; lia).
  replace (0 <=? tp) with true by (symmetry; apply Z.leb_le; lia).
  cbn [andb]. rewrite py_slice_window by lia.
  eexists. eexists. split; [reflexivity|]. split; [reflexivity|].
  cbn [pg_page pg_limit pg_total pg_total_pages].
  repeat (split; [first [reflexivity | assumption]|]).
  assert (Hlen : len (window (Z.to_nat ((page - 1) * limit)) (Z.to_nat limit) matching)
                 = Z.min limit (Z.max 0 (len matching - (page - 1) * limit))).
  { unfold len. rewrite window_length. unfold len in Hn. lia. }
  split; [lia|].
  split.
  - intros He. rewrite He in Hlen. unfold len in Hlen at 1. simpl in Hlen.
    assert (len matching <= (page - 1) * limit) by lia.
    apply Z.lt_le_pred. apply (Htp (page - 1)); lia.
  - intros Hlt.
    assert (len matching <= (page - 1) * limit) by (apply Htp; lia).
    apply length_zero_iff_nil. unfold len in *. lia.
Qed.

(** X4. For a valid query (page at least 1, limit in 1..100) a list
    endpoint answers 200 with the window of the page, the number of matching
    items, and as [totalPages] the least number of pages that hold them all;
    the page holds at most [limit] items and is empty exactly when the page
    number is beyond [totalPages]. The store is left unchanged. The lists
    under a teapot or a brew answer so when that teapot or brew is stored. *)
Theorem list_endpoints (store : MemoryStore) :
  (forall q, TeapotQuery_errors q = [] ->
     paged_answer (filter (teapot_matches q) (PyDict.values (_teapots store)))
       (tq_page q) (tq_limit q) (fst (TeapotRoutes.list_teapots q store)) /\
     snd (TeapotRoutes.list_teapots q store) = store) /\
  (forall q, TeaQuery_errors q = [] ->
     paged_answer (filter (tea_matches q) (PyDict.values (_teas store)))
       (eq_page q) (eq_limit q) (fst (TeaRoutes.list_teas q store)) /\
     snd (TeaRoutes.list_teas q store) = store) /\
  (forall q, BrewQuery_errors q = [] ->
     paged_answer (filter (brew_matches q) (PyDict.values (_brews store)))
       (bq_page q) (bq_limit q) (fst (BrewRoutes.list_brews q store)) /\
     snd (BrewRoutes.list_brews q store) = store) /\
  (forall teapot_id q,
     PyDict.contains (_teapots store) teapot_id = true ->
     PaginationQuery_errors q = [] ->
     paged_answer
       (filter (fun b => String.eqb (brew_teapot_id b) teapot_id)
          (PyDict.values (_brews store)))
       (pq_page q) (pq_limit q)
       (fst (TeapotRoutes.list_teapot_brews teapot_id q store)) /\
     snd (TeapotRoutes.list_teapot_brews teapot_id q store) = store) /\
  (forall brew_id q,
     PyDict.contains (_brews store) brew_id = true ->
     PaginationQuery_errors q = [] ->
     (exists ordered,
        Permutation ordered
          (filter (fun s => String.eqb (steep_brew_id s) brew_id)
             (PyDict.values (_steeps store))) /\
        Sorted (key_le steep_number) ordered /\
        paged_answer ordered (pq_page q) (pq_limit q)
          (fst (BrewRoutes.list_steeps brew_id q store))) /\
     snd (BrewRoutes.list_steeps brew_id q store) = store).
Proof.
  split; [|split; [|split; [|split]]].
  - intros q Hq. unfold TeapotRoutes.list_teapots. rewrite Hq.
    apply page_limit_errors_nil in Hq. destruct Hq as [Hp Hl].
    rewrite list_teapots_eq. cbn zeta. split; [|reflexivity].
    now apply page_response_paged.
  - intros q Hq. unfold TeaRoutes.list_teas. rewrite Hq.
    apply page_limit_errors_nil in Hq. destruct Hq as [Hp Hl].
    rewrite list_teas_eq. cbn zeta. split; [|reflexivity].
    now apply page_response_paged.
  - intros q Hq. unfold BrewRoutes.list_brews. rewrite Hq.
    apply page_limit_errors_nil in Hq. destruct Hq as [Hp Hl].
    rewrite list_brews_eq. cbn zeta. split; [|reflexivity].
    now apply page_response_paged.
  - intros teapot_id q Hc Hq. unfold TeapotRoutes.list_teapot_brews, Store.get_teapot.
    apply contains_true_iff in Hc. destruct Hc as [t ->]. rewrite Hq.
    apply page_limit_errors_nil in Hq. destruct Hq as [Hp Hl].
    unfold Store.list_brews_by_teapot. split; [|reflexivity].
    now apply page_response_paged.
  - intros brew_id q Hc Hq. unfold BrewRoutes.list_steeps, Store.get_brew.
    apply contains_true_iff in Hc. destruct Hc as [b ->]. rewrite Hq.
    apply page_limit_errors_nil in Hq. destruct Hq as [Hp Hl].
    unfold Store.list_steeps_by_brew. split; [|reflexivity].
    eexists. split; [apply sort_by_perm|]. split; [apply sort_by_sorted|].
    now apply page_response_paged.
Qed.

Lemma list_endpoints_witness :
  paged_answer
    (filter (brew_matches {| bq_page := 2; bq_limit := 1; bq_status := None;
                             bq_teapot_id := None; bq_tea_id := None |})
       (PyDict.values (_brews demo_store)))
    2 1
    (fst (BrewRoutes.list_brews
            {| bq_page := 2; bq_limit := 1; bq_status := None;
               bq_teapot_id := None; bq_tea_id := None |} demo_store)).
Proof.
  destruct (list_endpoints demo_store) as (_ & _ & H & _).
  apply (H {| bq_page := 2; bq_limit := 1; bq_status := None;
              bq_teapot_id := None; bq_tea_id := None |}).
  reflexivity.
Defined.

(* ================================================================== *)
(** * Requests served one after the other *)
(* ================================================================== *)

Ltac break_match :=
  repeat match goal with
         | |- context [match ?x with _ => _ end] => destruct x eqn:?
         end.

Lemma Teapot_model_validate_ok d t :
  Teapot_model_validate d = Some t -> Teapot_ok t = true.
Proof.
  unfold Teapot_model_validate. destruct d as [i n m c s de ca ua]. simpl.
  destruct i, n, m, c, s, ca, ua; try discriminate.
  intros H. now apply construct_Some in H.
Qed.

Lemma Tea_model_validate_ok d t :
  Tea_model_validate d = Some t -> Tea_ok t = true.
Proof.
  unfold Tea_model_validate. destruct d as [i n ty o c st tm de ca ua]. simpl.
  destruct i, n, ty, c, st, tm, ca, ua; try discriminate.
  intros H. now apply construct_Some in H.
Qed.

Lemma Brew_model_validate_ok d b :
  Brew_model_validate d = Some b -> Brew_ok b = true.
Proof.
  unfold Brew_model_validate. destruct d as [i tp te s w n sa co ca ua]. simpl.
  destruct i, tp, te, s, w, sa, ca, ua; try discriminate.
  intros H. now apply construct_Some in H.
Qed.

Lemma get_next_steep_number_reads (brew_id : string) (self : MemoryStore) :
  snd (Store.get_next_steep_number brew_id self) = self.
Proof.
  unfold Store.get_next_steep_number.
  now destruct (filter _ (PyDict.values (_steeps self))).
Qed.

(** Every handler changes the store in one of the ways of [store_change]. *)
Lemma serve_change (r : Request) (st : MemoryStore) :
  store_change (generated_id r) st (snd (serve r st)).
Proof.
  destruct r; cbn [serve status_and_store snd generated_id].
  - unfold TeapotRoutes.list_teapots, Store.list_teapots. break_match; apply change_none.
  - unfold TeapotRoutes.create_teapot, construct.
    destruct (CreateTeapotRequest_errors data); [|apply change_none].
    match goal with |- context [if Teapot_ok ?t then _ else _] =>
      destruct (Teapot_ok t) eqn:Eok end; [|apply change_none].
    apply (change_teapot _ _ _ Eok).
  - unfold TeapotRoutes.get_teapot, Store.get_teapot. break_match; apply change_none.
  - unfold TeapotRoutes.update_teapot, Store.get_teapot, construct.
    destruct (PyDict.get (_teapots st) id); [|apply change_none].
    destruct (UpdateTeapotRequest_errors data); [|apply change_none].
    match goal with |- context [if Teapot_ok ?t then _ else _] =>
      destruct (Teapot_ok t) eqn:Eok end; [|apply change_none].
    apply (change_teapot _ _ _ Eok).
  - unfold Routes.patch_teapot, Store.get_teapot.
    destruct (PyDict.get (_teapots st) id); [|apply change_none].
    destruct (PatchTeapotRequest_errors data); [|apply change_none].
    destruct (Teapot_model_validate _) as [t'|] eqn:Ev; [|apply change_none].
    apply (change_teapot _ _ _ (Teapot_model_validate_ok _ _ Ev)).
  - unfold TeapotRoutes.delete_teapot.
    destruct (Store.delete_teapot id st) as [d st'] eqn:E.
    replace st' with (snd (Store.delete_teapot id st)) by now rewrite E.
    destruct (negb d); apply change_delete_teapot.
  - unfold TeapotRoutes.list_teapot_brews, Store.get_teapot, Store.list_brews_by_teapot.
    break_match; apply change_none.
  - unfold TeaRoutes.list_teas, Store.list_teas. break_match; apply change_none.
  - unfold TeaRoutes.create_tea, construct.
    destruct (CreateTeaRequest_errors data); [|apply change_none].
    match goal with |- context [if Tea_ok ?t then _ else _] =>
      destruct (Tea_ok t) eqn:Eok end; [|apply change_none].
    apply (change_tea _ _ _ Eok).
  - unfold TeaRoutes.get_tea, Store.get_tea. break_match; apply change_none.
  - unfold TeaRoutes.update_tea, Store.get_tea, construct.
    destruct (PyDict.get (_teas st) id); [|apply change_none].
    destruct (UpdateTeaRequest_errors data); [|apply change_none].
    match goal with |- context [if Tea_ok ?t then _ else _] =>
      destruct (Tea_ok t) eqn:Eok end; [|apply change_none].
    apply (change_tea _ _ _ Eok).
  - unfold Routes.patch_tea, Store.get_tea.
    destruct (PyDict.get (_teas st) id); [|apply change_none].
    destruct (PatchTeaRequest_errors data); [|apply change_none].
    destruct (Tea_model_validate _) as [t'|] eqn:Ev; [|apply change_none].
    apply (change_tea _ _ _ (Tea_model_validate_ok _ _ Ev)).
  - unfold TeaRoutes.delete_tea.
    destruct (Store.delete_tea id st) as [d st'] eqn:E.
    replace st' with (snd (Store.delete_tea id st)) by now rewrite E.
    destruct (negb d); apply change_delete_tea.
  - unfold BrewRoutes.list_brews, Store.list_brews. break_match; apply change_none.
  - unfold Routes.create_brew, Store.get_teapot, Store.get_tea, construct.
    destruct (CreateBrewRequest_errors data); [|apply change_none].
    destruct (PyDict.get (_teapots st) (cb_teapot_id data)); [|apply change_none].
    destruct (PyDict.get (_teas st) (cb_tea_id data)); [|apply change_none].
    match goal with |- context [if Brew_ok ?b then _ else _] =>
      destruct (Brew_ok b) eqn:Eok end; [|apply change_none].
    apply (change_brew _ _ _ Eok).
  - unfold BrewRoutes.get_brew, Store.get_brew. break_match; apply change_none.
  - unfold Routes.patch_brew, Store.get_brew.
    destruct (PyDict.get (_brews st) id); [|apply change_none].
    destruct (PatchBrewRequest_errors data); [|apply change_none].
    destruct (Brew_model_validate _) as [b'|] eqn:Ev; [|apply change_none].
    apply (change_brew _ _ _ (Brew_model_validate_ok _ _ Ev)).
  - unfold BrewRoutes.delete_brew.
    destruct (Store.delete_brew id st) as [d st'] eqn:E.
    replace st' with (snd (Store.delete_brew id st)) by now rewrite E.
    destruct (negb d); apply change_delete_brew.
  - unfold BrewRoutes.list_steeps, Store.get_brew, Store.list_steeps_by_brew.
    break_match; apply change_none.
  - unfold Routes.create_steep, Store.get_brew, construct.
    destruct (PyDict.get (_brews st) brew_id) as [b|] eqn:Eb; [|apply change_none].
    destruct (CreateSteepRequest_errors data); [|apply change_none].
    destruct (Store.get_next_steep_number brew_id st) as [n st'] eqn:En.
    assert (st' = st) by (pose proof (get_next_steep_number_reads brew_id st) as H;
                          now rewrite En in H).
    subst st'.
    match goal with |- context [if Steep_ok ?s then _ else _] =>
      destruct (Steep_ok s) eqn:Eok end; [|apply change_none].
    apply (change_steep _ _ _ Eok); cbn [steep_brew_id steep_number steep_id_].
    + unfold PyDict.contains. now rewrite Eb.
    + now rewrite En.
    + now left.
Qed.



(** ** The order of the checks *)



(** ** PUT and POST *)

Lemma three_errors_nil a b c na nb nc :
  field_error na a ++ field_error nb b ++ field_error nc c = [] ->
  a = true /\ b = true /\ c = true.
Proof. destruct a, b, c; simpl; intros H; try discriminate; auto. Qed.

Lemma five_errors_nil a b c d e na nb nc nd ne :
  field_error na a ++ field_error nb b ++ field_error nc c
  ++ field_error nd d ++ field_error ne e = [] ->
  a = true /\ b = true /\ c = true /\ d = true /\ e = true.
Proof. destruct a, b, c, d, e; simpl; intros H; try discriminate; auto 6. Qed.

(** X7. A valid PUT on a stored id replaces the entity as a whole: every
    field is the body's (a description or origin the body leaves out becomes
    null), the id is the id of the path, created_at is kept and updated_at is
    the clock reading. The entity keeps its place in the listing order, and
    the entities under other ids and the other collections are untouched. *)
Theorem put_replaces (st : MemoryStore) (id : string) (now : Z) :
  (forall data existing,
     PyDict.get (_teapots st) id = Some existing ->
     UpdateTeapotRequest_errors data = [] ->
     let teapot :=
       {| teapot_id_ := id; teapot_name := ut_name data;
          teapot_material := ut_material data;
          teapot_capacity_ml := ut_capacity_ml data;
          teapot_style := ut_style data;
          teapot_description := ut_description data;
          teapot_created_at := teapot_created_at existing;
          teapot_updated_at := now |} in
     let st' := snd (TeapotRoutes.update_teapot id data now st) in
     fst (TeapotRoutes.update_teapot id data now st) = (JsonTeapot teapot, 200) /\
     PyDict.get (_teapots st') id = Some teapot /\
     (forall k, k <> id -> PyDict.get (_teapots st') k = PyDict.get (_teapots st) k) /\
     PyDict.keys (_teapots st') = PyDict.keys (_teapots st) /\
     _teas st' = _teas st /\ _brews st' = _brews st /\ _steeps st' = _steeps st) /\
  (forall data existing,
     PyDict.get (_teas st) id = Some existing ->
     UpdateTeaRequest_errors data = [] ->
     let tea :=
       {| tea_id_ := id; tea_name := ue_name data; tea_type := ue_type data;
          tea_origin := ue_origin data;
          tea_caffeine_level := ue_caffeine_level data;
          tea_steep_temp_celsius := ue_steep_temp_celsius data;
          tea_steep_time_seconds := ue_steep_time_seconds data;
          tea_description := ue_description data;
          tea_created_at := tea_created_at existing;
          tea_updated_at := now |} in
     let st' := snd (TeaRoutes.update_tea id data now st) in
     fst (TeaRoutes.update_tea id data now st) = (JsonTea tea, 200) /\
     PyDict.get (_teas st') id = Some tea /\
     (forall k, k <> id -> PyDict.get (_teas st') k = PyDict.get (_teas st) k) /\
     PyDict.keys (_teas st') = PyDict.keys (_teas st) /\
     _teapots st' = _teapots st /\ _brews st' = _brews st /\ _steeps st' = _steeps st).
Proof.
  split; intros data existing Hget Hok teapot st'; subst st'.
  - unfold TeapotRoutes.update_teapot, Store.get_teapot, construct.
    rewrite Hget, Hok.
    apply three_errors_nil in Hok. destruct Hok as (Hn & Hc & Hd).
    fold teapot. unfold Teapot_ok. cbn [teapot_name teapot_capacity_ml
                                       teapot_description teapot].
    rewrite Hn, Hc, Hd. cbn [andb Store.update_teapot fst snd _teapots _teas
                             _brews _steeps teapot_id_ teapot].
    split; [reflexivity|]. split; [apply get_setitem_eq|].
    split; [intros k Hk; now apply get_setitem_ne|].
    split; [apply keys_setitem_present; congruence|]. repeat split.
  - unfold TeaRoutes.update_tea, Store.get_tea, construct.
    rewrite Hget, Hok.
    apply five_errors_nil in Hok. destruct Hok as (Hn & Ho & Hst & Htm & Hd).
    fold teapot. unfold Tea_ok. cbn [tea_name tea_origin tea_steep_temp_celsius
                                     tea_steep_time_seconds tea_description teapot].
    rewrite Hn, Ho, Hst, Htm, Hd. cbn [andb Store.update_tea fst snd _teapots _teas
                                        _brews _steeps tea_id_ teapot].
    split; [reflexivity|]. split; [apply get_setitem_eq|].
    split; [intros k Hk; now apply get_setitem_ne|].
    split; [apply keys_setitem_present; congruence|]. repeat split.
Qed.

Lemma put_replaces_witness :
  fst (TeapotRoutes.update_teapot "tp1"
         {| ut_name := "Tetsubin"; ut_material := CAST_IRON; ut_capacity_ml := 900;
            ut_style := KYUSU; ut_description := None |} 9 demo_store)
  = (JsonTeapot
       {| teapot_id_ := "tp1"; teapot_name := "Tetsubin";
          teapot_material := CAST_IRON; teapot_capacity_ml := 900;
          teapot_style := KYUSU; teapot_description := None;
          teapot_created_at := 5; teapot_updated_at := 9 |}, 200).
Proof.
  destruct (proj1 (put_replaces demo_store "tp1" 9)
              {| ut_name := "Tetsubin"; ut_material := CAST_IRON;
                 ut_capacity_ml := 900; ut_style := KYUSU;
                 ut_description := None |} demo_teapot eq_refl eq_refl)
    as (H & _).
  exact H.
Defined.

(** X8. A valid POST of a teapot or a tea is answered 201 with the entity
    built from the body: the fresh id, the body's fields, the default style
    [english] or caffeine level [medium] where the body leaves it out, and
    both timestamps the clock reading. A GET of the returned id then answers
    200 with the same entity; with an id that was not stored before, the
    entity is last in the listing order. The other collections are
    untouched. *)
Theorem post_then_get (st : MemoryStore) (uuid : string) (now : Z) :
  (forall data,
     CreateTeapotRequest_errors data = [] ->
     let teapot :=
       {| teapot_id_ := uuid; teapot_name := ct_name data;
          teapot_material := ct_material data;
          teapot_capacity_ml := ct_capacity_ml data;
          teapot_style := match ct_style data with Some s => s | None => ENGLISH end;
          teapot_description := ct_description data;
          teapot_created_at := now; teapot_updated_at := now |} in
     let st' := snd (TeapotRoutes.create_teapot data uuid now st) in
     fst (TeapotRoutes.create_teapot data uuid now st) = (JsonTeapot teapot, 201) /\
     TeapotRoutes.get_teapot uuid st' = ((JsonTeapot teapot, 200), st') /\
     (PyDict.get (_teapots st) uuid = None ->
      PyDict.values (_teapots st') = PyDict.values (_teapots st) ++ [teapot]) /\
     _teas st' = _teas st /\ _brews st' = _brews st /\ _steeps st' = _steeps st) /\
  (forall data,
     CreateTeaRequest_errors data = [] ->
     let tea :=
       {| tea_id_ := uuid; tea_name := ce_name data; tea_type := ce_type data;
          tea_origin := ce_origin data;
          tea_caffeine_level :=
            match ce_caffeine_level data with Some c => c | None => MEDIUM end;
          tea_steep_temp_celsius := ce_steep_temp_celsius data;
          tea_steep_time_seconds := ce_steep_time_seconds data;
          tea_description := ce_description data;
          tea_created_at := now; tea_updated_at := now |} in
     let st' := snd (TeaRoutes.create_tea data uuid now st) in
     fst (TeaRoutes.create_tea data uuid now st) = (JsonTea tea, 201) /\
     TeaRoutes.get_tea uuid st' = ((JsonTea tea, 200), st') /\
     (PyDict.get (_teas st) uuid = None ->
      PyDict.values (_teas st') = PyDict.values (_teas st) ++ [tea]) /\
     _teapots st' = _teapots st /\ _brews st' = _brews st /\ _steeps st' = _steeps st).
Proof.
  split; intros data Hok entity st'; subst st'.
  - unfold TeapotRoutes.create_teapot, TeapotRoutes.get_teapot, Store.get_teapot,
      construct. rewrite Hok.
    apply three_errors_nil in Hok. destruct Hok as (Hn & Hc & Hd).
    unfold ct_style_or_default. fold entity. unfold Teapot_ok.
    cbn [teapot_name teapot_capacity_ml teapot_description entity].
    rewrite Hn, Hc, Hd.
    cbn [andb Store.create_teapot fst snd _teapots _teas _brews _steeps
           teapot_id_ entity].
    rewrite get_setitem_eq. split; [reflexivity|]. split; [reflexivity|].
    split; [intros Hnew; now apply values_setitem_fresh|]. repeat split.
  - unfold TeaRoutes.create_tea, TeaRoutes.get_tea, Store.get_tea, construct.
    rewrite Hok.
    apply five_errors_nil in Hok. destruct Hok as (Hn & Ho & Hst & Htm & Hd).
    unfold ce_caffeine_or_default. fold entity. unfold Tea_ok.
    cbn [tea_name tea_origin tea_steep_temp_celsius tea_steep_time_seconds
           tea_description entity].
    rewrite Hn, Ho, Hst, Htm, Hd.
    cbn [andb Store.create_tea fst snd _teapots _teas _brews _steeps
           tea_id_ entity].
    rewrite get_setitem_eq. split; [reflexivity|]. split; [reflexivity|].
    split; [intros Hnew; now apply values_setitem_fresh|]. repeat split.
Qed.

Lemma post_then_get_witness :
  fst (TeapotRoutes.create_teapot
         {| ct_name := "Gaiwan"; ct_material := PORCELAIN; ct_capacity_ml := 120;
            ct_style := None; ct_description := None |} "tp2" 30 demo_store)
  = (JsonTeapot
       {| teapot_id_ := "tp2"; teapot_name := "Gaiwan";
          teapot_material := PORCELAIN; teapot_capacity_ml := 120;
          teapot_style := ENGLISH; teapot_description := None;
          teapot_created_at := 30; teapot_updated_at := 30 |}, 201).
Proof.
  destruct (proj1 (post_then_get demo_store "tp2" 30)
              {| ct_name := "Gaiwan"; ct_material := PORCELAIN;
                 ct_capacity_ml := 120; ct_style := None;
                 ct_description := None |} eq_refl) as (H & _).
  exact H.
Defined.

(** X9. A valid POST of a brew whose teapot and tea are stored (the tea a
    valid [Tea]) is answered 201 with a brew that carries the fresh id, the
    two references and the notes of the body, status [preparing], no
    completion time, and the clock reading as started_at, created_at and
    updated_at. A GET of that id then answers 200 with the same brew, and
    teapots, teas and steeps are untouched. *)
Theorem post_brew_then_get
    (data : CreateBrewRequest) (uuid : string) (now : Z) (st : MemoryStore)
    (teapot : Teapot) (tea : Tea) :
  CreateBrewRequest_errors data = [] ->
  PyDict.get (_teapots st) (cb_teapot_id data) = Some teapot ->
  PyDict.get (_teas st) (cb_tea_id data) = Some tea ->
  Tea_ok tea = true ->
  exists brew,
    fst (Routes.create_brew data uuid now st) = (JsonBrew brew, 201) /\
    brew_id_ brew = uuid /\
    brew_teapot_id brew = cb_teapot_id data /\ brew_tea_id brew = cb_tea_id data /\
    brew_status brew = PREPARING /\ brew_notes brew = cb_notes data /\
    brew_completed_at brew = None /\
    brew_started_at brew = now /\ brew_created_at brew = now /\
    brew_updated_at brew = now /\
    BrewRoutes.get_brew uuid (snd (Routes.create_brew data uuid now st))
    = ((JsonBrew brew, 200), snd (Routes.create_brew data uuid now st)) /\
    _teapots (snd (Routes.create_brew data uuid now st)) = _teapots st /\
    _teas (snd (Routes.create_brew data uuid now st)) = _teas st /\
    _steeps (snd (Routes.create_brew data uuid now st)) = _steeps st.
Proof.
  intros Hok Htp Htea Hvalid.
  destruct (CreateBrewRequest_errors_nil data Hok) as [Hw Hn].
  assert (Ht : in_range 60 100 (tea_steep_temp_celsius tea) = true).
  { unfold Tea_ok in Hvalid. rewrite !andb_true_iff in Hvalid. tauto. }
  unfold Routes.create_brew, BrewRoutes.get_brew, Store.get_teapot, Store.get_tea,
    Store.get_brew, Store.create_brew.
  rewrite Hok, Htp, Htea. unfold construct, Brew_ok.
  cbn [brew_water_temp_celsius brew_notes].
  assert (Hin : in_range 60 100
                  match cb_water_temp_celsius data with
                  | Some w => if truthy_int w then w else tea_steep_temp_celsius tea
                  | None => tea_steep_temp_celsius tea
                  end = true).
  { destruct (cb_water_temp_celsius data) as [w|]; [|exact Ht].
    destruct (truthy_int w); [exact Hw | exact Ht]. }
  rewrite Hin, Hn. cbn [andb fst snd _brews _teapots _teas _steeps brew_id_].
  rewrite get_setitem_eq. eexists. split; [reflexivity|]. repeat split.
Qed.

Lemma post_brew_then_get_witness :
  exists brew,
    fst (Routes.create_brew
           {| cb_teapot_id := "tp1"; cb_tea_id := "t1";
              cb_water_temp_celsius := Some 75; cb_notes := None |}
           "b9" 30 demo_store) = (JsonBrew brew, 201) /\
    brew_status brew = PREPARING.
Proof.
  destruct (post_brew_then_get
              {| cb_teapot_id := "tp1"; cb_tea_id := "t1";
                 cb_water_temp_celsius := Some 75; cb_notes := None |}
              "b9" 30 demo_store demo_teapot demo_tea
              eq_refl eq_refl eq_refl eq_refl)
    as (brew & Hrun & _ & _ & _ & Hs & _).
  exists brew. split; [exact Hrun | exact Hs].
Defined.

(** ** DELETE *)

(** X10. On a store a DELETE answers 204 exactly when the id is stored and
    404 otherwise; after it a GET of the id answers 404, and a second DELETE
    of the id answers 404 and changes nothing. This holds for teapots, teas
    and brews. *)
Theorem delete_then_gone (st : MemoryStore) (id : string) :
  Store.wf st ->
  (let st' := snd (TeapotRoutes.delete_teapot id st) in
   (snd (fst (TeapotRoutes.delete_teapot id st)) =
      if PyDict.contains (_teapots st) id then 204 else 404) /\
   TeapotRoutes.get_teapot id st' = (not_found "Teapot not found" 404, st') /\
   TeapotRoutes.delete_teapot id st'
   = ((Json (fst (not_found "Teapot not found" 404)), 404), st')) /\
  (let st' := snd (TeaRoutes.delete_tea id st) in
   (snd (fst (TeaRoutes.delete_tea id st)) =
      if PyDict.contains (_teas st) id then 204 else 404) /\
   TeaRoutes.get_tea id st' = (not_found "Tea not found" 404, st') /\
   TeaRoutes.delete_tea id st'
   = ((Json (fst (not_found "Tea not found" 404)), 404), st')) /\
  (let st' := snd (BrewRoutes.delete_brew id st) in
   (snd (fst (BrewRoutes.delete_brew id st)) =
      if PyDict.contains (_brews st) id then 204 else 404) /\
   BrewRoutes.get_brew id st' = (not_found "Brew not found" 404, st') /\
   BrewRoutes.delete_brew id st'
   = ((Json (fst (not_found "Brew not found" 404)), 404), st')).
Proof.
  intros (H1 & H2 & H3 & H4).
  split; [|split]; cbv zeta.
  - unfold TeapotRoutes.delete_teapot, TeapotRoutes.get_teapot,
      Store.delete_teapot, Store.get_teapot.
    destruct (PyDict.contains (_teapots st) id) eqn:Ec; cbn [negb fst snd _teapots].
    + pose proof (get_delitem_eq _ id H1) as Hg.
      unfold PyDict.contains. rewrite Hg. repeat split.
    + apply contains_false_iff in Ec. unfold PyDict.contains. rewrite Ec.
      repeat split.
  - unfold TeaRoutes.delete_tea, TeaRoutes.get_tea, Store.delete_tea, Store.get_tea.
    destruct (PyDict.contains (_teas st) id) eqn:Ec; cbn [negb fst snd _teas].
    + pose proof (get_delitem_eq _ id H2) as Hg.
      unfold PyDict.contains. rewrite Hg. repeat split.
    + apply contains_false_iff in Ec. unfold PyDict.contains. rewrite Ec.
      repeat split.
  - unfold BrewRoutes.delete_brew, BrewRoutes.get_brew, Store.delete_brew,
      Store.get_brew.
    destruct (PyDict.contains (_brews st) id) eqn:Ec; cbn [negb fst snd _brews].
    + pose proof (get_delitem_eq _ id H3) as Hg.
      unfold PyDict.contains. rewrite Hg. repeat split.
    + apply contains_false_iff in Ec. unfold PyDict.contains. rewrite Ec.
      repeat split.
Qed.

Lemma delete_then_gone_witness :
  snd (fst (BrewRoutes.delete_brew "b1" demo_store)) = 204 /\
  snd (fst (BrewRoutes.delete_brew "b1"
              (snd (BrewRoutes.delete_brew "b1" demo_store)))) = 404.
Proof.
  destruct (delete_then_gone demo_store "b1" wf_demo_store) as (_ & _ & H).
  cbv zeta in H. destruct H as (H1 & _ & H2).
  split; [exact H1|]. now rewrite H2.
Defined.

(** ** The outcome of a PATCH *)

Lemma opt_ok_overlay {A : Type} (ok : A -> bool) (cur : option A) (p : Patch A) :
  opt_ok ok cur = true -> patch_ok ok p = true -> opt_ok ok (overlay cur p) = true.
Proof. destruct p as [|[a|]]; simpl; auto. Qed.

Lemma patch_teapot_outcome id now st data existing :
  PyDict.get (_teapots st) id = Some existing ->
  Teapot_ok existing = true ->
  PatchTeapotRequest_errors data = [] ->
  (PatchTeapotRequest_nulls data = true ->
   Routes.patch_teapot id data now st = (internal_error, st)) /\
  (PatchTeapotRequest_nulls data = false ->
   exists teapot, fst (Routes.patch_teapot id data now st) = (JsonTeapot teapot, 200)).
Proof.
  intros Hget Hex Herr. unfold Routes.patch_teapot, Store.get_teapot.
  rewrite Hget, Herr. apply three_errors_nil in Herr.
  destruct Herr as (Hpn & Hpc & Hpd).
  unfold Teapot_ok in Hex. rewrite !andb_true_iff in Hex.
  destruct Hex as [[Hn Hc] Hd].
  pose proof (opt_ok_overlay _ _ _ Hd Hpd) as Hdesc.
  unfold PatchTeapotRequest_nulls, Teapot_model_validate, TeapotData_update,
    Teapot_model_dump, construct, Teapot_ok.
  destruct data as [n m c s d].
  cbn [pt_name pt_material pt_capacity_ml pt_style pt_description] in *.
  destruct n as [|[n|]], m as [|[m|]], c as [|[c|]], s as [|[s|]];
    cbn [is_null orb overlay td_id td_name td_material td_capacity_ml td_style
           td_description td_created_at td_updated_at teapot_name
           teapot_capacity_ml teapot_description patch_ok] in *;
    (split; intros Hnull; try discriminate Hnull; try reflexivity);
    rewrite ?Hn, ?Hc, ?Hpn, ?Hpc, Hdesc; cbn [andb]; eexists; reflexivity.
Qed.

Lemma patch_tea_outcome id now st data existing :
  PyDict.get (_teas st) id = Some existing ->
  Tea_ok existing = true ->
  PatchTeaRequest_errors data = [] ->
  (PatchTeaRequest_nulls data = true ->
   Routes.patch_tea id data now st = (internal_error, st)) /\
  (PatchTeaRequest_nulls data = false ->
   exists tea, fst (Routes.patch_tea id data now st) = (JsonTea tea, 200)).
Proof.
  intros Hget Hex Herr. unfold Routes.patch_tea, Store.get_tea.
  rewrite Hget, Herr. apply five_errors_nil in Herr.
  destruct Herr as (Hpn & Hpo & Hpst & Hptm & Hpd).
  unfold Tea_ok in Hex. rewrite !andb_true_iff in Hex.
  destruct Hex as [[[[Hn Ho] Hst] Htm] Hd].
  pose proof (opt_ok_overlay _ _ _ Hd Hpd) as Hdesc.
  pose proof (opt_ok_overlay _ _ _ Ho Hpo) as Horig.
  unfold PatchTeaRequest_nulls, Tea_model_validate, TeaData_update,
    Tea_model_dump, construct, Tea_ok.
  destruct data as [n ty o c tp tm d].
  cbn [pe_name pe_type pe_origin pe_caffeine_level pe_steep_temp_celsius
         pe_steep_time_seconds pe_description] in *.
  destruct n as [|[n|]], ty as [|[ty|]], c as [|[c|]], tp as [|[tp|]],
           tm as [|[tm|]];
    cbn [is_null orb overlay ed_id ed_name ed_type ed_origin ed_caffeine_level
           ed_steep_temp_celsius ed_steep_time_seconds ed_description
           ed_created_at ed_updated_at tea_name tea_origin
           tea_steep_temp_celsius tea_steep_time_seconds tea_description
           patch_ok] in *;
    (split; intros Hnull; try discriminate Hnull; try reflexivity);
    rewrite ?Hn, ?Hst, ?Htm, ?Hpn, ?Hpst, ?Hptm, Hdesc, Horig; cbn [andb];
    eexists; reflexivity.
Qed.

Lemma patch_brew_outcome id now st data existing :
  PyDict.get (_brews st) id = Some existing ->
  Brew_ok existing = true ->
  PatchBrewRequest_errors data = [] ->
  (PatchBrewRequest_nulls data = true ->
   Routes.patch_brew id data now st = (internal_error, st)) /\
  (PatchBrewRequest_nulls data = false ->
   exists brew, fst (Routes.patch_brew id data now st) = (JsonBrew brew, 200)).
Proof.
  intros Hget Hex Herr. unfold Routes.patch_brew, Store.get_brew.
  rewrite Hget, Herr. apply field_error_nil in Herr.
  unfold Brew_ok in Hex. rewrite !andb_true_iff in Hex. destruct Hex as [Hw Hn].
  pose proof (opt_ok_overlay _ _ _ Hn Herr) as Hnotes.
  unfold PatchBrewRequest_nulls, Brew_model_validate, BrewData_update,
    Brew_model_dump, construct, Brew_ok.
  destruct data as [s n c]. cbn [pb_status pb_notes pb_completed_at] in *.
  destruct s as [|[s|]];
    cbn [is_null overlay bd_id bd_teapot_id bd_tea_id bd_status
           bd_water_temp_celsius bd_notes bd_started_at bd_completed_at
           bd_created_at bd_updated_at brew_water_temp_celsius brew_notes] in *;
    (split; intros Hnull; try discriminate Hnull; try reflexivity);
    rewrite Hw, Hnotes; cbn [andb]; eexists; reflexivity.
Qed.

(** X11. The outcome of a valid PATCH body on a stored, valid entity. When
    the body gives null for a field the entity requires (a teapot's name,
    material, capacity or style; a tea's name, type, caffeine level, steep
    temperature or steep time; a brew's status), the merged entity does not
    validate and the answer is 500 INTERNAL_ERROR with the store unchanged.
    In every other case the answer is 200. A body that gives no field at all
    returns the entity with nothing but updated_at changed. *)
Theorem patch_outcome (st : MemoryStore) (id : string) (now : Z) :
  (forall data existing,
     PyDict.get (_teapots st) id = Some existing -> Teapot_ok existing = true ->
     PatchTeapotRequest_errors data = [] ->
     (PatchTeapotRequest_nulls data = true ->
      Routes.patch_teapot id data now st = (internal_error, st)) /\
     (PatchTeapotRequest_nulls data = false ->
      exists teapot,
        fst (Routes.patch_teapot id data now st) = (JsonTeapot teapot, 200)) /\
     (data = empty_teapot_patch ->
      fst (Routes.patch_teapot id data now st) =
      (JsonTeapot
         {| teapot_id_ := teapot_id_ existing; teapot_name := teapot_name existing;
            teapot_material := teapot_material existing;
            teapot_capacity_ml := teapot_capacity_ml existing;
            teapot_style := teapot_style existing;
            teapot_description := teapot_description existing;
            teapot_created_at := teapot_created_at existing;
            teapot_updated_at := now |}, 200))) /\
  (forall data existing,
     PyDict.get (_teas st) id = Some existing -> Tea_ok existing = true ->
     PatchTeaRequest_errors data = [] ->
     (PatchTeaRequest_nulls data = true ->
      Routes.patch_tea id data now st = (internal_error, st)) /\
     (PatchTeaRequest_nulls data = false ->
      exists tea, fst (Routes.patch_tea id data now st) = (JsonTea tea, 200)) /\
     (data = empty_tea_patch ->
      fst (Routes.patch_tea id data now st) =
      (JsonTea
         {| tea_id_ := tea_id_ existing; tea_name := tea_name existing;
            tea_type := tea_type existing; tea_origin := tea_origin existing;
            tea_caffeine_level := tea_caffeine_level existing;
            tea_steep_temp_celsius := tea_steep_temp_celsius existing;
            tea_steep_time_seconds := tea_steep_time_seconds existing;
            tea_description := tea_description existing;
            tea_created_at := tea_created_at existing;
            tea_updated_at := now |}, 200))) /\
  (forall data existing,
     PyDict.get (_brews st) id = Some existing -> Brew_ok existing = true ->
     PatchBrewRequest_errors data = [] ->
     (PatchBrewRequest_nulls data = true ->
      Routes.patch_brew id data now st = (internal_error, st)) /\
     (PatchBrewRequest_nulls data = false ->
      exists brew, fst (Routes.patch_brew id data now st) = (JsonBrew brew, 200)) /\
     (data = empty_brew_patch ->
      fst (Routes.patch_brew id data now st) =
      (JsonBrew
         {| brew_id_ := brew_id_ existing; brew_teapot_id := brew_teapot_id existing;
            brew_tea_id := brew_tea_id existing; brew_status := brew_status existing;
            brew_water_temp_celsius := brew_water_temp_celsius existing;
            brew_notes := brew_notes existing;
            brew_started_at := brew_started_at existing;
            brew_completed_at := brew_completed_at existing;
            brew_created_at := brew_created_at existing;
            brew_updated_at := now |}, 200))).
Proof.
  split; [|split]; intros data existing Hget Hex Herr.
  - destruct (patch_teapot_outcome id now st data existing Hget Hex Herr) as [Hn Hs].
    split; [exact Hn|]. split; [exact Hs|]. intros ->.
    unfold Routes.patch_teapot, Store.get_teapot. rewrite Hget.
    cbn [PatchTeapotRequest_errors empty_teapot_patch pt_name pt_capacity_ml
           pt_description patch_ok field_error app].
    unfold Teapot_model_validate, TeapotData_update, Teapot_model_dump, construct.
    cbn [overlay empty_teapot_patch pt_name pt_material pt_capacity_ml pt_style
           pt_description td_id td_name td_material td_capacity_ml td_style
           td_description td_created_at td_updated_at].
    unfold Teapot_ok in *.
    cbn [teapot_name teapot_capacity_ml teapot_description].
    now rewrite Hex.
  - destruct (patch_tea_outcome id now st data existing Hget Hex Herr) as [Hn Hs].
    split; [exact Hn|]. split; [exact Hs|]. intros ->.
    unfold Routes.patch_tea, Store.get_tea. rewrite Hget.
    cbn [PatchTeaRequest_errors empty_tea_patch pe_name pe_origin
           pe_steep_temp_celsius pe_steep_time_seconds pe_description patch_ok
           field_error app].
    unfold Tea_model_validate, TeaData_update, Tea_model_dump, construct.
    cbn [overlay empty_tea_patch pe_name pe_type pe_origin pe_caffeine_level
           pe_steep_temp_celsius pe_steep_time_seconds pe_description
           ed_id ed_name ed_type ed_origin ed_caffeine_level
           ed_steep_temp_celsius ed_steep_time_seconds ed_description
           ed_created_at ed_updated_at].
    unfold Tea_ok in *.
    cbn [tea_name tea_origin tea_steep_temp_celsius tea_steep_time_seconds
           tea_description].
    now rewrite Hex.
  - destruct (patch_brew_outcome id now st data existing Hget Hex Herr) as [Hn Hs].
    split; [exact Hn|]. split; [exact Hs|]. intros ->.
    unfold Routes.patch_brew, Store.get_brew. rewrite Hget.
    cbn [PatchBrewRequest_errors empty_brew_patch pb_notes patch_ok field_error].
    unfold Brew_model_validate, BrewData_update, Brew_model_dump, construct.
    cbn [overlay empty_brew_patch pb_status pb_notes pb_completed_at
           bd_id bd_teapot_id bd_tea_id bd_status bd_water_temp_celsius bd_notes
           bd_started_at bd_completed_at bd_created_at bd_updated_at].
    unfold Brew_ok in *. cbn [brew_water_temp_celsius brew_notes].
    now rewrite Hex.
Qed.

Lemma patch_outcome_witness :
  Routes.patch_teapot "tp1"
    {| pt_name := Given None; pt_material := Unset; pt_capacity_ml := Unset;
       pt_style := Unset; pt_description := Unset |} 9 demo_store
  = (internal_error, demo_store).
Proof.
  destruct (proj1 (patch_outcome demo_store "tp1" 9)
              {| pt_name := Given None; pt_material := Unset;
                 pt_capacity_ml := Unset; pt_style := Unset;
                 pt_description := Unset |} demo_teapot eq_refl eq_refl eq_refl)
    as (H & _).
  exact (H eq_refl).
Defined.

(** ** Invariants of the store under the handlers *)

Section EntryFacts.
Context {V : Type}.
Implicit Types (d : PyDict.t V) (k : string) (v : V).

Lemma In_setitem d k v k' v' :
  In (k', v') (PyDict.setitem d k v) -> (k' = k /\ v' = v) \/ In (k', v') d.
Proof.
  induction d as [|[k0 v0] r IH]; simpl.
  - intros [[= <- <-]|[]]. now left.
  - destruct (String.eqb_spec k k0) as [->|Hne]; simpl.
    + intros [[= <- <-]|I]; [now left | right; now right].
    + intros [E|I]; [right; now left|].
      destruct (IH I) as [?|?]; [now left | right; now right].
Qed.

Lemma In_delitem d k x : In x (PyDict.delitem d k) -> In x d.
Proof.
  induction d as [|[k0 v0] r IH]; simpl; [tauto|].
  destruct (String.eqb k k0); simpl; tauto.
Qed.

Lemma keyed_setitem (id_of : V -> string) d v :
  keyed id_of d -> keyed id_of (PyDict.setitem d (id_of v) v).
Proof.
  intros H k' v' I. destruct (In_setitem _ _ _ _ _ I) as [[-> ->]|I']; auto.
Qed.

Lemma all_ok_setitem (ok : V -> bool) d k v :
  all_ok ok d -> ok v = true -> all_ok ok (PyDict.setitem d k v).
Proof.
  intros H Hv k' v' I. destruct (In_setitem _ _ _ _ _ I) as [[-> ->]|I']; eauto.
Qed.

Lemma keyed_delitem (id_of : V -> string) d k :
  keyed id_of d -> keyed id_of (PyDict.delitem d k).
Proof. intros H k' v' I. apply H. eapply In_delitem; eassumption. Qed.

Lemma all_ok_delitem (ok : V -> bool) d k :
  all_ok ok d -> all_ok ok (PyDict.delitem d k).
Proof. intros H k' v' I. eapply H. eapply In_delitem; eassumption. Qed.

Lemma keyed_filter (id_of : V -> string) (p : string * V -> bool) d :
  keyed id_of d -> keyed id_of (filter p d).
Proof. intros H k' v' I. apply H. apply filter_In in I. tauto. Qed.

Lemma all_ok_filter (ok : V -> bool) (p : string * V -> bool) d :
  all_ok ok d -> all_ok ok (filter p d).
Proof. intros H k' v' I. eapply H. apply filter_In in I. apply I. Qed.

Lemma In_values d v : In v (PyDict.values d) <-> exists k, In (k, v) d.
Proof.
  unfold PyDict.values. rewrite in_map_iff. split.
  - intros [[k v'] [E I]]. simpl in E. subst. eauto.
  - intros [k I]. exists (k, v). auto.
Qed.

Lemma In_keys d k : In k (PyDict.keys d) <-> exists v, In (k, v) d.
Proof.
  unfold PyDict.keys. rewrite in_map_iff. split.
  - intros [[k' v] [E I]]. simpl in E. subst. eauto.
  - intros [v I]. exists (k, v). auto.
Qed.

Lemma contains_setitem_mono d k v k' :
  PyDict.contains d k' = true -> PyDict.contains (PyDict.setitem d k v) k' = true.
Proof.
  unfold PyDict.contains. destruct (String.eqb_spec k' k) as [->|Hne].
  - now rewrite get_setitem_eq.
  - now rewrite get_setitem_ne.
Qed.
End EntryFacts.

Lemma consistent_init : consistent Store.init.
Proof.
  split; [apply wf_init|]. repeat split; intros k v [].
Qed.

Lemma consistent_change ids st st' :
  consistent st -> store_change ids st st' -> consistent st'.
Proof.
  intros (Hwf & K1 & K2 & K3 & K4 & O1 & O2 & O3 & O4) Hc.
  pose proof Hwf as (W1 & W2 & W3 & W4).
  destruct Hc as [|t Ht|t Ht|b Hb|s Hs _ _ _|id|id|id].
  - repeat split; assumption.
  - split; [now apply wf_create_teapot|]. cbn [Store.update_teapot snd _teapots _teas
                                                 _brews _steeps].
    repeat split; auto using keyed_setitem, all_ok_setitem.
  - split; [now apply wf_create_tea|]. cbn [Store.update_tea snd _teapots _teas
                                              _brews _steeps].
    repeat split; auto using keyed_setitem, all_ok_setitem.
  - split; [now apply wf_create_brew|]. cbn [Store.update_brew snd _teapots _teas
                                               _brews _steeps].
    repeat split; auto using keyed_setitem, all_ok_setitem.
  - split; [now apply wf_create_steep|]. cbn [Store.create_steep snd _teapots _teas
                                                _brews _steeps].
    repeat split; auto using keyed_setitem, all_ok_setitem.
  - split; [now apply wf_delete_teapot|]. unfold Store.delete_teapot.
    destruct (negb _); cbn [snd _teapots _teas _brews _steeps];
      repeat split; auto using keyed_delitem, all_ok_delitem.
  - split; [now apply wf_delete_tea|]. unfold Store.delete_tea.
    destruct (negb _); cbn [snd _teapots _teas _brews _steeps];
      repeat split; auto using keyed_delitem, all_ok_delitem.
  - split; [now apply wf_delete_brew|]. unfold Store.delete_brew.
    destruct (negb _); cbn [snd _teapots _teas _brews _steeps];
      [repeat split; assumption|].
    rewrite delete_brew_steeps by assumption.
    repeat split; auto using keyed_delitem, all_ok_delitem, keyed_filter,
                    all_ok_filter.
Qed.

Lemma serve_all_app rs r st :
  serve_all (rs ++ [r]) st = snd (serve r (serve_all rs st)).
Proof. unfold serve_all. now rewrite fold_left_app. Qed.

Lemma consistent_serve_all rs st : consistent st -> consistent (serve_all rs st).
Proof.
  revert st. induction rs as [|r rs IH]; intros st H; [exact H|].
  apply IH. eapply consistent_change; [exact H | apply serve_change].
Qed.

(** X12. Whatever requests are served one after the other from the empty
    store, every stored entity is stored under the id it carries, and it
    satisfies the constraints of its class (lengths, ranges); each further
    request keeps this. *)
Theorem served_store_consistent (rs : list Request) :
  consistent (serve_all rs Store.init) /\
  forall r, consistent (snd (serve r (serve_all rs Store.init))).
Proof.
  split; [apply consistent_serve_all, consistent_init|].
  intros r. eapply consistent_change; [|apply serve_change].
  apply consistent_serve_all, consistent_init.
Qed.

Lemma no_orphan_change ids st st' :
  consistent st -> no_orphan_steeps st -> store_change ids st st' ->
  no_orphan_steeps st'.
Proof.
  intros (Hwf & _) Hno Hc. pose proof Hwf as (W1 & W2 & W3 & W4).
  unfold no_orphan_steeps in *.
  destruct Hc as [|t Ht|t Ht|b Hb|s Hs Hbrew _ _|id|id|id].
  - exact Hno.
  - exact Hno.
  - exact Hno.
  - cbn [Store.update_brew snd _brews _steeps]. intros s Hs.
    apply contains_setitem_mono. auto.
  - cbn [Store.create_steep snd _brews _steeps]. intros s' Hs'.
    apply In_values in Hs'. destruct Hs' as [k Hk].
    destruct (In_setitem _ _ _ _ _ Hk) as [[_ ->]|I]; [exact Hbrew|].
    apply Hno. apply In_values. eauto.
  - unfold Store.delete_teapot. destruct (negb _); exact Hno.
  - unfold Store.delete_tea. destruct (negb _); exact Hno.
  - destruct (fst (Store.delete_brew id st)) eqn:Ed.
    + intros s Hs. rewrite (delete_brew_values st id Hwf Ed) in Hs.
      apply filter_In in Hs. destruct Hs as [Hin Hne].
      unfold Store.delete_brew in *.
      destruct (negb (PyDict.contains (_brews st) id)); [discriminate|].
      cbn [snd _brews]. unfold PyDict.contains.
      rewrite get_delitem_ne.
      * apply Hno in Hin. exact Hin.
      * intros E. rewrite E, String.eqb_refl in Hne. discriminate.
    + unfold Store.delete_brew in *.
      destruct (negb (PyDict.contains (_brews st) id)); [exact Hno | discriminate].
Qed.

Lemma no_orphan_serve_all rs st :
  consistent st -> no_orphan_steeps st -> no_orphan_steeps (serve_all rs st).
Proof.
  revert st. induction rs as [|r rs IH]; intros st Hc Hn; [exact Hn|].
  apply IH.
  - eapply consistent_change; [exact Hc | apply serve_change].
  - eapply no_orphan_change; [exact Hc | exact Hn | apply serve_change].
Qed.

(** X13. Whatever requests are served one after the other from the empty
    store, every stored steep belongs to a brew that is stored: a steep is
    only created under a stored brew, and deleting the brew deletes its
    steeps with it. *)
Theorem served_store_has_no_orphan_steeps (rs : list Request) :
  no_orphan_steeps (serve_all rs Store.init).
Proof.
  apply no_orphan_serve_all; [apply consistent_init|]. intros s [].
Qed.

(** ** Steep numbers in a sequential run *)

Lemma steep_numbers_after_create (b : string) (s : Steep) (st : MemoryStore) :
  PyDict.get (_steeps st) (steep_id_ s) = None ->
  steep_numbers_of b (snd (Store.create_steep s st)) =
  steep_numbers_of b st
  ++ (if String.eqb (steep_brew_id s) b then [steep_number s] else []).
Proof.
  intros Hnew. unfold steep_numbers_of. cbn [Store.create_steep snd _steeps].
  rewrite values_setitem_fresh by assumption.
  rewrite filter_app, map_app. cbn [filter].
  now destruct (String.eqb (steep_brew_id s) b).
Qed.

Lemma numbered_change ids st st' :
  Store.wf st -> store_change ids st st' ->
  (forall k, In k ids -> PyDict.get (_steeps st) k = None) ->
  steeps_numbered st ->
  steeps_numbered st' /\
  (forall k, In k (PyDict.keys (_steeps st')) ->
             In k (PyDict.keys (_steeps st)) \/ In k ids).
Proof.
  intros Hwf Hc Hfresh Hnum. unfold steeps_numbered in *.
  destruct Hc as [|t Ht|t Ht|b Hb|s Hs Hbrew Hnext Hid|id|id|id].
  - split; [exact Hnum | auto].
  - split; [exact Hnum | auto].
  - split; [exact Hnum | auto].
  - split; [exact Hnum | auto].
  - pose proof (Hfresh _ Hid) as Hnew. split.
    + intros b. rewrite steep_numbers_after_create by assumption.
      destruct (Hnum b) as [k Hk].
      destruct (String.eqb_spec (steep_brew_id s) b) as [E|_].
      * exists (S k). subst b.
        rewrite Hnext, (next_number_of_run _ _ _ Hk), Hk. cbn [fst].
        now rewrite (seq_S k 1), map_app.
      * exists k. now rewrite app_nil_r.
    + cbn [Store.create_steep snd _steeps]. intros k Hk.
      rewrite setitem_fresh in Hk by assumption.
      unfold PyDict.keys in *. rewrite map_app, in_app_iff in Hk.
      destruct Hk as [?|[<-|[]]]; [now left | now right].
  - unfold Store.delete_teapot. destruct (negb _); (split; [exact Hnum | auto]).
  - unfold Store.delete_tea. destruct (negb _); (split; [exact Hnum | auto]).
  - destruct (fst (Store.delete_brew id st)) eqn:Ed.
    + split.
      * intros b. unfold steep_numbers_of.
        rewrite (delete_brew_values st id Hwf Ed), filter_brew_after_delete.
        destruct (String.eqb b id); [now exists 0%nat | apply Hnum].
      * destruct Hwf as (_ & _ & _ & W4). unfold Store.delete_brew in *.
        destruct (negb (PyDict.contains (_brews st) id)); [discriminate|].
        cbn [snd _steeps]. rewrite delete_brew_steeps by assumption.
        intros k Hk. left. eapply keys_filter_incl; eassumption.
    + unfold Store.delete_brew in *.
      destruct (negb (PyDict.contains (_brews st) id)); [|discriminate].
      split; [exact Hnum | auto].
Qed.

Lemma numbered_serve_all rs st :
  consistent st -> steeps_numbered st ->
  NoDup (generated_ids rs) ->
  (forall k, In k (generated_ids rs) -> PyDict.get (_steeps st) k = None) ->
  steeps_numbered (serve_all rs st).
Proof.
  revert st. induction rs as [|r rs IH]; intros st Hc Hnum Hnd Hfresh; [exact Hnum|].
  unfold generated_ids in *. cbn [flat_map] in *.
  assert (Hstep := numbered_change (generated_id r) st (snd (serve r st))
                     (proj1 Hc) (serve_change r st)
                     (fun k Hk => Hfresh k (in_or_app _ _ _ (or_introl Hk))) Hnum).
  destruct Hstep as [Hnum' Hkeys].
  apply IH.
  - eapply consistent_change; [exact Hc | apply serve_change].
  - exact Hnum'.
  - eapply NoDup_app_remove_l. exact Hnd.
  - intros k Hk. apply get_None_iff. intros Hin.
    destruct (Hkeys k Hin) as [Hold|Hr].
    + apply (proj1 (get_None_iff _ _)) in Hold; [exact Hold|].
      apply Hfresh. apply in_or_app. now right.
    + revert Hnd Hr Hk. generalize (generated_id r). generalize (flat_map generated_id rs).
      intros l2 l1 Hnd Hr Hk. induction l1 as [|a l1 IHl]; [contradiction|].
      inversion Hnd as [|? ? Hna Hnd']; subst. destruct Hr as [->|Hr].
      * apply Hna. apply in_or_app. now right.
      * now apply IHl.
Qed.

(** X14. Served one after the other from the empty store, with the
    generated identifiers pairwise distinct, the steeps of every brew carry
    the numbers 1, 2, ..., k without gap or repeat, in the order they were
    created. *)
Theorem sequential_steep_numbers (rs : list Request) :
  NoDup (generated_ids rs) ->
  steeps_numbered (serve_all rs Store.init).
Proof.
  intros Hnd. apply numbered_serve_all; [apply consistent_init| |exact Hnd|].
  - intros b. now exists 0%nat.
  - reflexivity.
Qed.

Lemma sequential_steep_numbers_witness :
  steeps_numbered (serve_all demo_requests Store.init).
Proof.
  apply (sequential_steep_numbers demo_requests).
  repeat (constructor; [simpl; intuition discriminate|]). constructor.
Defined.

Lemma sort_by_snoc {A : Type} (key : A -> Z) (xs : list A) (x : A) :
  sort_by key (xs ++ [x]) = insert_by key x (sort_by key xs).
Proof. unfold sort_by. now rewrite fold_left_app. Qed.

(** A list whose keys run a, a+1, ... is left as it is by the sort. *)
Lemma sort_by_run {A : Type} (key : A -> Z) (a : nat) (xs : list A) (k : nat) :
  map key xs = map Z.of_nat (seq a k) -> sort_by key xs = xs.
Proof.
  revert k. induction xs as [|x xs IH] using rev_ind; intros k Hrun; [reflexivity|].
  destruct k as [|k].
  - apply (f_equal (@List.length Z)) in Hrun. rewrite length_map, length_app in Hrun.
    simpl in Hrun. lia.
  - rewrite seq_S, !map_app in Hrun. cbn [map] in Hrun.
    apply app_inj_tail in Hrun. destruct Hrun as [Hxs Hx].
    rewrite sort_by_snoc, (IH k Hxs). apply insert_by_last.
    apply Forall_forall. intros y Hy.
    assert (In (key y) (map Z.of_nat (seq a k))) as Hin
        by (rewrite <- Hxs; now apply in_map).
    apply in_map_iff in Hin. destruct Hin as [n [Hn Hseq]].
    apply in_seq in Hseq. lia.
Qed.

(** X15. Served one after the other from the empty store, with the
    generated identifiers pairwise distinct, the steep listing of a brew is
    the page of the brew's steeps in the order they were created: sorting by
    steep number changes nothing. *)
Theorem steeps_listed_in_creation_order
    (rs : list Request) (brew_id : string) (q : PaginationQuery) :
  NoDup (generated_ids rs) ->
  fst (Store.list_steeps_by_brew brew_id q (serve_all rs Store.init)) =
  (py_slice
     (filter (fun s => String.eqb (steep_brew_id s) brew_id)
        (PyDict.values (_steeps (serve_all rs Store.init))))
     ((pq_page q - 1) * pq_limit q) ((pq_page q - 1) * pq_limit q + pq_limit q),
   len (filter (fun s => String.eqb (steep_brew_id s) brew_id)
          (PyDict.values (_steeps (serve_all rs Store.init))))).
Proof.
  intros Hnd.
  assert (Hnum : steeps_numbered (serve_all rs Store.init)).
  { apply numbered_serve_all; [apply consistent_init| |exact Hnd|reflexivity].
    intros b. now exists 0%nat. }
  destruct (Hnum brew_id) as [k Hk]. unfold steep_numbers_of in Hk.
  unfold Store.list_steeps_by_brew. cbn [fst].
  now rewrite (sort_by_run steep_number 1 _ k Hk).
Qed.

Lemma steeps_listed_in_creation_order_witness :
  map steep_id_
    (fst (fst (Store.list_steeps_by_brew "b" {| pq_page := 1; pq_limit := 20 |}
                 (serve_all demo_requests Store.init))))
  = ["s1"; "s2"].
Proof.
  rewrite (steeps_listed_in_creation_order demo_requests "b"
             {| pq_page := 1; pq_limit := 20 |}).
  - reflexivity.
  - repeat (constructor; [simpl; intuition discriminate|]). constructor.
Defined.

(** ** When a request fails with 500 *)








(** ** Brews of a deleted teapot *)

(** X17. After a stored teapot is deleted, the list of its brews under
    [/teapots/<id>/brews] answers 404, while the brews themselves are still
    stored and the brew list filtered by that teapot id returns them as
    before. *)
Theorem deleted_teapot_brews (st : MemoryStore) (id : string) (q : BrewQuery)
    (p : PaginationQuery) :
  Store.wf st ->
  PyDict.contains (_teapots st) id = true ->
  TeapotRoutes.list_teapot_brews id p (snd (TeapotRoutes.delete_teapot id st))
  = (list_not_found "Teapot not found", snd (TeapotRoutes.delete_teapot id st)) /\
  fst (BrewRoutes.list_brews q (snd (TeapotRoutes.delete_teapot id st)))
  = fst (BrewRoutes.list_brews q st) /\
  _brews (snd (TeapotRoutes.delete_teapot id st)) = _brews st.
Proof.
  intros (W1 & _) Hc.
  unfold TeapotRoutes.delete_teapot, TeapotRoutes.list_teapot_brews,
    BrewRoutes.list_brews, Store.delete_teapot, Store.get_teapot, Store.list_brews.
  rewrite Hc. cbn [negb fst snd _teapots _brews].
  rewrite (get_delitem_eq _ id W1). repeat split.
  destruct (BrewQuery_errors q); reflexivity.
Qed.

Lemma deleted_teapot_brews_witness :
  snd (fst (TeapotRoutes.list_teapot_brews "tp1" {| pq_page := 1; pq_limit := 20 |}
              (snd (TeapotRoutes.delete_teapot "tp1" demo_store)))) = 404.
Proof.
  destruct (deleted_teapot_brews demo_store "tp1"
              {| bq_page := 1; bq_limit := 20; bq_status := None;
                 bq_teapot_id := Some "tp1"; bq_tea_id := None |}
              {| pq_page := 1; pq_limit := 20 |} wf_demo_store eq_refl) as (H & _).
  now rewrite H.
Defined.

(** ** PATCH twice *)

Lemma overlay_twice {A : Type} (cur : option A) (p : Patch A) :
  overlay (overlay cur p) p = overlay cur p.
Proof. now destruct p. Qed.

Lemma patch_teapot_again id data now1 now2 st t1 st1 :
  keyed teapot_id_ (_teapots st) ->
  Routes.patch_teapot id data now1 st = ((JsonTeapot t1, 200), st1) ->
  fst (Routes.patch_teapot id data now2 st1) =
  (JsonTeapot
     {| teapot_id_ := teapot_id_ t1; teapot_name := teapot_name t1;
        teapot_material := teapot_material t1;
        teapot_capacity_ml := teapot_capacity_ml t1;
        teapot_style := teapot_style t1;
        teapot_description := teapot_description t1;
        teapot_created_at := teapot_created_at t1;
        teapot_updated_at := now2 |}, 200).
Proof.
  intros Hk. unfold Routes.patch_teapot, Store.get_teapot, Store.update_teapot.
  destruct (PyDict.get (_teapots st) id) as [ex|] eqn:Eg; [|discriminate].
  destruct (PatchTeapotRequest_errors data) eqn:Ee; [|discriminate].
  destruct (Teapot_model_validate _) as [t|] eqn:Ev; [|discriminate].
  intros [= -> <-]. cbn [_teapots].
  pose proof (Teapot_model_validate_ok _ _ Ev) as Hok.
  apply Teapot_model_validate_Some in Ev.
  assert (Hid : teapot_id_ t1 = id).
  { injection Ev as Hid _. rewrite <- (Hk _ _ (get_Some_In _ _ _ Eg)). congruence. }
  rewrite Hid, get_setitem_eq.
  assert (Hd : TeapotData_update (Teapot_model_dump t1) data now2 =
               Teapot_model_dump
                 {| teapot_id_ := teapot_id_ t1; teapot_name := teapot_name t1;
                    teapot_material := teapot_material t1;
                    teapot_capacity_ml := teapot_capacity_ml t1;
                    teapot_style := teapot_style t1;
                    teapot_description := teapot_description t1;
                    teapot_created_at := teapot_created_at t1;
                    teapot_updated_at := now2 |}).
  { rewrite <- Ev. unfold TeapotData_update, Teapot_model_dump. cbn.
    rewrite !overlay_twice.
    unfold TeapotData_update, Teapot_model_dump in Ev. cbn in Ev.
    injection Ev as E1 E2 E3 E4 E5 E6 E7.
    rewrite E2, E3, E4, E5, E6. congruence. }
  rewrite Hd. unfold Teapot_model_validate, Teapot_model_dump, construct. cbn.
  unfold Teapot_ok in *. cbn. rewrite Hok. cbn [fst]. now rewrite Hid.
Qed.

Lemma patch_tea_again id data now1 now2 st t1 st1 :
  keyed tea_id_ (_teas st) ->
  Routes.patch_tea id data now1 st = ((JsonTea t1, 200), st1) ->
  fst (Routes.patch_tea id data now2 st1) =
  (JsonTea
     {| tea_id_ := tea_id_ t1; tea_name := tea_name t1; tea_type := tea_type t1;
        tea_origin := tea_origin t1; tea_caffeine_level := tea_caffeine_level t1;
        tea_steep_temp_celsius := tea_steep_temp_celsius t1;
        tea_steep_time_seconds := tea_steep_time_seconds t1;
        tea_description := tea_description t1;
        tea_created_at := tea_created_at t1; tea_updated_at := now2 |}, 200).
Proof.
  intros Hk. unfold Routes.patch_tea, Store.get_tea, Store.update_tea.
  destruct (PyDict.get (_teas st) id) as [ex|] eqn:Eg; [|discriminate].
  destruct (PatchTeaRequest_errors data) eqn:Ee; [|discriminate].
  destruct (Tea_model_validate _) as [t|] eqn:Ev; [|discriminate].
  intros [= -> <-]. cbn [_teas].
  pose proof (Tea_model_validate_ok _ _ Ev) as Hok.
  apply Tea_model_validate_Some in Ev.
  assert (Hid : tea_id_ t1 = id).
  { injection Ev as Hid _. rewrite <- (Hk _ _ (get_Some_In _ _ _ Eg)). congruence. }
  rewrite Hid, get_setitem_eq.
  assert (Hd : TeaData_update (Tea_model_dump t1) data now2 =
               Tea_model_dump
                 {| tea_id_ := tea_id_ t1; tea_name := tea_name t1;
                    tea_type := tea_type t1; tea_origin := tea_origin t1;
                    tea_caffeine_level := tea_caffeine_level t1;
                    tea_steep_temp_celsius := tea_steep_temp_celsius t1;
                    tea_steep_time_seconds := tea_steep_time_seconds t1;
                    tea_description := tea_description t1;
                    tea_created_at := tea_created_at t1;
                    tea_updated_at := now2 |}).
  { rewrite <- Ev. unfold TeaData_update, Tea_model_dump. cbn.
    rewrite !overlay_twice.
    unfold TeaData_update, Tea_model_dump in Ev. cbn in Ev.
    injection Ev; intros. f_equal; congruence. }
  rewrite Hd. unfold Tea_model_validate, Tea_model_dump, construct. cbn.
  unfold Tea_ok in *. cbn. rewrite Hok. cbn [fst]. now rewrite Hid.
Qed.

Lemma patch_brew_again id data now1 now2 st b1 st1 :
  keyed brew_id_ (_brews st) ->
  Routes.patch_brew id data now1 st = ((JsonBrew b1, 200), st1) ->
  fst (Routes.patch_brew id data now2 st1) =
  (JsonBrew
     {| brew_id_ := brew_id_ b1; brew_teapot_id := brew_teapot_id b1;
        brew_tea_id := brew_tea_id b1; brew_status := brew_status b1;
        brew_water_temp_celsius := brew_water_temp_celsius b1;
        brew_notes := brew_notes b1; brew_started_at := brew_started_at b1;
        brew_completed_at := brew_completed_at b1;
        brew_created_at := brew_created_at b1; brew_updated_at := now2 |}, 200).
Proof.
  intros Hk. unfold Routes.patch_brew, Store.get_brew, Store.update_brew.
  destruct (PyDict.get (_brews st) id) as [ex|] eqn:Eg; [|discriminate].
  destruct (PatchBrewRequest_errors data) eqn:Ee; [|discriminate].
  destruct (Brew_model_validate _) as [t|] eqn:Ev; [|discriminate].
  intros [= -> <-]. cbn [_brews].
  pose proof (Brew_model_validate_ok _ _ Ev) as Hok.
  apply Brew_model_validate_Some in Ev.
  assert (Hid : brew_id_ b1 = id).
  { injection Ev as Hid _. rewrite <- (Hk _ _ (get_Some_In _ _ _ Eg)). congruence. }
  rewrite Hid, get_setitem_eq.
  assert (Hd : BrewData_update (Brew_model_dump b1) data now2 =
               Brew_model_dump
                 {| brew_id_ := brew_id_ b1; brew_teapot_id := brew_teapot_id b1;
                    brew_tea_id := brew_tea_id b1; brew_status := brew_status b1;
                    brew_water_temp_celsius := brew_water_temp_celsius b1;
                    brew_notes := brew_notes b1;
                    brew_started_at := brew_started_at b1;
                    brew_completed_at := brew_completed_at b1;
                    brew_created_at := brew_created_at b1;
                    brew_updated_at := now2 |}).
  { rewrite <- Ev. unfold BrewData_update, Brew_model_dump. cbn.
    rewrite !overlay_twice.
    unfold BrewData_update, Brew_model_dump in Ev. cbn in Ev.
    injection Ev; intros. f_equal; congruence. }
  rewrite Hd. unfold Brew_model_validate, Brew_model_dump, construct. cbn.
  unfold Brew_ok in *. cbn. rewrite Hok. cbn [fst]. now rewrite Hid.
Qed.

(** X18. PATCH is idempotent up to the timestamp. When a PATCH has
    succeeded on a store that keys its entities by their id, sending the same
    body again succeeds and returns the entity the first PATCH returned, with
    only updated_at moved to the new clock reading. *)
Theorem patch_twice (id : string) (now1 now2 : Z) (st st1 : MemoryStore) :
  consistent st ->
  (forall data t1,
     Routes.patch_teapot id data now1 st = ((JsonTeapot t1, 200), st1) ->
     fst (Routes.patch_teapot id data now2 st1) =
     (JsonTeapot
        {| teapot_id_ := teapot_id_ t1; teapot_name := teapot_name t1;
           teapot_material := teapot_material t1;
           teapot_capacity_ml := teapot_capacity_ml t1;
           teapot_style := teapot_style t1;
           teapot_description := teapot_description t1;
           teapot_created_at := teapot_created_at t1;
           teapot_updated_at := now2 |}, 200)) /\
  (forall data t1,
     Routes.patch_tea id data now1 st = ((JsonTea t1, 200), st1) ->
     fst (Routes.patch_tea id data now2 st1) =
     (JsonTea
        {| tea_id_ := tea_id_ t1; tea_name := tea_name t1; tea_type := tea_type t1;
           tea_origin := tea_origin t1; tea_caffeine_level := tea_caffeine_level t1;
           tea_steep_temp_celsius := tea_steep_temp_celsius t1;
           tea_steep_time_seconds := tea_steep_time_seconds t1;
           tea_description := tea_description t1;
           tea_created_at := tea_created_at t1; tea_updated_at := now2 |}, 200)) /\
  (forall data b1,
     Routes.patch_brew id data now1 st = ((JsonBrew b1, 200), st1) ->
     fst (Routes.patch_brew id data now2 st1) =
     (JsonBrew
        {| brew_id_ := brew_id_ b1; brew_teapot_id := brew_teapot_id b1;
           brew_tea_id := brew_tea_id b1; brew_status := brew_status b1;
           brew_water_temp_celsius := brew_water_temp_celsius b1;
           brew_notes := brew_notes b1; brew_started_at := brew_started_at b1;
           brew_completed_at := brew_completed_at b1;
           brew_created_at := brew_created_at b1; brew_updated_at := now2 |}, 200)).
Proof.
  intros (_ & K1 & K2 & K3 & _).
  split; [|split]; intros data e He.
  - eapply patch_teapot_again; eassumption.
  - eapply patch_tea_again; eassumption.
  - eapply patch_brew_again; eassumption.
Qed.

Lemma consistent_demo_store : consistent demo_store.
Proof.
  split; [apply wf_demo_store|].
  repeat split; intros k v Hin; simpl in Hin;
    repeat (destruct Hin as [[= <- <-]|Hin]; [reflexivity|]); contradiction.
Qed.

Lemma patch_twice_witness :
  fst (Routes.patch_teapot "tp1"
         {| pt_name := Given (Some "Tokoname"); pt_material := Unset;
            pt_capacity_ml := Unset; pt_style := Unset;
            pt_description := Given None |} 9
         (snd (Routes.patch_teapot "tp1"
                 {| pt_name := Given (Some "Tokoname"); pt_material := Unset;
                    pt_capacity_ml := Unset; pt_style := Unset;
                    pt_description := Given None |} 8 demo_store)))
  = (JsonTeapot
       {| teapot_id_ := "tp1"; teapot_name := "Tokoname"; teapot_material := CLAY;
          teapot_capacity_ml := 350; teapot_style := KYUSU;
          teapot_description := None; teapot_created_at := 5;
          teapot_updated_at := 9 |}, 200).
Proof.
  exact (proj1 (patch_twice "tp1" 8 9 demo_store _ consistent_demo_store)
           {| pt_name := Given (Some "Tokoname"); pt_material := Unset;
              pt_capacity_ml := Unset; pt_style := Unset;
              pt_description := Given None |}
           {| teapot_id_ := "tp1"; teapot_name := "Tokoname";
              teapot_material := CLAY; teapot_capacity_ml := 350;
              teapot_style := KYUSU; teapot_description := None;
              teapot_created_at := 5; teapot_updated_at := 8 |} eq_refl).
Defined.

(** ** Storing a steep *)

(** X19. Storing a steep under an id that is not yet used makes it the
    answer of [get_steep] for that id and leaves the other ids as they were;
    the steep listing of its brew counts one steep more, and the listing of
    every other brew is unchanged. *)
Theorem create_steep_then_listed (st : MemoryStore) (s : Steep) :
  PyDict.get (_steeps st) (steep_id_ s) = None ->
  fst (Store.get_steep (steep_id_ s) (snd (Store.create_steep s st))) = Some s /\
  (forall k, k <> steep_id_ s ->
     fst (Store.get_steep k (snd (Store.create_steep s st)))
     = fst (Store.get_steep k st)) /\
  (forall q,
     snd (fst (Store.list_steeps_by_brew (steep_brew_id s) q
                 (snd (Store.create_steep s st))))
     = snd (fst (Store.list_steeps_by_brew (steep_brew_id s) q st)) + 1) /\
  (forall b q, b <> steep_brew_id s ->
     fst (Store.list_steeps_by_brew b q (snd (Store.create_steep s st)))
     = fst (Store.list_steeps_by_brew b q st)).
Proof.
  intros Hnew. unfold Store.get_steep, Store.list_steeps_by_brew.
  cbn [Store.create_steep fst snd _steeps].
  split; [apply get_setitem_eq|]. split; [intros k Hk; now apply get_setitem_ne|].
  rewrite values_setitem_fresh by assumption. split.
  - intros q. rewrite filter_app. cbn [filter]. rewrite String.eqb_refl.
    unfold len. rewrite !sort_by_length, length_app. simpl. lia.
  - intros b q Hb. rewrite filter_app. cbn [filter].
    destruct (String.eqb_spec (steep_brew_id s) b) as [E|_]; [congruence|].
    now rewrite app_nil_r.
Qed.

Lemma create_steep_then_listed_witness :
  fst (Store.get_steep "s9" (snd (Store.create_steep (demo_steep "s9" "b1" 3)
                                    demo_store)))
  = Some (demo_steep "s9" "b1" 3).
Proof.
  destruct (create_steep_then_listed demo_store (demo_steep "s9" "b1" 3) eq_refl)
    as (H & _).
  exact H.
Defined.

(* ================================================================== *)
(** * Concurrent steep creation for different brews *)
(* ================================================================== *)

Lemma run_schedule_app (s1 s2 : list nat) (ts : Threads) (st : MemoryStore) :
  run_schedule (s1 ++ s2) ts st =
  run_schedule s2 (fst (run_schedule s1 ts st)) (snd (run_schedule s1 ts st)).
Proof.
  revert ts st. induction s1 as [|i s1 IH]; intros ts st; [reflexivity|].
  cbn [app run_schedule]. destruct (step_thread i ts st) as [ts' st']. apply IH.
Qed.

(** What a step reads of the store: the brews, and the steeps of its brew. *)
Lemma steep_step_reads (c : SteepCall) (pc : SteepPc) (st cur : MemoryStore) :
  _brews cur = _brews st ->
  undisturbed c pc st cur ->
  fst (steep_step c pc cur) = fst (steep_step c pc st).
Proof.
  intros Hb Hu. destruct pc as [| |s|r]; cbn [steep_step].
  - unfold Store.get_brew. rewrite Hb.
    destruct (PyDict.get (_brews st) (sc_brew_id c)); [|reflexivity].
    destruct (CreateSteepRequest_errors (sc_data c)); reflexivity.
  - destruct Hu as [Hf _]; [discriminate|].
    unfold Store.get_next_steep_number. rewrite Hf.
    destruct (filter _ (PyDict.values (_steeps st))); cbn;
      destruct (construct Steep_ok _); reflexivity.
  - reflexivity.
  - reflexivity.
Qed.

(** A step changes the store only when it stores the steep it has built. *)
Lemma steep_step_store (c : SteepCall) (pc : SteepPc) (st : MemoryStore) :
  snd (steep_step c pc st) =
  match pc with
  | AtCreate s => snd (Store.create_steep s st)
  | _ => st
  end.
Proof.
  destruct pc as [| |s|r]; cbn [steep_step].
  - unfold Store.get_brew. destruct (PyDict.get (_brews st) (sc_brew_id c)); [|reflexivity].
    destruct (CreateSteepRequest_errors (sc_data c)); reflexivity.
  - pose proof (get_next_steep_number_reads (sc_brew_id c) st) as H.
    destruct (Store.get_next_steep_number (sc_brew_id c) st) as [n st']. cbn in H.
    subst st'. destruct (construct Steep_ok _); reflexivity.
  - reflexivity.
  - reflexivity.
Qed.

Lemma steep_step_built (c : SteepCall) (pc : SteepPc) (st : MemoryStore) (s : Steep) :
  fst (steep_step c pc st) = AtCreate s ->
  steep_id_ s = sc_uuid c /\ steep_brew_id s = sc_brew_id c.
Proof.
  destruct pc as [| |s'|r]; cbn [steep_step].
  - unfold Store.get_brew. destruct (PyDict.get (_brews st) (sc_brew_id c)); [|discriminate].
    destruct (CreateSteepRequest_errors (sc_data c)); discriminate.
  - destruct (Store.get_next_steep_number (sc_brew_id c) st) as [n st'].
    unfold construct. destruct (Steep_ok _); [|discriminate].
    intros [= <-]. split; reflexivity.
  - discriminate.
  - discriminate.
Qed.

Lemma steep_step_returned (c : SteepCall) (pc : SteepPc) (st : MemoryStore) :
  (forall r, fst (steep_step c pc st) <> Returned r) ->
  (forall r, pc <> Returned r) /\ snd (steep_step c pc st) = st.
Proof.
  intros H. rewrite steep_step_store. destruct pc as [| |s|r].
  - split; [discriminate | reflexivity].
  - split; [discriminate | reflexivity].
  - exfalso. eapply H. reflexivity.
  - exfalso. eapply H. reflexivity.
Qed.

(** Alone, a thread that has not returned has not touched the store. *)
Lemma solo_store (c : SteepCall) (k : nat) (st : MemoryStore) :
  (forall r, fst (solo c k st) <> Returned r) -> snd (solo c k st) = st.
Proof.
  induction k as [|k IH]; cbn [solo]; [reflexivity|].
  destruct (solo c k st) as [pc st'] eqn:E. cbn [fst snd] in IH.
  intros H. destruct (steep_step_returned c pc st' H) as [Hpc Hst].
  rewrite Hst. apply IH. exact Hpc.
Qed.

Lemma solo_S (c : SteepCall) (k : nat) (st : MemoryStore) :
  fst (solo c (S k) st) = fst (steep_step c (fst (solo c k st)) st).
Proof.
  cbn [solo]. pose proof (solo_store c k st) as Hs.
  destruct (solo c k st) as [pc st']. cbn [fst snd] in *.
  destruct pc as [| |s|r]; try (rewrite Hs by discriminate; reflexivity).
  reflexivity.
Qed.

Lemma solo_built (c : SteepCall) (k : nat) (st : MemoryStore) (s : Steep) :
  fst (solo c k st) = AtCreate s ->
  steep_id_ s = sc_uuid c /\ steep_brew_id s = sc_brew_id c.
Proof.
  destruct k as [|k]; [discriminate|]. rewrite solo_S. apply steep_step_built.
Qed.

Lemma solo_returned (c : SteepCall) (k n : nat) (st : MemoryStore) (r : Response) :
  fst (solo c k st) = Returned r -> fst (solo c (n + k) st) = Returned r.
Proof.
  intros H. induction n as [|n IH]; [exact H|].
  cbn [Nat.add]. rewrite solo_S, IH. reflexivity.
Qed.

Lemma solo_three (c : SteepCall) (k : nat) (st : MemoryStore) :
  (3 <= k)%nat ->
  fst (solo c k st) =
  Returned (fst (Routes.create_steep (sc_brew_id c) (sc_data c) (sc_uuid c)
                   (sc_now c) st)).
Proof.
  intros Hk. replace k with ((k - 3) + 3)%nat by lia. apply solo_returned.
  pose proof (steep_step_sequential c st) as H. cbn [solo].
  destruct (steep_step c AtGetBrew st) as [pc1 s1].
  destruct (steep_step c pc1 s1) as [pc2 s2].
  destruct (steep_step c pc2 s2) as [pc3 s3]. now inversion H.
Qed.

(** One step of one thread keeps the other thread undisturbed. *)
Lemma step_keeps_undisturbed (c c' : SteepCall) (pc pc' : SteepPc)
    (st cur : MemoryStore) (k : nat) :
  sc_brew_id c <> sc_brew_id c' -> sc_uuid c <> sc_uuid c' ->
  pc = fst (solo c k st) ->
  undisturbed c pc st cur -> undisturbed c' pc' st cur ->
  undisturbed c' pc' st (snd (steep_step c pc cur)) /\
  undisturbed c (fst (steep_step c pc cur)) st (snd (steep_step c pc cur)) /\
  _brews (snd (steep_step c pc cur)) = _brews cur.
Proof.
  intros Hb Hu Hpc Hc Hc'. rewrite steep_step_store.
  destruct pc as [| |s|r].
  - split; [exact Hc'|]. split; [|reflexivity]. intros _. apply Hc. discriminate.
  - split; [exact Hc'|]. split; [|reflexivity]. intros _. apply Hc. discriminate.
  - destruct (solo_built c k st s (eq_sym Hpc)) as [Hid Hbr].
    destruct Hc as [_ Hnew]; [discriminate|]. rewrite <- Hid in Hnew.
    split; [|split; [|reflexivity]].
    + intros Hnr. destruct (Hc' Hnr) as [Hf Hg].
      cbn [Store.create_steep snd _steeps]. split.
      * rewrite values_setitem_fresh by assumption.
        rewrite filter_app. cbn [filter]. rewrite Hbr.
        destruct (String.eqb_spec (sc_brew_id c) (sc_brew_id c')); [contradiction|].
        now rewrite app_nil_r.
      * rewrite get_setitem_ne; [exact Hg | congruence].
    + intros Hnr. exfalso. eapply Hnr. reflexivity.
  - split; [exact Hc'|]. split; [|reflexivity]. intros Hnr. exfalso.
    eapply Hnr. cbn [steep_step fst]. reflexivity.
Qed.

Lemma two_threads_positions (c1 c2 : SteepCall) (st : MemoryStore) (sched : list nat) :
  sc_brew_id c1 <> sc_brew_id c2 -> sc_uuid c1 <> sc_uuid c2 ->
  PyDict.get (_steeps st) (sc_uuid c1) = None ->
  PyDict.get (_steeps st) (sc_uuid c2) = None ->
  exists cur,
    run_schedule sched [(c1, AtGetBrew); (c2, AtGetBrew)] st =
    ([(c1, fst (solo c1 (count_occ Nat.eq_dec sched 0%nat) st));
      (c2, fst (solo c2 (count_occ Nat.eq_dec sched 1%nat) st))], cur) /\
    _brews cur = _brews st /\
    undisturbed c1 (fst (solo c1 (count_occ Nat.eq_dec sched 0%nat) st)) st cur /\
    undisturbed c2 (fst (solo c2 (count_occ Nat.eq_dec sched 1%nat) st)) st cur.
Proof.
  intros Hb Hu H1 H2. induction sched as [|i sched IH] using rev_ind.
  - exists st. split; [reflexivity|]. split; [reflexivity|].
    split; intros _; split; auto.
  - destruct IH as (cur & Hrun & Hbr & U1 & U2).
    rewrite run_schedule_app, Hrun. cbn [fst snd run_schedule].
    rewrite !count_occ_app. cbn [count_occ].
    set (k1 := count_occ Nat.eq_dec sched 0%nat) in *.
    set (k2 := count_occ Nat.eq_dec sched 1%nat) in *.
    destruct i as [|[|i]].
    + cbn [step_thread].
      destruct (Nat.eq_dec 0 0) as [_|n]; [|contradiction].
      destruct (Nat.eq_dec 0 1) as [e|_]; [discriminate|].
      rewrite !Nat.add_0_r, Nat.add_1_r, solo_S.
      destruct (step_keeps_undisturbed c1 c2 _ _ st cur k1 Hb Hu eq_refl U1 U2)
        as (U2' & U1' & Hbr').
      pose proof (steep_step_reads c1 _ st cur Hbr U1) as Hsame.
      destruct (steep_step c1 (fst (solo c1 k1 st)) cur) as [pc cur'].
      cbn [fst snd] in *. exists cur'. rewrite <- Hsame.
      split; [reflexivity|]. split; [congruence|]. split; assumption.
    + cbn [step_thread].
      destruct (Nat.eq_dec 1 0) as [e|_]; [discriminate|].
      destruct (Nat.eq_dec 1 1) as [_|n]; [|contradiction].
      rewrite !Nat.add_0_r, Nat.add_1_r, solo_S.
      destruct (step_keeps_undisturbed c2 c1 _ _ st cur k2
                  (not_eq_sym Hb) (not_eq_sym Hu) eq_refl U2 U1)
        as (U1' & U2' & Hbr').
      pose proof (steep_step_reads c2 _ st cur Hbr U2) as Hsame.
      destruct (steep_step c2 (fst (solo c2 k2 st)) cur) as [pc cur'].
      cbn [fst snd] in *. exists cur'. rewrite <- Hsame.
      split; [reflexivity|]. split; [congruence|]. split; assumption.
    + cbn [step_thread].
      destruct (Nat.eq_dec (S (S i)) 0) as [e|_]; [discriminate|].
      destruct (Nat.eq_dec (S (S i)) 1) as [e|_]; [discriminate|].
      rewrite !Nat.add_0_r. exists cur. split; [destruct i; reflexivity|].
      split; [assumption|]. split; assumption.
Qed.

(** X20. Two requests that create a steep for two different brews, with
    different fresh identifiers, do not interfere, whatever the schedule of
    their store calls: each thread is where it would be after as many steps
    of its own run alone on the store they started from, and once a thread
    has made its three steps its answer is the answer of the handler run
    alone on that store. *)
Theorem different_brews_do_not_interfere
    (c1 c2 : SteepCall) (st : MemoryStore) (sched : list nat) :
  sc_brew_id c1 <> sc_brew_id c2 -> sc_uuid c1 <> sc_uuid c2 ->
  PyDict.get (_steeps st) (sc_uuid c1) = None ->
  PyDict.get (_steeps st) (sc_uuid c2) = None ->
  fst (run_schedule sched [(c1, AtGetBrew); (c2, AtGetBrew)] st) =
  [(c1, fst (solo c1 (count_occ Nat.eq_dec sched 0%nat) st));
   (c2, fst (solo c2 (count_occ Nat.eq_dec sched 1%nat) st))] /\
  ((3 <= count_occ Nat.eq_dec sched 0)%nat ->
   fst (solo c1 (count_occ Nat.eq_dec sched 0%nat) st) =
   Returned (fst (Routes.create_steep (sc_brew_id c1) (sc_data c1) (sc_uuid c1)
                    (sc_now c1) st))) /\
  ((3 <= count_occ Nat.eq_dec sched 1)%nat ->
   fst (solo c2 (count_occ Nat.eq_dec sched 1%nat) st) =
   Returned (fst (Routes.create_steep (sc_brew_id c2) (sc_data c2) (sc_uuid c2)
                    (sc_now c2) st))).
Proof.
  intros Hb Hu H1 H2.
  destruct (two_threads_positions c1 c2 st sched Hb Hu H1 H2) as (cur & Hrun & _).
  rewrite Hrun. split; [reflexivity|]. split; apply solo_three.
Qed.

Lemma different_brews_do_not_interfere_witness :
  map snd
    (fst (run_schedule [0; 1; 1; 0; 1; 0]%nat
            [(demo_call "b1" "s-a" 40, AtGetBrew); (demo_call "b2" "s-b" 41, AtGetBrew)]
            demo_store))
  = [Returned (fst (Routes.create_steep "b1" (sc_data (demo_call "b1" "s-a" 40))
                      "s-a" 40 demo_store));
     Returned (fst (Routes.create_steep "b2" (sc_data (demo_call "b2" "s-b" 41))
                      "s-b" 41 demo_store))].
Proof.
  destruct (different_brews_do_not_interfere
              (demo_call "b1" "s-a" 40) (demo_call "b2" "s-b" 41) demo_store
              [0; 1; 1; 0; 1; 0]%nat) as (Hrun & Ha & Hb);
    [discriminate | discriminate | reflexivity | reflexivity |].
  rewrite Hrun. cbn [map snd]. rewrite Ha, Hb; [reflexivity | | ]; simpl; lia.
Defined.
